(** * The native POSIX Linux SocketCAN driver, as a shallow embedding

    Source: [drivers/can/can_native_posix_linux.c].

    The driver keeps one [struct can_npl_data] per device.  It is touched by
    the callers of the CAN API and by the receive thread.  Every function of
    the driver is embedded as a computation over a [world]: the driver data,
    the state of everything outside the driver (the Linux socket, the
    application behind the callbacks), and the trace of the calls the driver
    makes to the outside (log lines, mutex operations, callbacks).

    A computation either finishes, or pends on a kernel semaphore; in the
    second case it carries the rest of the C function as a continuation that
    receives what [k_sem_take] returns when the kernel resumes the thread. *)

From stdpp Require Import base numbers list strings.

Local Open Scope Z_scope.

(** ** Constants of headers that are outside the driver file *)

(** Modelled from the spec: the error codes of [errno.h], which the driver
    includes but does not define (spec section 7 names them; the numbers are
    those of Zephyr's [errno.h]).  The driver only relies on their being
    positive. *)
Definition EIO : Z := 5.
Definition EAGAIN : Z := 11.
Definition EBUSY : Z := 16.
Definition ENODEV : Z := 19.
Definition EINVAL : Z := 22.
Definition ENOSPC : Z := 28.
Definition ENETDOWN : Z := 115.
Definition EALREADY : Z := 120.
Definition ENOTSUP : Z := 134.

(** Modelled from the spec: the mode bits of [zephyr/drivers/can.h]
    ([can_mode_t] is a [uint32_t]; [BIT(n)] is [1 << n]). *)
Definition BIT (n : Z) : Z := Z.shiftl 1 n.
Definition CAN_MODE_NORMAL : Z := 0.
Definition CAN_MODE_LOOPBACK : Z := BIT 0.
Definition CAN_MODE_LISTENONLY : Z := BIT 1.
Definition CAN_MODE_FD : Z := BIT 2.

(** Modelled from the spec: the frame limits of [zephyr/drivers/can.h] and
    [zephyr/net/socketcan.h]: largest data length code and size of a wire
    frame, for classic CAN and for CAN FD. *)
Definition CAN_MAX_DLC : Z := 8.
Definition CANFD_MAX_DLC : Z := 15.
Definition CAN_MTU : Z := 16.
Definition CANFD_MTU : Z := 72.

(** ** Data model *)

(** [void *] arguments are opaque addresses; a function pointer is the name of
    the function it points to, and [NULL] is [None]. *)
Definition ptr := Z.
Definition fnptr := Z.
Definition can_rx_callback_t := option fnptr.
Definition can_tx_callback_t := option fnptr.

Inductive can_ide := CAN_STANDARD_IDENTIFIER | CAN_EXTENDED_IDENTIFIER.
Inductive can_rtr := CAN_DATAFRAME | CAN_REMOTEREQUEST.

Inductive can_state :=
| CAN_STATE_ERROR_ACTIVE
| CAN_STATE_ERROR_WARNING
| CAN_STATE_ERROR_PASSIVE
| CAN_STATE_BUS_OFF
| CAN_STATE_STOPPED.

(** Modelled from the spec: [struct can_frame] of [zephyr/drivers/can.h]
    (spec section 3, Frame). [fd] and [brs] are one-bit fields. *)
Record can_frame := {
  id : Z;
  fd : Z;
  rtr : can_rtr;
  id_type : can_ide;
  dlc : Z;
  brs : Z;
  data : list Z
}.

(** Modelled from the spec: [struct can_filter] of [zephyr/drivers/can.h]
    (spec section 3, Filter entry: pattern, mask, identifier type). *)
Record can_filter := {
  flt_id : Z;
  flt_id_type : can_ide;
  flt_id_mask : Z
}.

Record can_bus_err_cnt := {
  tx_err_cnt : Z;
  rx_err_cnt : Z
}.

Record can_filter_context := {
  rx_cb : can_rx_callback_t;
  cb_arg : ptr;
  filter : can_filter
}.

(** Modelled from the spec: a kernel semaphore ([struct k_sem] of
    [zephyr/kernel.h]): a counter with a limit, and the threads pended on it,
    of which only the number matters here. *)
Record k_sem := {
  sem_count : Z;
  sem_limit : Z;
  sem_wait_q : nat
}.

(** Modelled from the spec: [k_timeout_t] as a tick count. *)
Definition k_timeout_t := Z.
Definition K_NO_WAIT : k_timeout_t := 0.
Definition K_FOREVER : k_timeout_t := -1.

(** [struct can_npl_data].  The filter mutex is seen through the trace, as
    lock and unlock events around each table operation and each dispatch;
    contention on it is not modelled, a critical section runs to its end.
    The receive thread object and its stack have no content of their own. *)
Record can_npl_data := {
  filters : list can_filter_context;
  tx_idle : k_sem;
  tx_done : k_sem;
  tx_callback : can_tx_callback_t;
  tx_user_data : ptr;
  loopback : bool;
  mode_fd : bool;
  dev_fd : Z;
  started : bool
}.

Inductive sem_id := TX_IDLE | TX_DONE.

Definition get_sem (s : sem_id) (d : can_npl_data) : k_sem :=
  match s with TX_IDLE => tx_idle d | TX_DONE => tx_done d end.

Definition set_sem (s : sem_id) (v : k_sem) (d : can_npl_data) : can_npl_data :=
  match s with
  | TX_IDLE =>
      {| filters := filters d; tx_idle := v; tx_done := tx_done d;
         tx_callback := tx_callback d; tx_user_data := tx_user_data d;
         loopback := loopback d; mode_fd := mode_fd d; dev_fd := dev_fd d;
         started := started d |}
  | TX_DONE =>
      {| filters := filters d; tx_idle := tx_idle d; tx_done := v;
         tx_callback := tx_callback d; tx_user_data := tx_user_data d;
         loopback := loopback d; mode_fd := mode_fd d; dev_fd := dev_fd d;
         started := started d |}
  end.

Definition set_filters (fs : list can_filter_context) (d : can_npl_data) : can_npl_data :=
  {| filters := fs; tx_idle := tx_idle d; tx_done := tx_done d;
     tx_callback := tx_callback d; tx_user_data := tx_user_data d;
     loopback := loopback d; mode_fd := mode_fd d; dev_fd := dev_fd d;
     started := started d |}.

Definition set_tx_pending (cb : can_tx_callback_t) (ud : ptr) (d : can_npl_data) : can_npl_data :=
  {| filters := filters d; tx_idle := tx_idle d; tx_done := tx_done d;
     tx_callback := cb; tx_user_data := ud;
     loopback := loopback d; mode_fd := mode_fd d; dev_fd := dev_fd d;
     started := started d |}.

Definition set_loopback (b : bool) (d : can_npl_data) : can_npl_data :=
  {| filters := filters d; tx_idle := tx_idle d; tx_done := tx_done d;
     tx_callback := tx_callback d; tx_user_data := tx_user_data d;
     loopback := b; mode_fd := mode_fd d; dev_fd := dev_fd d;
     started := started d |}.

Definition set_mode_fd (b : bool) (d : can_npl_data) : can_npl_data :=
  {| filters := filters d; tx_idle := tx_idle d; tx_done := tx_done d;
     tx_callback := tx_callback d; tx_user_data := tx_user_data d;
     loopback := loopback d; mode_fd := b; dev_fd := dev_fd d;
     started := started d |}.

Definition set_dev_fd (fd : Z) (d : can_npl_data) : can_npl_data :=
  {| filters := filters d; tx_idle := tx_idle d; tx_done := tx_done d;
     tx_callback := tx_callback d; tx_user_data := tx_user_data d;
     loopback := loopback d; mode_fd := mode_fd d; dev_fd := fd;
     started := started d |}.

Definition set_started (b : bool) (d : can_npl_data) : can_npl_data :=
  {| filters := filters d; tx_idle := tx_idle d; tx_done := tx_done d;
     tx_callback := tx_callback d; tx_user_data := tx_user_data d;
     loopback := loopback d; mode_fd := mode_fd d; dev_fd := dev_fd d;
     started := b |}.

(** ** What the driver calls and does not define

    The SocketCAN glue ([can_native_posix_linux_socketcan.h]), the frame
    conversions ([socketcan_utils.h]), the filter test ([can_utils.h]) and the
    callbacks registered by the application.  They are parameters: every
    result below holds whatever they do.  Calls that reach the host take and
    return the host state.  A receive callback gets a pointer to a frame and
    may write through it: it returns the frame it leaves behind.  Callbacks
    are taken not to call back into this driver instance. *)
Class Platform := {
  host : Type;
  socketcan_frame : Type;
  CONFIG_CAN_MAX_FILTER : nat;
  CONFIG_CAN_FD_MODE : bool;
  socketcan_from_can_frame : can_frame → socketcan_frame;
  socketcan_to_can_frame : socketcan_frame → can_frame;
  can_utils_filter_match : can_frame → can_filter → bool;
  linux_socketcan_iface_open : string → host → Z * host;
  linux_socketcan_poll_data : Z → host → Z * host;
  linux_socketcan_read_data :
    Z → socketcan_frame → host → (Z * socketcan_frame * bool) * host;
  linux_socketcan_write_data : Z → socketcan_frame → Z → host → Z * host;
  linux_socketcan_set_mode_fd : Z → bool → host → Z * host;
  rx_callback_run : fnptr → can_frame → ptr → host → can_frame * host;
  tx_callback_run : fnptr → Z → ptr → host → host
}.

Inductive log_level := LOG_LEVEL_ERR | LOG_LEVEL_DBG.

Inductive event :=
| EvLog (level : log_level) (fmt : string)
| EvMutexLock
| EvMutexUnlock
| EvRxCallback (cb : fnptr) (frame : can_frame) (arg : ptr)
| EvTxCallback (cb : fnptr) (error : Z) (user_data : ptr)
| EvThreadCreate.

Section Driver.
Context `{P : Platform}.

Record world := {
  w_data : can_npl_data;
  w_host : host;
  w_trace : list event
}.

Definition with_data (d : can_npl_data) (w : world) : world :=
  {| w_data := d; w_host := w_host w; w_trace := w_trace w |}.

Definition with_host (h : host) (w : world) : world :=
  {| w_data := w_data w; w_host := h; w_trace := w_trace w |}.

Definition with_event (e : event) (w : world) : world :=
  {| w_data := w_data w; w_host := w_host w; w_trace := w_trace w ++ [e] |}.

(** ** Computations that may pend *)

Inductive result (A : Type) : Type :=
| Done (a : A) (w : world)
| Pend (s : sem_id) (timeout : k_timeout_t) (w : world) (k : Z → world → result A).
Arguments Done {A} a w.
Arguments Pend {A} s timeout w k.

Definition M (A : Type) : Type := world → result A.

Definition ret {A} (a : A) : M A := fun w => Done a w.

Fixpoint bind_result {A B} (r : result A) (f : A → M B) : result B :=
  match r with
  | Done a w => f a w
  | Pend s t w k => Pend s t w (fun rv w' => bind_result (k rv w') f)
  end.

Definition bind {A B} (m : M A) (f : A → M B) : M B :=
  fun w => bind_result (m w) f.

#[export] Instance M_ret : MRet M := @ret.
#[export] Instance M_bind : MBind M := fun A B f m => bind m f.

Definition get_data : M can_npl_data := fun w => Done (w_data w) w.
Definition modify_data (f : can_npl_data → can_npl_data) : M unit :=
  fun w => Done tt (with_data (f (w_data w)) w).
Definition emit (e : event) : M unit := fun w => Done tt (with_event e w).
Definition host_call {A} (f : host → A * host) : M A :=
  fun w => let '(a, h) := f (w_host w) in Done a (with_host h w).

Definition LOG_ERR (fmt : string) : M unit := emit (EvLog LOG_LEVEL_ERR fmt).
Definition LOG_DBG (fmt : string) : M unit := emit (EvLog LOG_LEVEL_DBG fmt).
Definition k_mutex_lock : M unit := emit EvMutexLock.
Definition k_mutex_unlock : M unit := emit EvMutexUnlock.

(** Modelled from the spec: [k_sem_take] and [k_sem_give] of the kernel
    (spec sections 3 and 4.4: a one-slot permit taken with a timeout, a done
    signal).  Taking decrements a positive count; on a zero count it fails at
    once with [-EBUSY] under [K_NO_WAIT] and otherwise pends the thread, which
    the kernel later resumes with 0 (the permit was handed over) or with
    [-EAGAIN] (timeout).  Giving hands the permit to a pended thread if there
    is one and otherwise increments the count up to the limit. *)
Definition sem_taken (s : k_sem) : k_sem :=
  {| sem_count := sem_count s - 1; sem_limit := sem_limit s; sem_wait_q := sem_wait_q s |}.

Definition sem_pended (s : k_sem) : k_sem :=
  {| sem_count := sem_count s; sem_limit := sem_limit s; sem_wait_q := S (sem_wait_q s) |}.

Definition sem_given (s : k_sem) : k_sem :=
  match sem_wait_q s with
  | S n => {| sem_count := sem_count s; sem_limit := sem_limit s; sem_wait_q := n |}
  | O =>
      {| sem_count := sem_count s + (if sem_count s =? sem_limit s then 0 else 1);
         sem_limit := sem_limit s; sem_wait_q := O |}
  end.

Definition k_sem_take (s : sem_id) (timeout : k_timeout_t) : M Z :=
  fun w =>
    let sem := get_sem s (w_data w) in
    if 0 <? sem_count sem then
      Done 0 (with_data (set_sem s (sem_taken sem) (w_data w)) w)
    else if timeout =? K_NO_WAIT then
      Done (- EBUSY) w
    else
      Pend s timeout (with_data (set_sem s (sem_pended sem) (w_data w)) w)
           (fun rv w' => Done rv w').

Definition k_sem_give (s : sem_id) : M unit :=
  modify_data (fun d => set_sem s (sem_given (get_sem s d)) d).

(** ** Controller state machine *)

(** [can_npl_start] *)
Definition can_npl_start : M Z :=
  d ← get_data;
  if started d then mret (- EALREADY)
  else
    modify_data (set_started true);;
    mret 0.

(** [can_npl_stop] *)
Definition can_npl_stop : M Z :=
  d ← get_data;
  if negb (started d) then mret (- EALREADY)
  else
    modify_data (set_started false);;
    mret 0.

(** [can_npl_get_capabilities]; the result is the return value and [*cap]. *)
Definition can_npl_get_capabilities : M (Z * Z) :=
  let cap := Z.lor CAN_MODE_NORMAL CAN_MODE_LOOPBACK in
  let cap := if CONFIG_CAN_FD_MODE then Z.lor cap CAN_MODE_FD else cap in
  mret (0, cap).

(** The bits [can_npl_set_mode] accepts, by [CONFIG_CAN_FD_MODE]. *)
Definition set_mode_mask : Z :=
  if CONFIG_CAN_FD_MODE then Z.lor CAN_MODE_LOOPBACK CAN_MODE_FD
  else CAN_MODE_LOOPBACK.

(** [can_npl_set_mode] *)
Definition can_npl_set_mode (mode : Z) : M Z :=
  if negb (Z.land mode (Z.lnot set_mode_mask) =? 0) then
    LOG_ERR "unsupported mode: 0x%08x";;
    mret (- ENOTSUP)
  else
    d ← get_data;
    if started d then mret (- EBUSY)
    else
      modify_data (set_loopback (negb (Z.land mode CAN_MODE_LOOPBACK =? 0)));;
      modify_data (set_mode_fd (negb (Z.land mode CAN_MODE_FD =? 0)));;
      d ← get_data;
      host_call (linux_socketcan_set_mode_fd (dev_fd d) (mode_fd d));;
      mret 0.

(** [can_npl_get_state].  [state] and [err_cnt] are the cells the two
    pointers address ([None] for [NULL]); the result is the return value and
    the cells after the call. *)
Definition can_npl_get_state (state : option can_state)
    (err_cnt : option can_bus_err_cnt)
    : M (Z * option can_state * option can_bus_err_cnt) :=
  d ← get_data;
  let state :=
    match state with
    | Some _ =>
        if negb (started d) then Some CAN_STATE_STOPPED
        else Some CAN_STATE_ERROR_ACTIVE
    | None => None
    end in
  let err_cnt :=
    match err_cnt with
    | Some _ => Some {| tx_err_cnt := 0; rx_err_cnt := 0 |}
    | None => None
    end in
  mret (0, state, err_cnt).

(** ** Filter table *)

Definition ARRAY_SIZE {A} (a : list A) : Z := Z.of_nat (length a).

(** The scan of [can_npl_add_rx_filter]: [filter_id] keeps its initial value
    unless a slot with a [NULL] callback is met, at which the loop breaks. *)
Fixpoint scan_free (fs : list can_filter_context) (i : Z) (filter_id : Z) : Z :=
  match fs with
  | [] => filter_id
  | ctx :: fs' =>
      match rx_cb ctx with
      | None => i
      | Some _ => scan_free fs' (i + 1) filter_id
      end
  end.

(** [can_npl_add_rx_filter] *)
Definition can_npl_add_rx_filter (cb : can_rx_callback_t) (arg : ptr)
    (flt : can_filter) : M Z :=
  LOG_DBG "Setting filter ID: 0x%x, mask: 0x%x";;
  LOG_DBG "Filter type: %s ID %s mask";;
  k_mutex_lock;;
  d ← get_data;
  let filter_id := scan_free (filters d) 0 (- ENOSPC) in
  if filter_id <? 0 then
    LOG_ERR "No free filter left";;
    k_mutex_unlock;;
    mret filter_id
  else
    modify_data (fun d =>
      set_filters
        (<[Z.to_nat filter_id := {| rx_cb := cb; cb_arg := arg; filter := flt |}]>
           (filters d)) d);;
    k_mutex_unlock;;
    LOG_DBG "Filter added. ID: %d";;
    mret filter_id.

Definition clear_rx_cb (ctx : can_filter_context) : can_filter_context :=
  {| rx_cb := None; cb_arg := cb_arg ctx; filter := filter ctx |}.

(** [can_npl_remove_rx_filter] *)
Definition can_npl_remove_rx_filter (filter_id : Z) : M unit :=
  d ← get_data;
  if (filter_id <? 0) || (filter_id >=? ARRAY_SIZE (filters d)) then mret tt
  else
    k_mutex_lock;;
    modify_data (fun d =>
      set_filters (alter clear_rx_cb (Z.to_nat filter_id) (filters d)) d);;
    k_mutex_unlock;;
    LOG_DBG "Filter removed. ID: %d".

(** A counted loop from index [i], [n] rounds, threading the locals [St]. *)
Fixpoint for_loop {St} (n : nat) (i : nat) (body : nat → St → M St) (s : St) : M St :=
  match n with
  | O => mret s
  | S n' => s' ← body i s; for_loop n' (S i) body s'
  end.

(** One round of the loop of [dispatch_frame]; the local [tmp_frame] is
    [None] while it is uninitialised. *)
Definition dispatch_slot (frame : can_frame) (filter_id : nat)
    (tmp_frame : option can_frame) : M (option can_frame) :=
  d ← get_data;
  match filters d !! filter_id with
  | None => mret tmp_frame
  | Some ctx =>
      match rx_cb ctx with
      | None => mret tmp_frame
      | Some callback =>
          if negb (can_utils_filter_match frame (filter ctx)) then mret tmp_frame
          else
            let tmp_frame := frame in
            emit (EvRxCallback callback tmp_frame (cb_arg ctx));;
            tmp_frame ← host_call (rx_callback_run callback tmp_frame (cb_arg ctx));
            mret (Some tmp_frame)
      end
  end.

(** [dispatch_frame] *)
Definition dispatch_frame (frame : can_frame) : M unit :=
  k_mutex_lock;;
  d ← get_data;
  for_loop (length (filters d)) 0 (dispatch_slot frame) None;;
  k_mutex_unlock.

(** ** Receive thread *)

Inductive loop_ctl := LoopContinue | LoopBreak.

(** The end of the inner loop body of [rx_thread], from the test of [count]. *)
Definition rx_thread_frame (count : Z) (sframe : socketcan_frame) : M loop_ctl :=
  if count <=? 0 then mret LoopBreak
  else
    let frame := socketcan_to_can_frame sframe in
    LOG_DBG "Received %d bytes. Id: 0x%x, ID type: %s %s";;
    dispatch_frame frame;;
    mret LoopContinue.

(** The inner loop body of [rx_thread]: one unit read from the socket.  The
    local [sframe] is handed in and out, since a read may leave it as it
    was. *)
Definition rx_thread_unit (sframe : socketcan_frame) : M (loop_ctl * socketcan_frame) :=
  d ← get_data;
  '(count, sframe, msg_confirm) ←
    host_call (linux_socketcan_read_data (dev_fd d) sframe);
  if msg_confirm : bool then
    d ← get_data;
    match tx_callback d with
    | Some cb =>
        emit (EvTxCallback cb 0 (tx_user_data d));;
        host_call (fun h => (tt, tx_callback_run cb 0 (tx_user_data d) h))
    | None => k_sem_give TX_DONE
    end;;
    k_sem_give TX_IDLE;;
    d ← get_data;
    if negb (loopback d) || negb (started d) then mret (LoopContinue, sframe)
    else
      c ← rx_thread_frame count sframe;
      mret (c, sframe)
  else
    c ← rx_thread_frame count sframe;
    mret (c, sframe).

(** The inner loop of [rx_thread], [while (linux_socketcan_poll_data(...) == 0)],
    run for at most [fuel] units: [Some] of the local [sframe] when the loop
    is left, [None] when it is still running after [fuel] units.  Around it
    the thread only sleeps and starts the loop again, for ever. *)
Fixpoint rx_thread_inner (fuel : nat) (sframe : socketcan_frame)
    : M (option socketcan_frame) :=
  match fuel with
  | O => mret None
  | S fuel' =>
      d ← get_data;
      p ← host_call (linux_socketcan_poll_data (dev_fd d));
      if negb (p =? 0) then mret (Some sframe)
      else
        '(c, sframe) ← rx_thread_unit sframe;
        match c with
        | LoopBreak => mret (Some sframe)
        | LoopContinue => rx_thread_inner fuel' sframe
        end
  end.

(** ** Transmit path *)

(** The test of [can_npl_send] that selects the CAN FD limits; it is
    compiled in under [CONFIG_CAN_FD_MODE] only. *)
Definition send_as_fd (d : can_npl_data) (frame : can_frame) : bool :=
  CONFIG_CAN_FD_MODE && (mode_fd d && (fd frame =? 1)).

(** [can_npl_send] *)
Definition can_npl_send (frame : can_frame) (timeout : k_timeout_t)
    (callback : can_tx_callback_t) (user_data : ptr) : M Z :=
  d ← get_data;
  LOG_DBG "Sending %d bytes on %s. Id: 0x%x, ID type: %s %s";;
  let max_dlc := if send_as_fd d frame then CANFD_MAX_DLC else CAN_MAX_DLC in
  let mtu := if send_as_fd d frame then CANFD_MTU else CAN_MTU in
  if max_dlc <? dlc frame then
    LOG_ERR "DLC of %d exceeds maximum (%d)";;
    mret (- EINVAL)
  else if dev_fd d <=? 0 then
    LOG_ERR "No file descriptor: %d";;
    mret (- EIO)
  else if negb (started d) then
    mret (- ENETDOWN)
  else
    let sframe := socketcan_from_can_frame frame in
    r ← k_sem_take TX_IDLE timeout;
    if negb (r =? 0) then mret (- EAGAIN)
    else
      modify_data (set_tx_pending callback user_data);;
      d ← get_data;
      r ← host_call (linux_socketcan_write_data (dev_fd d) sframe mtu);
      (if r <? 0 then LOG_ERR "Cannot send CAN data len %d (%d)" else mret tt);;
      match callback with
      | None => k_sem_take TX_DONE K_FOREVER;; mret tt
      | Some _ => mret tt
      end;;
      mret 0.

(** ** Initialisation *)

Definition k_sem_init (s : sem_id) (initial_count limit : Z) : M unit :=
  modify_data (set_sem s {| sem_count := initial_count; sem_limit := limit; sem_wait_q := O |}).

(** The device data before [can_npl_init]: static storage, all zero. *)
Definition can_npl_data_0 : can_npl_data :=
  let sem0 := {| sem_count := 0; sem_limit := 0; sem_wait_q := O |} in
  let flt0 := {| flt_id := 0; flt_id_type := CAN_STANDARD_IDENTIFIER; flt_id_mask := 0 |} in
  {| filters := replicate CONFIG_CAN_MAX_FILTER {| rx_cb := None; cb_arg := 0; filter := flt0 |};
     tx_idle := sem0; tx_done := sem0;
     tx_callback := None; tx_user_data := 0;
     loopback := false; mode_fd := false; dev_fd := 0; started := false |}.

(** [can_npl_init] *)
Definition can_npl_init (if_name : string) : M Z :=
  k_sem_init TX_IDLE 1 1;;
  k_sem_init TX_DONE 0 1;;
  fd ← host_call (linux_socketcan_iface_open if_name);
  modify_data (set_dev_fd fd);;
  if fd <? 0 then
    LOG_ERR "Cannot open %s (%d)";;
    mret (- ENODEV)
  else
    emit EvThreadCreate;;
    LOG_DBG "Init of %s done";;
    mret 0.

End Driver.

Arguments Done {P A} a w.
Arguments Pend {P A} s timeout w k.

(** ** The rest of the driver interface *)

(** [struct can_timing], with the fields that the limits in
    [can_npl_driver_api] name. *)
Record can_timing := {
  sjw : Z;
  prop_seg : Z;
  phase_seg1 : Z;
  phase_seg2 : Z;
  prescaler : Z
}.

Section DriverRest.
Context `{P : Platform}.

(** [can_npl_set_timing] *)
Definition can_npl_set_timing (timing : can_timing) : M Z :=
  d ← get_data;
  if started d then mret (- EBUSY)
  else mret 0.

(** [can_npl_set_timing_data], compiled under [CONFIG_CAN_FD_MODE]. *)
Definition can_npl_set_timing_data (timing : can_timing) : M Z :=
  d ← get_data;
  if started d then mret (- EBUSY)
  else mret 0.

(** [can_npl_recover], compiled without [CONFIG_CAN_AUTO_BUS_OFF_RECOVERY]. *)
Definition can_npl_recover (timeout : k_timeout_t) : M Z :=
  d ← get_data;
  if negb (started d) then mret (- ENETDOWN)
  else mret 0.

(** [can_npl_set_state_change_callback] *)
Definition can_npl_set_state_change_callback (cb : option fnptr) (user_data : ptr)
    : M unit :=
  mret tt.

(** [can_npl_get_core_clock]; the result is the return value and [*rate]. *)
Definition can_npl_get_core_clock : M (Z * Z) :=
  mret (0, 16000000).

(** [can_npl_get_max_filters] *)
Definition can_npl_get_max_filters (id_type : can_ide) : M Z :=
  mret (Z.of_nat CONFIG_CAN_MAX_FILTER).

(** The limits [timing_min] and [timing_max] of [can_npl_driver_api]; the
    data phase limits [timing_data_min] and [timing_data_max] are the same. *)
Definition timing_min : can_timing :=
  {| sjw := 0x1; prop_seg := 0x01; phase_seg1 := 0x01; phase_seg2 := 0x01;
     prescaler := 0x01 |}.

Definition timing_max : can_timing :=
  {| sjw := 0x0F; prop_seg := 0x0F; phase_seg1 := 0x0F; phase_seg2 := 0x0F;
     prescaler := 0xFFFF |}.

End DriverRest.

(** ** Vocabulary for the filter table *)

(** Slot [j] of a table holds a callback. *)
Definition occupied (fs : list can_filter_context) (j : nat) : Prop :=
  ∃ ctx cb, fs !! j = Some ctx ∧ rx_cb ctx = Some cb.

(** Slot [j] of a table exists and holds no callback. *)
Definition empty (fs : list can_filter_context) (j : nat) : Prop :=
  ∃ ctx, fs !! j = Some ctx ∧ rx_cb ctx = None.

(** ** Vocabulary for dispatch *)

(** A hit is a slot index with the callback and the argument stored there. *)
Definition hit : Type := nat * fnptr * ptr.
Definition hit_slot (x : hit) : nat := x.1.1.
Definition hit_cb (x : hit) : fnptr := x.1.2.
Definition hit_arg (x : hit) : ptr := x.2.

(** The call that a hit stands for, on a given frame. *)
Definition hit_call (frame : can_frame) (x : hit) : event :=
  EvRxCallback (hit_cb x) frame (hit_arg x).

(** The hits of a frame in the slots [fs], which start at index [i]. *)
Fixpoint hits_from `{P : Platform} (frame : can_frame) (i : nat) (fs : list can_filter_context)
    : list hit :=
  match fs with
  | [] => []
  | ctx :: fs' =>
      match rx_cb ctx with
      | Some cb =>
          if can_utils_filter_match frame (filter ctx)
          then (i, cb, cb_arg ctx) :: hits_from frame (S i) fs'
          else hits_from frame (S i) fs'
      | None => hits_from frame (S i) fs'
      end
  end.

(** ** Vocabulary for the transmit path *)

Definition send_max_dlc `{P : Platform} (d : can_npl_data) (frame : can_frame) : Z :=
  if send_as_fd d frame then CANFD_MAX_DLC else CAN_MAX_DLC.

Definition send_mtu `{P : Platform} (d : can_npl_data) (frame : can_frame) : Z :=
  if send_as_fd d frame then CANFD_MTU else CAN_MTU.

(** The largest data length code of the mode the controller is in, whatever
    the frame. *)
Definition mode_max_dlc (d : can_npl_data) : Z :=
  if mode_fd d then CANFD_MAX_DLC else CAN_MAX_DLC.

Definition write_error_logged : event :=
  EvLog LOG_LEVEL_ERR "Cannot send CAN data len %d (%d)".

(** The failure of the write was logged since the trace was [before]. *)
Definition logged_since `{P : Platform} (before : list event) (w' : world) : Prop :=
  ∃ evs, w_trace w' = before ++ evs ∧ write_error_logged ∈ evs.

(** A call of [can_npl_send] that got past the write with the error logged
    and can only return 0: it has returned 0, or, for a call without
    callback, it pends on [tx_done] without a timeout and returns 0 when
    resumed. *)
Definition completes_with_success `{P : Platform} (before : list event)
    (callback : can_tx_callback_t) (r : result Z) : Prop :=
  match r with
  | Done v w' => v = 0 ∧ logged_since before w'
  | Pend s t w' k =>
      callback = None ∧ s = TX_DONE ∧ t = K_FOREVER
      ∧ logged_since before w'
      ∧ ∀ rv w'', k rv w'' = Done 0 w''
  end.

(** ** Vocabulary for sequences of calls *)

(** A filter to register: callback, argument, rule. *)
Definition registration : Type := fnptr * ptr * can_filter.

Definition registration_slot (e : registration) : can_filter_context :=
  {| rx_cb := Some e.1.1; cb_arg := e.1.2; filter := e.2 |}.

(** Register the filters of a list one after the other and collect what
    [can_npl_add_rx_filter] returns. *)
Fixpoint add_all `{P : Platform} (es : list registration) : M (list Z) :=
  match es with
  | [] => mret []
  | e :: es' =>
      h ← can_npl_add_rx_filter (Some e.1.1) e.1.2 e.2;
      hs ← add_all es';
      mret (h :: hs)
  end.

(** The host after the callbacks of a list of hits ran in order, each on the
    frame [frame]. *)
Fixpoint callbacks_host `{P : Platform} (frame : can_frame) (hs : list hit)
    (h : host) : host :=
  match hs with
  | [] => h
  | x :: hs' =>
      callbacks_host frame hs' (rx_callback_run (hit_cb x) frame (hit_arg x) h).2
  end.

(** The world after [dispatch_frame] on a frame: the filter mutex taken, the
    hits called in order, the mutex given back. *)
Definition dispatched `{P : Platform} (frame : can_frame) (w : world) : world :=
  {| w_data := w_data w;
     w_host := callbacks_host frame (hits_from frame 0 (filters (w_data w)))
                 (w_host w);
     w_trace := w_trace w ++ [EvMutexLock]
                ++ map (hit_call frame) (hits_from frame 0 (filters (w_data w)))
                ++ [EvMutexUnlock] |}.

Definition received_logged : event :=
  EvLog LOG_LEVEL_DBG "Received %d bytes. Id: 0x%x, ID type: %s %s".

Definition sending_logged : event :=
  EvLog LOG_LEVEL_DBG "Sending %d bytes on %s. Id: 0x%x, ID type: %s %s".

Definition is_tx_callback (e : event) : bool :=
  match e with EvTxCallback _ _ _ => true | _ => false end.

(** Two worlds in which every frame is dispatched to the same callbacks with
    the same arguments, in the same order, leaving the same host. *)
Definition dispatches_alike `{P : Platform} (w w' : world) : Prop :=
  ∀ frame : can_frame,
    ∃ (hits : list hit) (h' : host),
      dispatch_frame frame w
      = Done tt
          {| w_data := w_data w; w_host := h';
             w_trace := w_trace w ++ [EvMutexLock]
                        ++ map (hit_call frame) hits ++ [EvMutexUnlock] |}
      ∧ dispatch_frame frame w'
        = Done tt
            {| w_data := w_data w'; w_host := h';
               w_trace := w_trace w' ++ [EvMutexLock]
                          ++ map (hit_call frame) hits ++ [EvMutexUnlock] |}.

(** The world after the receive thread handled a transmit confirmation, the
    read having left the host [h1]: the pending callback has run, or
    [tx_done] was given; [tx_idle] was given. *)
Definition confirmed `{P : Platform} (h1 : host) (w : world) : world :=
  let d := w_data w in
  let d1 := match tx_callback d with
            | Some _ => d
            | None => set_sem TX_DONE (sem_given (tx_done d)) d
            end in
  {| w_data := set_sem TX_IDLE (sem_given (tx_idle d1)) d1;
     w_host := match tx_callback d with
               | Some cb => tx_callback_run cb 0 (tx_user_data d) h1
               | None => h1
               end;
     w_trace := w_trace w
                ++ match tx_callback d with
                   | Some cb => [EvTxCallback cb 0 (tx_user_data d)]
                   | None => []
                   end |}.

(** Modelled from the spec: what the kernel passes to a thread it resumes
    from [k_sem_take]: 0 when the semaphore was given to it, [-EAGAIN] when
    the timeout ran out, which it never does under [K_FOREVER]. *)
Definition resumes (timeout : k_timeout_t) (rv : Z) : Prop :=
  rv = 0 ∨ (rv = - EAGAIN ∧ timeout ≠ K_FOREVER).

(** A value that a computation can return: the one it finished with, or one
    that it can return after the kernel resumes it. *)
Fixpoint can_return `{P : Platform} (v : Z) (r : result Z) : Prop :=
  match r with
  | Done v' _ => v' = v
  | Pend _ t _ k => ∃ rv w', resumes t rv ∧ can_return v (k rv w')
  end.

(** [can_npl_send] from the moment it holds the permit. *)
Definition send_with_permit `{P : Platform} (frame : can_frame) (mtu : Z)
    (callback : can_tx_callback_t) (user_data : ptr) : M Z :=
  modify_data (set_tx_pending callback user_data);;
  d ← get_data;
  r ← host_call
        (linux_socketcan_write_data (dev_fd d) (socketcan_from_can_frame frame) mtu);
  (if r <? 0 then LOG_ERR "Cannot send CAN data len %d (%d)" else mret tt);;
  match callback with
  | None => k_sem_take TX_DONE K_FOREVER;; mret tt
  | Some _ => mret tt
  end;;
  mret 0.

(** Two states of the device that differ at most in the semaphores. *)
Definition same_but_semaphores (d d' : can_npl_data) : Prop :=
  filters d' = filters d
  ∧ tx_callback d' = tx_callback d ∧ tx_user_data d' = tx_user_data d
  ∧ loopback d' = loopback d ∧ mode_fd d' = mode_fd d
  ∧ dev_fd d' = dev_fd d ∧ started d' = started d.




(** The semaphores as [can_npl_init] sets them: the idle permit available,
    no completion signalled, nobody waiting. *)
Definition sem_idle_free : k_sem := {| sem_count := 1; sem_limit := 1; sem_wait_q := O |}.
Definition sem_idle_held : k_sem := {| sem_count := 0; sem_limit := 1; sem_wait_q := O |}.
Definition sem_done_clear : k_sem := {| sem_count := 0; sem_limit := 1; sem_wait_q := O |}.

(** ** A small platform to run the driver on

    A host that answers from a script, wire frames that are frames, and a
    receive callback that overwrites the identifier of the frame it is
    handed. *)

Definition can_ide_eqb (a b : can_ide) : bool :=
  match a, b with
  | CAN_STANDARD_IDENTIFIER, CAN_STANDARD_IDENTIFIER => true
  | CAN_EXTENDED_IDENTIFIER, CAN_EXTENDED_IDENTIFIER => true
  | _, _ => false
  end.

(** Modelled from the spec: [can_utils_filter_match] of [can_utils.h], which
    is not part of the driver file (spec section 4.2: same identifier type,
    and identifiers equal under the mask). *)
Definition spec_filter_match (frame : can_frame) (flt : can_filter) : bool :=
  can_ide_eqb (id_type frame) (flt_id_type flt)
  && (Z.land (id frame) (flt_id_mask flt) =? Z.land (flt_id flt) (flt_id_mask flt)).

Record script := {
  open_ret : Z;
  poll_ret : Z;
  read_ret : Z * can_frame * bool;
  write_ret : Z
}.

Definition scribble (frame : can_frame) : can_frame :=
  {| id := 0; fd := fd frame; rtr := rtr frame; id_type := id_type frame;
     dlc := dlc frame; brs := brs frame; data := [] |}.

Definition demo_platform (fd_mode : bool) : Platform :=
  {| host := script;
     socketcan_frame := can_frame;
     CONFIG_CAN_MAX_FILTER := 3;
     CONFIG_CAN_FD_MODE := fd_mode;
     socketcan_from_can_frame := fun f => f;
     socketcan_to_can_frame := fun f => f;
     can_utils_filter_match := spec_filter_match;
     linux_socketcan_iface_open := fun _ h => (open_ret h, h);
     linux_socketcan_poll_data := fun _ h => (poll_ret h, h);
     linux_socketcan_read_data := fun _ _ h => (read_ret h, h);
     linux_socketcan_write_data := fun _ _ _ h => (write_ret h, h);
     linux_socketcan_set_mode_fd := fun _ _ h => (0, h);
     rx_callback_run := fun _ frame _ h => (scribble frame, h);
     tx_callback_run := fun _ _ _ h => h |}.

Definition frame_123 : can_frame :=
  {| id := 0x123; fd := 0; rtr := CAN_DATAFRAME; id_type := CAN_STANDARD_IDENTIFIER;
     dlc := 2; brs := 0; data := [0xAA; 0xBB] |}.

Definition filter_123 : can_filter :=
  {| flt_id := 0x123; flt_id_type := CAN_STANDARD_IDENTIFIER; flt_id_mask := 0x7FF |}.

Definition demo_script (rd : Z * can_frame * bool) (wr : Z) : script :=
  {| open_ret := 3; poll_ret := 0; read_ret := rd; write_ret := wr |}.

(** The world of the demo platform with device data [d]. *)
Definition demo_world (fd_mode : bool) (d : can_npl_data) (h : script)
    : @world (demo_platform fd_mode) :=
  @Build_world (demo_platform fd_mode) d h [].

(** The device data after a successful [can_npl_init] on the demo platform
    (socket 3, semaphores initialised, no filter), then with the given flags
    and filter table. *)
Definition demo_data (fs : list can_filter_context) (lb st : bool) : can_npl_data :=
  {| filters := fs;
     tx_idle := {| sem_count := 1; sem_limit := 1; sem_wait_q := O |};
     tx_done := {| sem_count := 0; sem_limit := 1; sem_wait_q := O |};
     tx_callback := None; tx_user_data := 0;
     loopback := lb; mode_fd := false; dev_fd := 3; started := st |}.

Definition empty_slot : can_filter_context :=
  {| rx_cb := None; cb_arg := 0;
     filter := {| flt_id := 0; flt_id_type := CAN_STANDARD_IDENTIFIER; flt_id_mask := 0 |} |}.

(** A slot that holds callback [cb] with argument [arg] behind [filter_123]. *)
Definition slot_123 (cb : fnptr) (arg : ptr) : can_filter_context :=
  {| rx_cb := Some cb; cb_arg := arg; filter := filter_123 |}.

(** A host on which nothing is pending and writes succeed. *)
Definition quiet : script := demo_script (0, frame_123, false) 16.

(** Stopped, no filter, as [can_npl_init] leaves the device. *)
Definition w_stopped : @world (demo_platform false) :=
  demo_world false (demo_data (replicate 3 empty_slot) false false) quiet.

(** Started, no filter. *)
Definition w_started : @world (demo_platform false) :=
  demo_world false (demo_data (replicate 3 empty_slot) false true) quiet.

(** Started with loopback, matching filters in slots 0 and 2. *)
Definition w_two_filters (h : script) : @world (demo_platform false) :=
  demo_world false
    (demo_data [slot_123 7 70; empty_slot; slot_123 9 90] true true) h.

(** A frame with a data length code beyond classic CAN. *)
Definition frame_long : can_frame :=
  {| id := 0x123; fd := 0; rtr := CAN_DATAFRAME; id_type := CAN_STANDARD_IDENTIFIER;
     dlc := 9; brs := 0; data := [] |}.

(** ** A platform that records what the callbacks were handed

    Its host keeps, beside the script, the calls the application saw: each
    receive callback notes the frame it was handed and then overwrites its
    copy, each transmit callback notes its status. *)

Record seen := {
  seen_rx : list (fnptr * can_frame * ptr);
  seen_tx : list (fnptr * Z * ptr);
  answers : script
}.

Definition note_rx (cb : fnptr) (frame : can_frame) (arg : ptr) (h : seen) : seen :=
  {| seen_rx := seen_rx h ++ [(cb, frame, arg)]; seen_tx := seen_tx h;
     answers := answers h |}.

Definition note_tx (cb : fnptr) (error : Z) (user_data : ptr) (h : seen) : seen :=
  {| seen_rx := seen_rx h; seen_tx := seen_tx h ++ [(cb, error, user_data)];
     answers := answers h |}.

Definition logging_platform : Platform :=
  {| host := seen;
     socketcan_frame := can_frame;
     CONFIG_CAN_MAX_FILTER := 3;
     CONFIG_CAN_FD_MODE := false;
     socketcan_from_can_frame := fun f => f;
     socketcan_to_can_frame := fun f => f;
     can_utils_filter_match := spec_filter_match;
     linux_socketcan_iface_open := fun _ h => (open_ret (answers h), h);
     linux_socketcan_poll_data := fun _ h => (poll_ret (answers h), h);
     linux_socketcan_read_data := fun _ _ h => (read_ret (answers h), h);
     linux_socketcan_write_data := fun _ _ _ h => (write_ret (answers h), h);
     linux_socketcan_set_mode_fd := fun _ _ h => (0, h);
     rx_callback_run := fun cb frame arg h => (scribble frame, note_rx cb frame arg h);
     tx_callback_run := fun cb error user_data h => note_tx cb error user_data h |}.

(** Nothing seen yet, answers from the script [a]. *)
Definition unseen (a : script) : seen :=
  {| seen_rx := []; seen_tx := []; answers := a |}.

(** Started with loopback, matching filters in slots 0 and 2, on the
    recording platform. *)
Definition lw_two_filters (a : script) : @world logging_platform :=
  @Build_world logging_platform
    (demo_data [slot_123 7 70; empty_slot; slot_123 9 90] true true) (unseen a) [].

(** The same device with a send in flight: the permit is held, callback 4
    with user data 40 is pending. *)
Definition lw_in_flight (a : script) : @world logging_platform :=
  @Build_world logging_platform
    {| filters := [slot_123 7 70; empty_slot; slot_123 9 90];
       tx_idle := sem_idle_held; tx_done := sem_done_clear;
       tx_callback := Some 4; tx_user_data := 40;
       loopback := true; mode_fd := false; dev_fd := 3; started := true |}
    (unseen a) [].

(** A frame that [filter_123] does not let through. *)
Definition frame_456 : can_frame :=
  {| id := 0x456; fd := 0; rtr := CAN_DATAFRAME; id_type := CAN_STANDARD_IDENTIFIER;
     dlc := 2; brs := 0; data := [0xCC; 0xDD] |}.

(** * Properties *)

Create HintDb drv.
#[export] Hint Unfold mbind mret M_bind M_ret bind ret get_data modify_data emit
  host_call LOG_ERR LOG_DBG k_mutex_lock k_mutex_unlock k_sem_give
  with_data with_host with_event : drv.

Ltac run := autounfold with drv; cbn.

Section Properties.
Context `{P : Platform}.

(** C7. [can_npl_start] succeeds and takes a stopped controller to started,
    and fails with [-EALREADY], changing nothing, on a started one;
    [can_npl_stop] takes a started controller to stopped and fails with
    [-EALREADY], changing nothing, on a stopped one. *)
Theorem start_stop_transitions (w : world) :
  (started (w_data w) = false →
     can_npl_start w = Done 0 (with_data (set_started true (w_data w)) w))
  ∧ (started (w_data w) = true → can_npl_start w = Done (- EALREADY) w)
  ∧ (started (w_data w) = true →
       can_npl_stop w = Done 0 (with_data (set_started false (w_data w)) w))
  ∧ (started (w_data w) = false → can_npl_stop w = Done (- EALREADY) w).
Proof.
  unfold can_npl_start, can_npl_stop.
  repeat split; intros Hs; run; rewrite Hs; reflexivity.
Qed.

(** C9. With a state cell to fill, [can_npl_get_state] reports stopped when
    the controller is not started and error-active when it is, whatever the
    rest of the device data. *)
Theorem get_state_follows_started (w : world) (cell : can_state)
    (err_cnt : option can_bus_err_cnt) :
  (started (w_data w) = false →
     ∃ e, can_npl_get_state (Some cell) err_cnt w
          = Done (0, Some CAN_STATE_STOPPED, e) w)
  ∧ (started (w_data w) = true →
       ∃ e, can_npl_get_state (Some cell) err_cnt w
            = Done (0, Some CAN_STATE_ERROR_ACTIVE, e) w).
Proof.
  unfold can_npl_get_state.
  split; intros Hs; run; rewrite Hs; eexists; reflexivity.
Qed.

(** C10. With an error-counter cell to fill, [can_npl_get_state] leaves both
    counters at zero, in every world and for every previous content of the
    cell. *)
Theorem get_state_error_counters_zero (w : world) (state : option can_state)
    (cell : can_bus_err_cnt) :
  ∃ s, can_npl_get_state state (Some cell) w
       = Done (0, s, Some {| tx_err_cnt := 0; rx_err_cnt := 0 |}) w.
Proof. unfold can_npl_get_state. run. eexists; reflexivity. Qed.

(** Testing a mode against a single bit. *)
Lemma land_BIT_testbit (mode k : Z) :
  0 ≤ k → negb (Z.land mode (BIT k) =? 0) = Z.testbit mode k.
Proof.
  intros Hk. unfold BIT. rewrite Z.shiftl_1_l.
  destruct (Z.testbit mode k) eqn:Hb.
  - apply negb_true_iff, Z.eqb_neq. intros H0.
    assert (Z.testbit (Z.land mode (2 ^ k)) k = true) as Hc.
    { rewrite Z.land_spec, Hb, Z.pow2_bits_true; [reflexivity | exact Hk]. }
    rewrite H0, Z.bits_0 in Hc. discriminate.
  - apply negb_false_iff, Z.eqb_eq. apply Z.bits_inj'. intros n Hn.
    rewrite Z.land_spec, Z.bits_0, Z.pow2_bits_eqb by exact Hk.
    destruct (Z.eqb_spec k n) as [->|]; [rewrite Hb; reflexivity | apply andb_false_r].
Qed.

(** The test of [can_npl_set_mode] fails exactly on a mode with a bit outside
    the mask. *)
Lemma land_lnot_subset (mode mask : Z) :
  Z.land mode (Z.lnot mask) = 0
  ↔ ∀ n, 0 ≤ n → Z.testbit mode n = true → Z.testbit mask n = true.
Proof.
  split.
  - intros H0 n Hn Hb.
    assert (Z.testbit (Z.land mode (Z.lnot mask)) n = false) as Hc
      by (rewrite H0; apply Z.bits_0).
    rewrite Z.land_spec, Z.lnot_spec, Hb in Hc by exact Hn.
    destruct (Z.testbit mask n); [reflexivity | discriminate].
  - intros Hsub. apply Z.bits_inj'. intros n Hn.
    rewrite Z.land_spec, Z.lnot_spec, Z.bits_0 by exact Hn.
    destruct (Z.testbit mode n) eqn:Hb; [|reflexivity].
    rewrite (Hsub n Hn Hb). reflexivity.
Qed.

(** The mask of [can_npl_set_mode] is the capability set that
    [can_npl_get_capabilities] reports. *)
Lemma get_capabilities_mask (w : world) :
  can_npl_get_capabilities w = Done (0, set_mode_mask) w.
Proof.
  unfold can_npl_get_capabilities, set_mode_mask. run.
  destruct CONFIG_CAN_FD_MODE; reflexivity.
Qed.

(** C6, as the code has it. The capability test comes first: a mode with a
    bit outside the capability set fails with [-ENOTSUP] whether the
    controller is started or not. A mode within the capability set fails
    with [-EBUSY] on a started controller; on a stopped one it succeeds and
    sets the loopback flag to the presence of the loopback bit (bit 0) and
    the FD flag to the presence of the FD bit (bit 2). A failure leaves the
    device data as it was. *)
Theorem set_mode_outcome (mode cap : Z) (w : world) :
  can_npl_get_capabilities w = Done (0, cap) w →
  ((∃ n, 0 ≤ n ∧ Z.testbit mode n = true ∧ Z.testbit cap n = false) →
     ∃ w', can_npl_set_mode mode w = Done (- ENOTSUP) w' ∧ w_data w' = w_data w)
  ∧ ((∀ n, 0 ≤ n → Z.testbit mode n = true → Z.testbit cap n = true) →
       (started (w_data w) = true → can_npl_set_mode mode w = Done (- EBUSY) w)
       ∧ (started (w_data w) = false →
            ∃ w', can_npl_set_mode mode w = Done 0 w'
                  ∧ w_data w'
                    = set_mode_fd (Z.testbit mode 2)
                        (set_loopback (Z.testbit mode 0) (w_data w)))).
Proof.
  rewrite get_capabilities_mask. intros Hcap.
  assert (cap = set_mode_mask) as -> by congruence. clear Hcap.
  rewrite <- (land_BIT_testbit mode 0), <- (land_BIT_testbit mode 2) by lia.
  fold CAN_MODE_LOOPBACK CAN_MODE_FD.
  unfold can_npl_set_mode. split.
  - intros (n & Hn & Hm & Hc).
    destruct (Z.eqb_spec (Z.land mode (Z.lnot set_mode_mask)) 0) as [H0|_].
    + rewrite (proj1 (land_lnot_subset _ _) H0 n Hn Hm) in Hc. discriminate.
    + run. eexists; split; reflexivity.
  - intros Hsub.
    rewrite (proj2 (land_lnot_subset _ _) Hsub). cbn [Z.eqb negb].
    split; intros Hs; run; rewrite Hs; [reflexivity|].
    destruct (linux_socketcan_set_mode_fd _ _ _) as [r h] eqn:Hcall.
    eexists; split; reflexivity.
Qed.

(** *** Filter table *)

Lemma set_filters_same (d : can_npl_data) : set_filters (filters d) d = d.
Proof. destruct d; reflexivity. Qed.

Lemma scan_free_lowest (fs : list can_filter_context) :
  ∀ (i dflt : Z) (k : nat),
    empty fs k → (∀ j, (j < k)%nat → occupied fs j) →
    scan_free fs i dflt = i + Z.of_nat k.
Proof.
  induction fs as [|c fs IH]; intros i dflt k (ctx & Hk & Hnone) Hlow.
  - discriminate Hk.
  - destruct k as [|k]; cbn in Hk |- *.
    + injection Hk as ->. rewrite Hnone. lia.
    + destruct (Hlow O) as (c0 & cb & H0 & Hcb); [lia|].
      cbn in H0. injection H0 as ->. rewrite Hcb.
      rewrite (IH (i + 1) dflt k); [lia | exists ctx; auto |].
      intros j Hj. destruct (Hlow (S j)) as (cj & cbj & Hlj & Hcj); [lia|].
      exists cj, cbj. auto.
Qed.

Lemma scan_free_full (fs : list can_filter_context) :
  ∀ (i dflt : Z),
    (∀ j, (j < length fs)%nat → occupied fs j) → scan_free fs i dflt = dflt.
Proof.
  induction fs as [|c fs IH]; intros i dflt Hocc; [reflexivity|]. cbn.
  destruct (Hocc O) as (c0 & cb & H0 & Hcb); [cbn; lia|].
  cbn in H0. injection H0 as ->. rewrite Hcb. apply IH.
  intros j Hj. destruct (Hocc (S j)) as (cj & cbj & Hlj & Hcj); [cbn; lia|].
  exists cj, cbj. auto.
Qed.

(** What [can_npl_add_rx_filter] does on a table with a lowest empty slot. *)
Lemma add_rx_filter_lowest (cb : can_rx_callback_t) (arg : ptr) (flt : can_filter)
    (w : world) (k : nat) :
  empty (filters (w_data w)) k →
  (∀ j, (j < k)%nat → occupied (filters (w_data w)) j) →
  ∃ w', can_npl_add_rx_filter cb arg flt w = Done (Z.of_nat k) w'
        ∧ w_host w' = w_host w
        ∧ w_data w'
          = set_filters
              (<[k := {| rx_cb := cb; cb_arg := arg; filter := flt |}]>
                 (filters (w_data w))) (w_data w).
Proof.
  intros Hk Hlow. unfold can_npl_add_rx_filter. run.
  rewrite (scan_free_lowest _ 0 (- ENOSPC) k Hk Hlow).
  replace (0 + Z.of_nat k) with (Z.of_nat k) by lia.
  destruct (Z.ltb_spec (Z.of_nat k) 0) as [Hneg|_]; [lia|]. cbn.
  rewrite Nat2Z.id. eexists; repeat split.
Qed.

(** What [can_npl_remove_rx_filter] does on a handle within the table. *)
Lemma remove_rx_filter_in_range (w : world) (h : nat) (ctx : can_filter_context) :
  filters (w_data w) !! h = Some ctx →
  ∃ w', can_npl_remove_rx_filter (Z.of_nat h) w = Done tt w'
        ∧ w_host w' = w_host w
        ∧ w_data w'
          = set_filters (<[h := clear_rx_cb ctx]> (filters (w_data w))) (w_data w).
Proof.
  intros Hh. pose proof (lookup_lt_Some _ _ _ Hh) as Hlt.
  unfold can_npl_remove_rx_filter, ARRAY_SIZE. run.
  destruct (Z.ltb_spec (Z.of_nat h) 0) as [Hneg|_]; [lia|].
  destruct (Z.geb_spec (Z.of_nat h) (Z.of_nat (length (filters (w_data w)))))
    as [Hge|_]; [lia|]. cbn.
  rewrite Nat2Z.id. eexists; repeat split. cbn. f_equal.
  apply list_eq. intros j. destruct (decide (h = j)) as [<-|Hne].
  - rewrite list_lookup_alter_eq, list_lookup_insert_eq, Hh by exact Hlt.
    reflexivity.
  - rewrite list_lookup_alter_ne, list_lookup_insert_ne by exact Hne.
    reflexivity.
Qed.

(** C8. [can_npl_remove_rx_filter] changes nothing and reports nothing on a
    handle outside the table; on a handle within the table whose slot is
    already empty it leaves the device data as it was; on a handle within the
    table whose slot is occupied it makes that slot empty and leaves the
    other slots and the rest of the device data as they were. *)
Theorem remove_rx_filter_outcome (filter_id : Z) (w : world) :
  (filter_id < 0 ∨ ARRAY_SIZE (filters (w_data w)) ≤ filter_id →
     can_npl_remove_rx_filter filter_id w = Done tt w)
  ∧ (0 ≤ filter_id → empty (filters (w_data w)) (Z.to_nat filter_id) →
       ∃ w', can_npl_remove_rx_filter filter_id w = Done tt w'
             ∧ w_host w' = w_host w ∧ w_data w' = w_data w)
  ∧ (0 ≤ filter_id → occupied (filters (w_data w)) (Z.to_nat filter_id) →
       ∃ w', can_npl_remove_rx_filter filter_id w = Done tt w'
             ∧ w_host w' = w_host w
             ∧ empty (filters (w_data w')) (Z.to_nat filter_id)
             ∧ (∀ j, j ≠ Z.to_nat filter_id →
                  filters (w_data w') !! j = filters (w_data w) !! j)
             ∧ w_data w' = set_filters (filters (w_data w')) (w_data w)).
Proof.
  split; [|split].
  - intros Hout. unfold can_npl_remove_rx_filter. run.
    destruct (Z.ltb_spec filter_id 0) as [_|Hnn]; [reflexivity|].
    destruct (Z.geb_spec filter_id (ARRAY_SIZE (filters (w_data w))))
      as [_|Hlt]; [reflexivity | lia].
  - intros Hnn (ctx & Hh & Hnone).
    destruct (remove_rx_filter_in_range w _ ctx Hh) as (w' & Hrun & Hhost & Hdata).
    rewrite Z2Nat.id in Hrun by exact Hnn.
    exists w'. repeat split; [exact Hrun | exact Hhost |].
    rewrite Hdata, list_insert_id; [apply set_filters_same|].
    rewrite Hh. destruct ctx; cbn in Hnone |- *. rewrite Hnone. reflexivity.
  - intros Hnn (ctx & cb & Hh & Hcb).
    destruct (remove_rx_filter_in_range w _ ctx Hh) as (w' & Hrun & Hhost & Hdata).
    rewrite Z2Nat.id in Hrun by exact Hnn.
    pose proof (lookup_lt_Some _ _ _ Hh) as Hlt.
    exists w'. rewrite Hdata. cbn. repeat split; [exact Hrun | exact Hhost | |].
    + exists (clear_rx_cb ctx). split; [|reflexivity].
      apply list_lookup_insert_eq, Hlt.
    + intros j Hj. apply list_lookup_insert_ne. auto.
Qed.

(** C4. [can_npl_add_rx_filter] stores the entry in the lowest empty slot and
    returns its index, the rest of the device data staying as it was; on a
    table without an empty slot it returns [-ENOSPC] and leaves the device
    data as it was; and after the removal of a handle [h] below which every
    slot is occupied, it returns [h] and the entry is in slot [h]. *)
Theorem add_rx_filter_outcome (cb : can_rx_callback_t) (arg : ptr)
    (flt : can_filter) (w : world) :
  (∀ k : nat,
     empty (filters (w_data w)) k →
     (∀ j, (j < k)%nat → occupied (filters (w_data w)) j) →
     ∃ w', can_npl_add_rx_filter cb arg flt w = Done (Z.of_nat k) w'
           ∧ w_host w' = w_host w
           ∧ w_data w'
             = set_filters
                 (<[k := {| rx_cb := cb; cb_arg := arg; filter := flt |}]>
                    (filters (w_data w))) (w_data w))
  ∧ ((∀ j, (j < length (filters (w_data w)))%nat → occupied (filters (w_data w)) j) →
       ∃ w', can_npl_add_rx_filter cb arg flt w = Done (- ENOSPC) w'
             ∧ w_host w' = w_host w ∧ w_data w' = w_data w)
  ∧ (∀ h : nat,
       (h < length (filters (w_data w)))%nat →
       (∀ j, (j < h)%nat → occupied (filters (w_data w)) j) →
       ∃ w1 w2,
         can_npl_remove_rx_filter (Z.of_nat h) w = Done tt w1
         ∧ can_npl_add_rx_filter cb arg flt w1 = Done (Z.of_nat h) w2
         ∧ filters (w_data w2) !! h
           = Some {| rx_cb := cb; cb_arg := arg; filter := flt |}).
Proof.
  split; [|split].
  - intros k. apply add_rx_filter_lowest.
  - intros Hfull. unfold can_npl_add_rx_filter. run.
    rewrite (scan_free_full _ 0 (- ENOSPC) Hfull). cbn.
    eexists; repeat split.
  - intros h Hlt Hlow.
    destruct (lookup_lt_is_Some_2 _ _ Hlt) as [ctx Hh].
    destruct (remove_rx_filter_in_range w h ctx Hh) as (w1 & Hrm & _ & Hd1).
    destruct (add_rx_filter_lowest cb arg flt w1 h) as (w2 & Hadd & _ & Hd2).
    + rewrite Hd1. cbn. exists (clear_rx_cb ctx). split; [|reflexivity].
      apply list_lookup_insert_eq, Hlt.
    + intros j Hj. rewrite Hd1. cbn.
      destruct (Hlow j Hj) as (cj & cbj & Hlj & Hcj). exists cj, cbj.
      split; [|exact Hcj]. rewrite list_lookup_insert_ne by lia. exact Hlj.
    + exists w1, w2. repeat split; [exact Hrm | exact Hadd |].
      rewrite Hd2, Hd1. cbn. apply list_lookup_insert_eq.
      rewrite length_insert. exact Hlt.
Qed.

(** *** Dispatch *)

Lemma hits_from_elem (frame : can_frame) (fs : list can_filter_context) :
  ∀ (i j : nat) (cb : fnptr) (arg : ptr),
    (j, cb, arg) ∈ hits_from frame i fs
    ↔ (i ≤ j)%nat
      ∧ ∃ ctx, fs !! (j - i)%nat = Some ctx ∧ rx_cb ctx = Some cb
               ∧ cb_arg ctx = arg
               ∧ can_utils_filter_match frame (filter ctx) = true.
Proof.
  induction fs as [|c fs IH]; intros i j cb arg; cbn.
  - split; [intros H; inversion H | intros (_ & ctx & H & _); discriminate H].
  - assert ((j, cb, arg) ∈ hits_from frame (S i) fs
            ↔ (i < j)%nat
              ∧ ∃ ctx, (c :: fs) !! (j - i)%nat = Some ctx ∧ rx_cb ctx = Some cb
                       ∧ cb_arg ctx = arg
                       ∧ can_utils_filter_match frame (filter ctx) = true) as Htl.
    { rewrite IH. split.
      - intros (Hle & ctx & Hl & Hrest). split; [lia|]. exists ctx.
        replace (j - i)%nat with (S (j - S i)) by lia. auto.
      - intros (Hlt & ctx & Hl & Hrest). split; [lia|]. exists ctx.
        replace (j - i)%nat with (S (j - S i)) in Hl by lia. auto. }
    assert (∀ P0 : Prop,
              (i < j)%nat ∧ P0 → (i ≤ j)%nat ∧ P0) as Hweak by (intros ? []; split; [lia|auto]).
    assert (∀ ctx, (c :: fs) !! (j - i)%nat = Some ctx → (i ≤ j)%nat →
                   ¬ (i < j)%nat → j = i ∧ ctx = c) as Hhd.
    { intros ctx Hl Hle Hnlt. assert (j = i) as -> by lia.
      rewrite Nat.sub_diag in Hl. cbn in Hl. split; congruence. }
    destruct (rx_cb c) as [cb0|] eqn:Hcb;
      [destruct (can_utils_filter_match frame (filter c)) eqn:Hm|].
    + rewrite elem_of_cons, Htl. split.
      * intros [Heq | Htail]; [|auto]. injection Heq as -> -> ->.
        split; [lia|]. exists c. rewrite Nat.sub_diag. auto.
      * intros (Hle & ctx & Hl & Hc & Ha & Hmm).
        destruct (decide (i < j)%nat) as [Hlt|Hnlt]; [right; eauto 10|].
        destruct (Hhd ctx Hl Hle Hnlt) as [-> ->]. left. congruence.
    + rewrite Htl. split; [auto|].
      intros (Hle & ctx & Hl & Hc & Ha & Hmm).
      destruct (decide (i < j)%nat) as [Hlt|Hnlt]; [eauto 10|].
      destruct (Hhd ctx Hl Hle Hnlt) as [-> ->]. congruence.
    + rewrite Htl. split; [auto|].
      intros (Hle & ctx & Hl & Hc & Ha & Hmm).
      destruct (decide (i < j)%nat) as [Hlt|Hnlt]; [eauto 10|].
      destruct (Hhd ctx Hl Hle Hnlt) as [-> ->]. congruence.
Qed.

Lemma hits_from_ascending (frame : can_frame) (fs : list can_filter_context) :
  ∀ (i a b : nat) (x y : hit),
    hits_from frame i fs !! a = Some x → hits_from frame i fs !! b = Some y →
    (a < b)%nat → (hit_slot x < hit_slot y)%nat.
Proof.
  induction fs as [|c fs IH]; intros i a b x y Ha Hb Hab; cbn in Ha, Hb.
  - discriminate Ha.
  - destruct (rx_cb c) as [cb0|];
      [destruct (can_utils_filter_match frame (filter c))|]; eauto.
    destruct b as [|b]; [lia|]. cbn in Hb.
    destruct a as [|a]; cbn in Ha; [|apply (IH (S i) a b); auto; lia].
    injection Ha as <-. destruct y as [[j cb] arg].
    assert ((j, cb, arg) ∈ hits_from frame (S i) fs) as Hin
      by (apply list_elem_of_lookup; eauto).
    apply hits_from_elem in Hin. cbn. lia.
Qed.

Lemma for_loop_S {St} (n i : nat) (body : nat → St → M St) (s : St) (w : world) :
  for_loop (S n) i body s w
  = bind_result (body i s w) (fun s' => for_loop n (S i) body s').
Proof. reflexivity. Qed.

(** One round of the loop of [dispatch_frame] on an existing slot. *)
Lemma dispatch_slot_run (frame : can_frame) (i : nat) (tmp : option can_frame)
    (w : world) (c : can_filter_context) :
  filters (w_data w) !! i = Some c →
  dispatch_slot frame i tmp w
  = match rx_cb c with
    | Some cb =>
        if can_utils_filter_match frame (filter c) then
          Done (Some (rx_callback_run cb frame (cb_arg c) (w_host w)).1)
            {| w_data := w_data w;
               w_host := (rx_callback_run cb frame (cb_arg c) (w_host w)).2;
               w_trace := w_trace w ++ [EvRxCallback cb frame (cb_arg c)] |}
        else Done tmp w
    | None => Done tmp w
    end.
Proof.
  intros Hi. unfold dispatch_slot. run. rewrite Hi.
  destruct (rx_cb c) as [cb|]; [|reflexivity].
  destruct (can_utils_filter_match frame (filter c)); [|reflexivity]. cbn.
  destruct (rx_callback_run cb frame (cb_arg c) (w_host w)); reflexivity.
Qed.

(** The loop of [dispatch_frame] over the slots from [i] on calls the hits,
    each on the frame itself, and leaves the device data alone. *)
Lemma for_loop_dispatch (frame : can_frame) (rest : list can_filter_context) :
  ∀ (i : nat) (w : world) (tmp : option can_frame),
    drop i (filters (w_data w)) = rest →
    ∃ tmp' h',
      for_loop (length rest) i (dispatch_slot frame) tmp w
      = Done tmp'
          {| w_data := w_data w; w_host := h';
             w_trace := w_trace w ++ map (hit_call frame) (hits_from frame i rest) |}.
Proof.
  induction rest as [|c rest IH]; intros i w tmp Hdrop.
  - exists tmp, (w_host w). cbn. run. rewrite app_nil_r. destruct w; reflexivity.
  - assert (filters (w_data w) !! i = Some c) as Hi.
    { pose proof (lookup_drop (filters (w_data w)) i 0) as Hl.
      rewrite Hdrop, Nat.add_0_r in Hl. symmetry. exact Hl. }
    assert (drop (S i) (filters (w_data w)) = rest) as Hnext.
    { replace (S i) with (i + 1)%nat by lia. rewrite <- drop_drop, Hdrop.
      reflexivity. }
    cbn [length hits_from]. rewrite for_loop_S, (dispatch_slot_run _ _ _ _ c Hi).
    destruct (rx_cb c) as [cb0|];
      [destruct (can_utils_filter_match frame (filter c))|];
      cbn [bind_result]; try (apply IH; exact Hnext).
    edestruct (IH (S i)
                 {| w_data := w_data w;
                    w_host := (rx_callback_run cb0 frame (cb_arg c) (w_host w)).2;
                    w_trace := w_trace w
                               ++ [EvRxCallback cb0 frame (cb_arg c)] |})
      as (tmp' & h' & Hrun); [exact Hnext|].
    exists tmp', h'. rewrite Hrun. cbn. rewrite <- app_assoc. reflexivity.
Qed.

(** What [dispatch_frame] does, in terms of [hits_from]. *)
Lemma dispatch_frame_run (frame : can_frame) (w : world) :
  ∃ h',
    dispatch_frame frame w
    = Done tt
        {| w_data := w_data w; w_host := h';
           w_trace := w_trace w ++ [EvMutexLock]
                      ++ map (hit_call frame)
                           (hits_from frame 0 (filters (w_data w)))
                      ++ [EvMutexUnlock] |}.
Proof.
  unfold dispatch_frame. run.
  edestruct (for_loop_dispatch frame (filters (w_data w)) O
               {| w_data := w_data w; w_host := w_host w;
                  w_trace := w_trace w ++ [EvMutexLock] |} None)
    as (tmp' & h' & Hrun); [reflexivity|].
  cbn in Hrun. rewrite Hrun. cbn. exists h'.
  rewrite <- !app_assoc. reflexivity.
Qed.

(** *** Receive thread *)

(** The end of the loop body: nothing on an empty read, otherwise a debug
    line and [dispatch_frame] on the decoded frame. *)
Lemma rx_thread_frame_run (count : Z) (sframe : socketcan_frame) (w : world) :
  rx_thread_frame count sframe w
  = if 0 <? count then
      bind_result
        (dispatch_frame (socketcan_to_can_frame sframe)
           (with_event
              (EvLog LOG_LEVEL_DBG "Received %d bytes. Id: 0x%x, ID type: %s %s") w))
        (fun _ w' => Done LoopContinue w')
    else Done LoopBreak w.
Proof.
  unfold rx_thread_frame.
  destruct (Z.leb_spec count 0), (Z.ltb_spec 0 count); try lia; reflexivity.
Qed.

(** *** Transmit path *)

Lemma k_sem_take_available (s : sem_id) (timeout : k_timeout_t) (w : world) :
  0 < sem_count (get_sem s (w_data w)) →
  k_sem_take s timeout w
  = Done 0 (with_data (set_sem s (sem_taken (get_sem s (w_data w))) (w_data w)) w).
Proof.
  intros Hc. unfold k_sem_take.
  destruct (Z.ltb_spec 0 (sem_count (get_sem s (w_data w)))); [reflexivity | lia].
Qed.

Lemma k_sem_take_no_wait (s : sem_id) (w : world) :
  sem_count (get_sem s (w_data w)) ≤ 0 →
  k_sem_take s K_NO_WAIT w = Done (- EBUSY) w.
Proof.
  intros Hc. unfold k_sem_take.
  destruct (Z.ltb_spec 0 (sem_count (get_sem s (w_data w)))); [lia | reflexivity].
Qed.

Lemma k_sem_take_pends (s : sem_id) (timeout : k_timeout_t) (w : world) :
  sem_count (get_sem s (w_data w)) ≤ 0 → timeout ≠ K_NO_WAIT →
  k_sem_take s timeout w
  = Pend s timeout
      (with_data (set_sem s (sem_pended (get_sem s (w_data w))) (w_data w)) w)
      (fun rv w' => Done rv w').
Proof.
  intros Hc Ht. unfold k_sem_take.
  destruct (Z.ltb_spec 0 (sem_count (get_sem s (w_data w)))); [lia|].
  destruct (Z.eqb_spec timeout K_NO_WAIT); [contradiction | reflexivity].
Qed.

Lemma mode_max_dlc_bound (d : can_npl_data) (frame : can_frame) :
  send_max_dlc d frame ≤ mode_max_dlc d.
Proof.
  unfold send_max_dlc, mode_max_dlc, send_as_fd, CANFD_MAX_DLC, CAN_MAX_DLC.
  destruct CONFIG_CAN_FD_MODE, (mode_fd d), (fd frame =? 1); cbn; lia.
Qed.

(** [can_npl_send] up to the take of [tx_idle], on a frame that passes the
    three checks. *)
Lemma send_checks_pass (frame : can_frame) (timeout : k_timeout_t)
    (callback : can_tx_callback_t) (user_data : ptr) (w : world) :
  dlc frame ≤ send_max_dlc (w_data w) frame →
  0 < dev_fd (w_data w) →
  started (w_data w) = true →
  can_npl_send frame timeout callback user_data w
  = bind_result
      (k_sem_take TX_IDLE timeout
         (with_event
            (EvLog LOG_LEVEL_DBG "Sending %d bytes on %s. Id: 0x%x, ID type: %s %s")
            w))
      (fun r =>
         if negb (r =? 0) then mret (- EAGAIN)
         else
           modify_data (set_tx_pending callback user_data);;
           d ← get_data;
           r ← host_call
                 (linux_socketcan_write_data (dev_fd d)
                    (socketcan_from_can_frame frame) (send_mtu (w_data w) frame));
           (if r <? 0 then LOG_ERR "Cannot send CAN data len %d (%d)" else mret tt);;
           match callback with
           | None => k_sem_take TX_DONE K_FOREVER;; mret tt
           | Some _ => mret tt
           end;;
           mret 0).
Proof.
  unfold send_max_dlc, send_mtu. intros Hdlc Hfd Hst.
  unfold can_npl_send. autounfold with drv.
  cbn [bind_result w_data w_host w_trace].
  destruct (Z.ltb_spec (if send_as_fd (w_data w) frame then CANFD_MAX_DLC
                        else CAN_MAX_DLC) (dlc frame)) as [Hbad|_]; [lia|].
  destruct (Z.leb_spec (dev_fd (w_data w)) 0) as [Hbad|_]; [lia|].
  rewrite Hst. reflexivity.
Qed.

(** [can_npl_send] from the moment it holds the permit, when the write
    fails. *)
Lemma send_tail_write_failure (frame : can_frame) (callback : can_tx_callback_t)
    (user_data : ptr) (mtu r : Z) (h1 : host) (w : world) :
  linux_socketcan_write_data (dev_fd (w_data w)) (socketcan_from_can_frame frame)
    mtu (w_host w) = (r, h1) →
  r < 0 →
  completes_with_success (w_trace w) callback
    ((modify_data (set_tx_pending callback user_data);;
      d ← get_data;
      r ← host_call
            (linux_socketcan_write_data (dev_fd d)
               (socketcan_from_can_frame frame) mtu);
      (if r <? 0 then LOG_ERR "Cannot send CAN data len %d (%d)" else mret tt);;
      match callback with
      | None => k_sem_take TX_DONE K_FOREVER;; mret tt
      | Some _ => mret tt
      end;;
      mret 0) w).
Proof.
  intros Hwrite Hneg. autounfold with drv.
  cbn [bind_result w_data w_host w_trace set_tx_pending dev_fd].
  rewrite Hwrite. cbn [bind_result].
  destruct (Z.ltb_spec r 0) as [_|Hbad]; [|lia].
  cbn [bind_result w_data w_host w_trace].
  assert (∀ w' : world,
            w_trace w' = w_trace w ++ [write_error_logged] →
            logged_since (w_trace w) w') as Hlog.
  { intros w' Htr. exists [write_error_logged]. split; [exact Htr|].
    apply elem_of_cons. auto. }
  destruct callback as [cb|].
  - cbn. split; [reflexivity|]. apply Hlog. reflexivity.
  - unfold k_sem_take. cbn.
    destruct (0 <? sem_count (tx_done (w_data w))); cbn.
    + split; [reflexivity|]. apply Hlog. reflexivity.
    + repeat split. apply Hlog. reflexivity.
Qed.

Lemma completes_with_success_since (before extra : list event)
    (callback : can_tx_callback_t) (r : result Z) :
  completes_with_success (before ++ extra) callback r →
  completes_with_success before callback r.
Proof.
  assert (∀ w', logged_since (before ++ extra) w' → logged_since before w') as Hlog.
  { intros w' (evs & Htr & Hin). exists (extra ++ evs).
    split; [rewrite app_assoc; exact Htr|]. apply elem_of_app. auto. }
  destruct r as [v w'|s t w' k]; cbn.
  - intros [Hv Hl]. auto.
  - intros (Hc & Hs & Ht & Hl & Hk). auto 6.
Qed.

(** C1. On a frame that passes the three checks, once [can_npl_send] holds
    the idle permit -- at once when [tx_idle] has a count, or when the kernel
    resumes it with 0 after it pended -- a negative return of the transport
    write is logged, and the call can only return 0: it returns 0 at once
    with a callback or with [tx_done] already given, and otherwise pends on
    [tx_done] and returns 0 when resumed. *)
Theorem send_write_failure_success (frame : can_frame) (timeout : k_timeout_t)
    (callback : can_tx_callback_t) (user_data : ptr) (w : world) :
  dlc frame ≤ send_max_dlc (w_data w) frame →
  0 < dev_fd (w_data w) →
  started (w_data w) = true →
  (0 < sem_count (tx_idle (w_data w)) →
     ∀ r h1,
       linux_socketcan_write_data (dev_fd (w_data w))
         (socketcan_from_can_frame frame) (send_mtu (w_data w) frame) (w_host w)
       = (r, h1) →
       r < 0 →
       completes_with_success (w_trace w) callback
         (can_npl_send frame timeout callback user_data w))
  ∧ (sem_count (tx_idle (w_data w)) ≤ 0 → timeout ≠ K_NO_WAIT →
       ∃ w' k,
         can_npl_send frame timeout callback user_data w
         = Pend TX_IDLE timeout w' k
         ∧ ∀ w'' r h1,
             linux_socketcan_write_data (dev_fd (w_data w''))
               (socketcan_from_can_frame frame) (send_mtu (w_data w) frame)
               (w_host w'')
             = (r, h1) →
             r < 0 →
             completes_with_success (w_trace w'') callback (k 0 w'')).
Proof.
  intros Hdlc Hfd Hst. rewrite (send_checks_pass _ _ _ _ _ Hdlc Hfd Hst).
  split.
  - intros Hcount r h1 Hwrite Hneg.
    rewrite k_sem_take_available by exact Hcount.
    cbn [bind_result Z.eqb negb].
    apply (completes_with_success_since (w_trace w)
             [EvLog LOG_LEVEL_DBG "Sending %d bytes on %s. Id: 0x%x, ID type: %s %s"]).
    apply (send_tail_write_failure frame callback user_data _ r h1);
      [exact Hwrite | exact Hneg].
  - intros Hcount Hwait.
    rewrite k_sem_take_pends by assumption.
    cbn [bind_result]. eexists _, _. split; [reflexivity|].
    intros w'' r h1 Hwrite Hneg. cbn [bind_result Z.eqb negb].
    apply (send_tail_write_failure frame callback user_data _ r h1);
      [exact Hwrite | exact Hneg].
Qed.

(** C5. [can_npl_send] checks in this order and fails with the matching
    error: [-EINVAL] on a data length code above the maximum (the maximum for
    the frame, hence also on one above the maximum of the mode); then [-EIO]
    on a socket descriptor that is not positive; then [-ENETDOWN] on a
    controller that is not started; then [-EAGAIN] when the idle permit is
    not to be had: at once under [K_NO_WAIT], and otherwise when the kernel
    resumes the pended call with a value other than 0. The device data is
    the same after each failure; the pended call differs from the start only
    by its place in the wait queue of [tx_idle], and touches nothing between
    its resumption and its return. *)
Theorem send_precondition_failures (frame : can_frame) (timeout : k_timeout_t)
    (callback : can_tx_callback_t) (user_data : ptr) (w : world) :
  (send_max_dlc (w_data w) frame < dlc frame ∨ mode_max_dlc (w_data w) < dlc frame →
     ∃ w', can_npl_send frame timeout callback user_data w = Done (- EINVAL) w'
           ∧ w_data w' = w_data w ∧ w_host w' = w_host w)
  ∧ (dlc frame ≤ send_max_dlc (w_data w) frame → dev_fd (w_data w) ≤ 0 →
       ∃ w', can_npl_send frame timeout callback user_data w = Done (- EIO) w'
             ∧ w_data w' = w_data w ∧ w_host w' = w_host w)
  ∧ (dlc frame ≤ send_max_dlc (w_data w) frame → 0 < dev_fd (w_data w) →
     started (w_data w) = false →
       ∃ w', can_npl_send frame timeout callback user_data w = Done (- ENETDOWN) w'
             ∧ w_data w' = w_data w ∧ w_host w' = w_host w)
  ∧ (dlc frame ≤ send_max_dlc (w_data w) frame → 0 < dev_fd (w_data w) →
     started (w_data w) = true → sem_count (tx_idle (w_data w)) ≤ 0 →
       (timeout = K_NO_WAIT →
          ∃ w', can_npl_send frame timeout callback user_data w = Done (- EAGAIN) w'
                ∧ w_data w' = w_data w ∧ w_host w' = w_host w)
       ∧ (timeout ≠ K_NO_WAIT →
            ∃ w' k,
              can_npl_send frame timeout callback user_data w
              = Pend TX_IDLE timeout w' k
              ∧ w_data w'
                = set_sem TX_IDLE (sem_pended (tx_idle (w_data w))) (w_data w)
              ∧ w_host w' = w_host w
              ∧ ∀ rv w'', rv ≠ 0 → k rv w'' = Done (- EAGAIN) w'')).
Proof.
  split; [|split; [|split]].
  - intros Hbad.
    assert (send_max_dlc (w_data w) frame < dlc frame) as Hlt
      by (pose proof (mode_max_dlc_bound (w_data w) frame); lia).
    unfold send_max_dlc in Hlt. unfold can_npl_send. autounfold with drv.
    cbn [bind_result w_data w_host w_trace].
    destruct (Z.ltb_spec (if send_as_fd (w_data w) frame then CANFD_MAX_DLC
                          else CAN_MAX_DLC) (dlc frame)) as [_|Hge]; [|lia].
    cbn. eexists; repeat split.
  - intros Hdlc Hfd. unfold send_max_dlc in Hdlc.
    unfold can_npl_send. autounfold with drv.
    cbn [bind_result w_data w_host w_trace].
    destruct (Z.ltb_spec (if send_as_fd (w_data w) frame then CANFD_MAX_DLC
                          else CAN_MAX_DLC) (dlc frame)) as [Hbad|_]; [lia|].
    destruct (Z.leb_spec (dev_fd (w_data w)) 0) as [_|Hbad]; [|lia].
    cbn. eexists; repeat split.
  - intros Hdlc Hfd Hst. unfold send_max_dlc in Hdlc.
    unfold can_npl_send. autounfold with drv.
    cbn [bind_result w_data w_host w_trace].
    destruct (Z.ltb_spec (if send_as_fd (w_data w) frame then CANFD_MAX_DLC
                          else CAN_MAX_DLC) (dlc frame)) as [Hbad|_]; [lia|].
    destruct (Z.leb_spec (dev_fd (w_data w)) 0) as [Hbad|_]; [lia|].
    rewrite Hst. cbn. eexists; repeat split.
  - intros Hdlc Hfd Hst Hcount.
    rewrite (send_checks_pass _ _ _ _ _ Hdlc Hfd Hst).
    split.
    + intros ->. rewrite k_sem_take_no_wait by exact Hcount.
      cbn. eexists; repeat split.
    + intros Hwait. rewrite k_sem_take_pends by assumption.
      cbn [bind_result]. eexists _, _. split; [reflexivity|].
      split; [reflexivity|]. split; [reflexivity|].
      intros rv w'' Hrv. cbn [bind_result].
      destruct (Z.eqb_spec rv 0) as [Hbad|_]; [contradiction|]. reflexivity.
Qed.

End Properties.

(** * Runs on the demo platform *)

(** The demo platform starts as [can_npl_init] leaves it. *)
Lemma demo_data_init :
  can_npl_init "vcan0"
    (demo_world false (@can_npl_data_0 (demo_platform false)) quiet)
  = Done 0
      (@Build_world (demo_platform false) (w_data w_stopped) quiet
         [EvThreadCreate; EvLog LOG_LEVEL_DBG "Init of %s done"]).
Proof. reflexivity. Qed.

(** Two matching filters: both callbacks are handed the frame as received,
    although the first one scribbles over its copy. *)
Lemma demo_dispatch_two :
  dispatch_frame frame_123 (w_two_filters quiet)
  = Done tt
      (@Build_world (demo_platform false) (w_data (w_two_filters quiet)) quiet
         [EvMutexLock; EvRxCallback 7 frame_123 70; EvRxCallback 9 frame_123 90;
          EvMutexUnlock]).
Proof. reflexivity. Qed.

(** Fill the table, overflow it, free slot 1 and add again. *)
Lemma demo_fill_remove_add :
  ∃ w1 w2 w3 w4 w5 w6,
    can_npl_add_rx_filter (Some 7) 70 filter_123 w_stopped = Done 0 w1
    ∧ can_npl_add_rx_filter (Some 8) 80 filter_123 w1 = Done 1 w2
    ∧ can_npl_add_rx_filter (Some 9) 90 filter_123 w2 = Done 2 w3
    ∧ can_npl_add_rx_filter (Some 5) 50 filter_123 w3 = Done (- ENOSPC) w4
    ∧ filters (w_data w4) = [slot_123 7 70; slot_123 8 80; slot_123 9 90]
    ∧ can_npl_remove_rx_filter 1 w4 = Done tt w5
    ∧ can_npl_add_rx_filter (Some 5) 50 filter_123 w5 = Done 1 w6
    ∧ filters (w_data w6) = [slot_123 7 70; slot_123 5 50; slot_123 9 90].
Proof.
  do 6 eexists.
  repeat (split; [lazy; reflexivity|]). lazy; reflexivity.
Qed.

(** Witness of C7: starting the stopped demo device. *)
Lemma start_stop_transitions_witness :
  started (w_data w_stopped) = false
  ∧ can_npl_start w_stopped
    = Done 0 (with_data (set_started true (w_data w_stopped)) w_stopped).
Proof.
  split; [reflexivity|].
  apply (proj1 (@start_stop_transitions (demo_platform false) w_stopped)).
  reflexivity.
Defined.

(** Witness of C9: the state of the stopped demo device. *)
Lemma get_state_follows_started_witness :
  started (w_data w_stopped) = false
  ∧ ∃ e, can_npl_get_state (Some CAN_STATE_BUS_OFF) None w_stopped
         = Done (0, Some CAN_STATE_STOPPED, e) w_stopped.
Proof.
  split; [reflexivity|].
  apply (proj1 (@get_state_follows_started (demo_platform false) w_stopped
                  CAN_STATE_BUS_OFF None)).
  reflexivity.
Defined.

(** Witness of the amended C6: loopback mode on the stopped demo device,
    whose capability set is the loopback bit alone. *)
Lemma set_mode_outcome_witness :
  can_npl_get_capabilities w_stopped = Done (0, CAN_MODE_LOOPBACK) w_stopped
  ∧ started (w_data w_stopped) = false
  ∧ ∃ w', can_npl_set_mode CAN_MODE_LOOPBACK w_stopped = Done 0 w'
          ∧ loopback (w_data w') = true ∧ mode_fd (w_data w') = false.
Proof.
  split; [reflexivity|]. split; [reflexivity|].
  destruct (@set_mode_outcome (demo_platform false) CAN_MODE_LOOPBACK
              CAN_MODE_LOOPBACK w_stopped eq_refl) as [_ Hsub].
  destruct (Hsub (fun n _ Hb => Hb)) as [_ Hstop].
  destruct (Hstop eq_refl) as (w' & Hrun & Hd).
  exists w'. rewrite Hd. repeat split. exact Hrun.
Defined.

(** Witness of C8: a handle beyond the table of three slots. *)
Lemma remove_rx_filter_outcome_witness :
  ARRAY_SIZE (filters (w_data (w_two_filters quiet))) ≤ 7
  ∧ can_npl_remove_rx_filter 7 (w_two_filters quiet) = Done tt (w_two_filters quiet).
Proof.
  split; [vm_compute; discriminate|].
  apply (proj1 (@remove_rx_filter_outcome (demo_platform false) 7
                  (w_two_filters quiet))).
  right. vm_compute. discriminate.
Defined.

(** Witness of C4: slot 1 is the lowest empty slot of the demo table. *)
Lemma add_rx_filter_outcome_witness :
  empty (filters (w_data (w_two_filters quiet))) 1
  ∧ ∃ w', can_npl_add_rx_filter (Some 5) 50 filter_123 (w_two_filters quiet)
          = Done 1 w'
          ∧ filters (w_data w') = [slot_123 7 70; slot_123 5 50; slot_123 9 90].
Proof.
  assert (empty (filters (w_data (w_two_filters quiet))) 1) as Hempty
    by (exists empty_slot; split; reflexivity).
  split; [exact Hempty|].
  destruct (proj1 (@add_rx_filter_outcome (demo_platform false) (Some 5) 50
                     filter_123 (w_two_filters quiet)) 1%nat Hempty)
    as (w' & Hrun & _ & Hd).
  - intros j Hj. assert (j = O) as -> by lia.
    exists (slot_123 7 70), 7. split; reflexivity.
  - exists w'. rewrite Hd. split; [exact Hrun | reflexivity].
Defined.

(** Witness of C5: a data length code of 9 on a classic CAN controller. *)
Lemma send_precondition_failures_witness :
  @send_max_dlc (demo_platform false) (w_data w_started) frame_long < dlc frame_long
  ∧ ∃ w', can_npl_send frame_long K_NO_WAIT None 0 w_started = Done (- EINVAL) w'
          ∧ w_data w' = w_data w_started.
Proof.
  assert (@send_max_dlc (demo_platform false) (w_data w_started) frame_long
          < dlc frame_long) as Hlong
    by (vm_compute; reflexivity).
  split; [exact Hlong|].
  destruct (proj1 (@send_precondition_failures (demo_platform false) frame_long
                     K_NO_WAIT None 0 w_started) (or_introl Hlong))
    as (w' & Hrun & Hd & _).
  exists w'. split; [exact Hrun | exact Hd].
Defined.

(** A send with a callback on a host whose write fails: the failure is
    logged and the call returns 0, with the permit taken and the callback
    pending. *)
Lemma demo_send_write_failure :
  can_npl_send frame_123 K_NO_WAIT (Some 4) 40
    (w_two_filters (demo_script (0, frame_123, false) (-1)))
  = Done 0
      (@Build_world (demo_platform false)
         (set_tx_pending (Some 4) 40
            (set_sem TX_IDLE {| sem_count := 0; sem_limit := 1; sem_wait_q := O |}
               (w_data (w_two_filters quiet))))
         (demo_script (0, frame_123, false) (-1))
         [EvLog LOG_LEVEL_DBG "Sending %d bytes on %s. Id: 0x%x, ID type: %s %s";
          write_error_logged]).
Proof. reflexivity. Qed.

(** Witness of C1: a send with a callback on a host whose write fails. *)
Lemma send_write_failure_success_witness :
  (@linux_socketcan_write_data (demo_platform false)
     (dev_fd (w_data (w_two_filters (demo_script (0, frame_123, false) (-1)))))
     (@socketcan_from_can_frame (demo_platform false) frame_123) CAN_MTU
     (w_host (w_two_filters (demo_script (0, frame_123, false) (-1))))).1 = -1
  ∧ completes_with_success [] (Some 4)
      (can_npl_send frame_123 K_NO_WAIT (Some 4) 40
         (w_two_filters (demo_script (0, frame_123, false) (-1)))).
Proof.
  split; [reflexivity|].
  refine (proj1 (@send_write_failure_success (demo_platform false) frame_123
                   K_NO_WAIT (Some 4) 40
                   (w_two_filters (demo_script (0, frame_123, false) (-1)))
                   _ _ _) _ (-1) (demo_script (0, frame_123, false) (-1)) _ _).
  - vm_compute. discriminate.
  - reflexivity.
  - reflexivity.
  - reflexivity.
  - reflexivity.
  - reflexivity.
Defined.

(** The same round by evaluation: the semaphores are given, then both
    filters are called. *)
Lemma demo_confirmation_loopback :
  @rx_thread_unit (demo_platform false) frame_123 (w_two_filters (demo_script (16, frame_123, true) 16))
  = @Done (demo_platform false) _ (LoopContinue, frame_123)
      (@Build_world (demo_platform false)
         (set_sem TX_IDLE {| sem_count := 1; sem_limit := 1; sem_wait_q := O |}
            (set_sem TX_DONE {| sem_count := 1; sem_limit := 1; sem_wait_q := O |}
               (w_data (w_two_filters quiet))))
         (demo_script (16, frame_123, true) 16)
         [EvLog LOG_LEVEL_DBG "Received %d bytes. Id: 0x%x, ID type: %s %s";
          EvMutexLock; EvRxCallback 7 frame_123 70; EvRxCallback 9 frame_123 90;
          EvMutexUnlock]).
Proof. reflexivity. Qed.

(** A send without callback and the receive thread, hand in hand: the send
    takes the permit, writes and pends on [tx_done]; the receive thread reads
    the confirmation, hands [tx_done] to the pended sender and gives
    [tx_idle] back; the sender, resumed, returns 0. *)
Lemma demo_send_confirm_handshake :
  ∃ w1 k w2,
    can_npl_send frame_123 K_FOREVER None 0
      (w_two_filters (demo_script (16, frame_123, true) 16))
    = Pend TX_DONE K_FOREVER w1 k
    ∧ tx_idle (w_data w1) = {| sem_count := 0; sem_limit := 1; sem_wait_q := O |}
    ∧ tx_done (w_data w1) = {| sem_count := 0; sem_limit := 1; sem_wait_q := 1 |}
    ∧ @rx_thread_unit (demo_platform false) frame_123 w1
      = @Done (demo_platform false) _ (LoopContinue, frame_123) w2
    ∧ tx_idle (w_data w2) = {| sem_count := 1; sem_limit := 1; sem_wait_q := O |}
    ∧ tx_done (w_data w2) = {| sem_count := 0; sem_limit := 1; sem_wait_q := O |}
    ∧ k 0 w2 = Done 0 w2.
Proof.
  do 3 eexists.
  repeat (split; [lazy; reflexivity|]). lazy; reflexivity.
Qed.

(** C6, as the spec has it, fails: on a started controller a listen-only
    request is refused as unsupported, not as busy. *)
Lemma set_mode_started_listenonly_not_busy :
  ¬ (∀ (P : Platform) (mode : Z) (w : @world P),
       started (w_data w) = true →
       ∃ w', can_npl_set_mode mode w = Done (- EBUSY) w').
Proof.
  intros H.
  destruct (H (demo_platform false) CAN_MODE_LISTENONLY
              (demo_world false (demo_data (replicate 3 empty_slot) false true)
                 (demo_script (0, frame_123, false) 0)) eq_refl) as [w' Hw'].
  vm_compute in Hw'. discriminate Hw'.
Qed.



(** * Further properties *)

Section More.
Context `{P : Platform}.

(** ** Filter table and dispatch together *)

Lemma add_rx_filter_full (cb : can_rx_callback_t) (arg : ptr) (flt : can_filter)
    (w : world) :
  (∀ j, (j < length (filters (w_data w)))%nat → occupied (filters (w_data w)) j) →
  ∃ w', can_npl_add_rx_filter cb arg flt w = Done (- ENOSPC) w'
        ∧ w_host w' = w_host w ∧ w_data w' = w_data w.
Proof.
  intros Hfull. unfold can_npl_add_rx_filter. run.
  rewrite (scan_free_full _ 0 (- ENOSPC) Hfull). cbn.
  eexists; repeat split.
Qed.

Lemma alter_beyond {A} (f : A → A) (l : list A) (i : nat) :
  (length l ≤ i)%nat → alter f i l = l.
Proof.
  intros Hi. apply list_eq. intros j. destruct (decide (i = j)) as [<-|Hne].
  - rewrite list_lookup_alter_eq, (lookup_ge_None_2 l i Hi). reflexivity.
  - apply list_lookup_alter_ne, Hne.
Qed.

(** What [can_npl_remove_rx_filter] does on any handle. *)
Lemma remove_rx_filter_run (h : Z) (w : world) :
  ∃ w', can_npl_remove_rx_filter h w = Done tt w'
        ∧ w_host w' = w_host w
        ∧ w_data w'
          = if h <? 0 then w_data w
            else set_filters (alter clear_rx_cb (Z.to_nat h) (filters (w_data w)))
                   (w_data w).
Proof.
  unfold can_npl_remove_rx_filter, ARRAY_SIZE. run.
  destruct (Z.ltb_spec h 0) as [Hneg|Hnn]; cbn.
  - exists w. auto.
  - destruct (Z.geb_spec h (Z.of_nat (length (filters (w_data w))))) as [Hge|Hlt]; cbn.
    + exists w. repeat split.
      rewrite alter_beyond by lia. symmetry. apply set_filters_same.
    + eexists; repeat split.
Qed.

(** The hits of a table in which slot [n] was cleared. *)
Lemma hits_from_cleared (frame : can_frame) (fs : list can_filter_context)
    (n i : nat) (cb : fnptr) (arg : ptr) :
  (i, cb, arg) ∈ hits_from frame 0 (alter clear_rx_cb n fs)
  ↔ i ≠ n ∧ (i, cb, arg) ∈ hits_from frame 0 fs.
Proof.
  rewrite !hits_from_elem, !Nat.sub_0_r. split.
  - intros (_ & ctx & Hl & Hcb & Ha & Hm).
    destruct (decide (n = i)) as [->|Hne].
    + rewrite list_lookup_alter_eq in Hl.
      destruct (fs !! i) as [c|]; [|discriminate Hl].
      cbn in Hl. injection Hl as <-. discriminate Hcb.
    + rewrite list_lookup_alter_ne in Hl by exact Hne.
      split; [auto|]. split; [lia|]. eauto 6.
  - intros (Hne & _ & ctx & Hl & Hrest). split; [lia|].
    exists ctx. rewrite list_lookup_alter_ne by auto. auto.
Qed.

(** The hits of a table in which slot [k] was overwritten. *)
Lemma hits_from_inserted (frame : can_frame) (fs : list can_filter_context)
    (k i : nat) (c : can_filter_context) (cb : fnptr) (arg : ptr) :
  (k < length fs)%nat →
  (i, cb, arg) ∈ hits_from frame 0 (<[k := c]> fs)
  ↔ (i = k ∧ rx_cb c = Some cb ∧ cb_arg c = arg
     ∧ can_utils_filter_match frame (filter c) = true)
    ∨ (i ≠ k ∧ (i, cb, arg) ∈ hits_from frame 0 fs).
Proof.
  intros Hk. rewrite !hits_from_elem, !Nat.sub_0_r. split.
  - intros (_ & ctx & Hl & Hcb & Ha & Hm).
    destruct (decide (k = i)) as [->|Hne].
    + rewrite list_lookup_insert_eq in Hl by exact Hk. injection Hl as <-.
      left. auto.
    + rewrite list_lookup_insert_ne in Hl by exact Hne.
      right. split; [auto|]. split; [lia|]. eauto 6.
  - intros [(-> & Hcb & Ha & Hm) | (Hne & _ & ctx & Hl & Hrest)].
    + split; [lia|]. exists c. rewrite list_lookup_insert_eq by exact Hk. auto.
    + split; [lia|]. exists ctx. rewrite list_lookup_insert_ne by auto. auto.
Qed.

(** Overwriting an empty slot with an empty slot changes no hit. *)
Lemma hits_from_insert_empty (frame : can_frame) (fs : list can_filter_context) :
  ∀ (i k : nat) (c ctx : can_filter_context),
    fs !! k = Some ctx → rx_cb ctx = None → rx_cb c = None →
    hits_from frame i (<[k := c]> fs) = hits_from frame i fs.
Proof.
  induction fs as [|c0 fs IH]; intros i k c ctx Hl Hnone Hc; [discriminate Hl|].
  destruct k as [|k]; cbn in Hl.
  - injection Hl as ->. cbn. rewrite Hnone, Hc. reflexivity.
  - change (<[S k := c]> (c0 :: fs)) with (c0 :: <[k := c]> fs).
    cbn [hits_from]. rewrite (IH (S i) k c ctx Hl Hnone Hc). reflexivity.
Qed.

(** The loop of [dispatch_frame], with the host it leaves. *)
Lemma for_loop_dispatch_host (frame : can_frame) (rest : list can_filter_context) :
  ∀ (i : nat) (w : world) (tmp : option can_frame),
    drop i (filters (w_data w)) = rest →
    ∃ tmp',
      for_loop (length rest) i (dispatch_slot frame) tmp w
      = Done tmp'
          {| w_data := w_data w;
             w_host := callbacks_host frame (hits_from frame i rest) (w_host w);
             w_trace := w_trace w ++ map (hit_call frame) (hits_from frame i rest) |}.
Proof.
  induction rest as [|c rest IH]; intros i w tmp Hdrop.
  - exists tmp. cbn. run. rewrite app_nil_r. destruct w; reflexivity.
  - assert (filters (w_data w) !! i = Some c) as Hi.
    { pose proof (lookup_drop (filters (w_data w)) i 0) as Hl.
      rewrite Hdrop, Nat.add_0_r in Hl. symmetry. exact Hl. }
    assert (drop (S i) (filters (w_data w)) = rest) as Hnext.
    { replace (S i) with (i + 1)%nat by lia. rewrite <- drop_drop, Hdrop.
      reflexivity. }
    cbn [length hits_from]. rewrite for_loop_S, (dispatch_slot_run _ _ _ _ c Hi).
    destruct (rx_cb c) as [cb0|];
      [destruct (can_utils_filter_match frame (filter c))|];
      cbn [bind_result]; try (apply IH; exact Hnext).
    edestruct (IH (S i)
                 {| w_data := w_data w;
                    w_host := (rx_callback_run cb0 frame (cb_arg c) (w_host w)).2;
                    w_trace := w_trace w
                               ++ [EvRxCallback cb0 frame (cb_arg c)] |})
      as (tmp' & Hrun); [exact Hnext|].
    exists tmp'. rewrite Hrun. cbn. rewrite <- app_assoc. reflexivity.
Qed.

(** What [dispatch_frame] does, with the host it leaves. *)
Lemma dispatch_frame_exact (frame : can_frame) (w : world) :
  dispatch_frame frame w
  = Done tt
      {| w_data := w_data w;
         w_host := callbacks_host frame (hits_from frame 0 (filters (w_data w)))
                     (w_host w);
         w_trace := w_trace w ++ [EvMutexLock]
                    ++ map (hit_call frame)
                         (hits_from frame 0 (filters (w_data w)))
                    ++ [EvMutexUnlock] |}.
Proof.
  unfold dispatch_frame. run.
  edestruct (for_loop_dispatch_host frame (filters (w_data w)) O
               {| w_data := w_data w; w_host := w_host w;
                  w_trace := w_trace w ++ [EvMutexLock] |} None)
    as (tmp' & Hrun); [reflexivity|].
  cbn in Hrun. rewrite Hrun. cbn. rewrite <- !app_assoc. reflexivity.
Qed.

Lemma callbacks_host_foldl (frame : can_frame) (hs : list hit) (h : host) :
  callbacks_host frame hs h
  = foldl (λ h0 x, (rx_callback_run (hit_cb x) frame (hit_arg x) h0).2) h hs.
Proof.
  revert h. induction hs as [|x hs IH]; intros h; [reflexivity|].
  cbn. apply IH.
Qed.

(** C3. [dispatch_frame] takes the filter mutex, calls the callbacks of the
    hits, and gives the mutex back, leaving the device data alone. A slot is
    hit if and only if it is occupied and its filter matches the frame; hits
    come in strictly ascending slot order, so each hit slot is called once.
    Every call is recorded with the received frame, and the host afterwards
    is the host after each of these callbacks ran, in that order, on the
    received frame itself: what a callback writes into the copy it is handed
    is seen by no later callback. *)
Theorem dispatch_frame_fan_out (frame : can_frame) (w : world) :
  ∃ hits : list hit,
    dispatch_frame frame w
    = Done tt
        {| w_data := w_data w;
           w_host :=
             foldl (λ h x, (rx_callback_run (hit_cb x) frame (hit_arg x) h).2)
               (w_host w) hits;
           w_trace :=
             w_trace w ++ [EvMutexLock]
             ++ map (λ x, EvRxCallback (hit_cb x) frame (hit_arg x)) hits
             ++ [EvMutexUnlock] |}
    ∧ (∀ (i : nat) (cb : fnptr) (arg : ptr),
         (i, cb, arg) ∈ hits
         ↔ ∃ ctx, filters (w_data w) !! i = Some ctx ∧ rx_cb ctx = Some cb
                  ∧ cb_arg ctx = arg
                  ∧ can_utils_filter_match frame (filter ctx) = true)
    ∧ (∀ (a b : nat) (x y : hit),
         hits !! a = Some x → hits !! b = Some y → (a < b)%nat →
         (hit_slot x < hit_slot y)%nat).
Proof.
  exists (hits_from frame 0 (filters (w_data w))).
  split; [rewrite dispatch_frame_exact, callbacks_host_foldl; reflexivity|]. split.
  - intros i cb arg. rewrite hits_from_elem, Nat.sub_0_r. split.
    + intros [_ H]. exact H.
    + intros H. split; [lia | exact H].
  - apply hits_from_ascending.
Qed.

Lemma dispatches_alike_hits (w w' : world) :
  w_host w' = w_host w →
  (∀ frame, hits_from frame 0 (filters (w_data w'))
            = hits_from frame 0 (filters (w_data w))) →
  dispatches_alike w w'.
Proof.
  intros Hhost Hhits frame.
  exists (hits_from frame 0 (filters (w_data w))),
         (callbacks_host frame (hits_from frame 0 (filters (w_data w))) (w_host w)).
  split; [apply dispatch_frame_exact|].
  rewrite (dispatch_frame_exact frame w'), Hhost, Hhits. reflexivity.
Qed.

(** X1. A removed filter is never called again.  After
    [can_npl_remove_rx_filter] on any handle, a dispatch calls exactly the
    hits of the table as it was before, less the removed slot. *)
Theorem remove_then_dispatch (h : Z) (frame : can_frame) (w : world) :
  ∃ (w1 : world) (hits : list hit),
    can_npl_remove_rx_filter h w = Done tt w1
    ∧ dispatch_frame frame w1
      = Done tt
          {| w_data := w_data w1;
             w_host := callbacks_host frame hits (w_host w);
             w_trace := w_trace w1 ++ [EvMutexLock]
                        ++ map (hit_call frame) hits ++ [EvMutexUnlock] |}
    ∧ ∀ (i : nat) (cb : fnptr) (arg : ptr),
        (i, cb, arg) ∈ hits
        ↔ Z.of_nat i ≠ h
          ∧ ∃ ctx, filters (w_data w) !! i = Some ctx ∧ rx_cb ctx = Some cb
                   ∧ cb_arg ctx = arg
                   ∧ can_utils_filter_match frame (filter ctx) = true.
Proof.
  destruct (remove_rx_filter_run h w) as (w1 & Hrm & Hhost & Hdata).
  exists w1, (hits_from frame 0 (filters (w_data w1))).
  split; [exact Hrm|]. split; [rewrite <- Hhost; apply dispatch_frame_exact|].
  intros i cb arg. rewrite Hdata.
  destruct (Z.ltb_spec h 0) as [Hneg|Hnn].
  - rewrite hits_from_elem, Nat.sub_0_r. split.
    + intros [_ Hhit]. split; [lia | exact Hhit].
    + intros [_ Hhit]. split; [lia | exact Hhit].
  - cbn [filters set_filters]. rewrite hits_from_cleared, hits_from_elem, Nat.sub_0_r.
    split.
    + intros (Hne & _ & Hhit). split; [lia | exact Hhit].
    + intros (Hne & Hhit). split; [lia|]. split; [lia | exact Hhit].
Qed.

(** X2. A registered filter is called on the frames its rule matches.  After
    [can_npl_add_rx_filter] stored a callback in the lowest empty slot [k], a
    dispatch calls that callback with its argument if and only if the rule
    matches the frame, and calls the hits of the other slots as before. *)
Theorem add_then_dispatch (cb : fnptr) (arg : ptr) (flt : can_filter)
    (frame : can_frame) (w : world) (k : nat) :
  empty (filters (w_data w)) k →
  (∀ j, (j < k)%nat → occupied (filters (w_data w)) j) →
  ∃ (w1 : world) (hits : list hit),
    can_npl_add_rx_filter (Some cb) arg flt w = Done (Z.of_nat k) w1
    ∧ dispatch_frame frame w1
      = Done tt
          {| w_data := w_data w1;
             w_host := callbacks_host frame hits (w_host w);
             w_trace := w_trace w1 ++ [EvMutexLock]
                        ++ map (hit_call frame) hits ++ [EvMutexUnlock] |}
    ∧ ∀ (i : nat) (c : fnptr) (a : ptr),
        (i, c, a) ∈ hits
        ↔ (i = k ∧ c = cb ∧ a = arg ∧ can_utils_filter_match frame flt = true)
          ∨ (i ≠ k
             ∧ ∃ ctx, filters (w_data w) !! i = Some ctx ∧ rx_cb ctx = Some c
                      ∧ cb_arg ctx = a
                      ∧ can_utils_filter_match frame (filter ctx) = true).
Proof.
  intros Hk Hlow.
  destruct (add_rx_filter_lowest (Some cb) arg flt w k Hk Hlow)
    as (w1 & Hadd & Hhost & Hdata).
  assert (k < length (filters (w_data w)))%nat as Hlt.
  { destruct Hk as (ctx & Hl & _). exact (lookup_lt_Some _ _ _ Hl). }
  exists w1, (hits_from frame 0 (filters (w_data w1))).
  split; [exact Hadd|]. split; [rewrite <- Hhost; apply dispatch_frame_exact|].
  intros i c a. rewrite Hdata. cbn [filters set_filters].
  rewrite hits_from_inserted by exact Hlt. cbn [rx_cb cb_arg filter].
  rewrite hits_from_elem, Nat.sub_0_r. split.
  - intros [(-> & Hc & Ha & Hm) | (Hne & _ & Hhit)].
    + left. injection Hc as ->. auto.
    + right. auto.
  - intros [(-> & -> & -> & Hm) | (Hne & Hhit)].
    + left. auto.
    + right. split; [exact Hne|]. split; [lia | exact Hhit].
Qed.

(** X3. Registering a filter and removing it again is not seen by dispatch.
    After [can_npl_add_rx_filter] into the lowest empty slot and
    [can_npl_remove_rx_filter] of the handle it returned, every frame is
    dispatched to the same callbacks, in the same order, as before. *)
Theorem add_remove_dispatch_same (cb : can_rx_callback_t) (arg : ptr)
    (flt : can_filter) (w : world) (k : nat) :
  empty (filters (w_data w)) k →
  (∀ j, (j < k)%nat → occupied (filters (w_data w)) j) →
  ∃ w1 w2,
    can_npl_add_rx_filter cb arg flt w = Done (Z.of_nat k) w1
    ∧ can_npl_remove_rx_filter (Z.of_nat k) w1 = Done tt w2
    ∧ dispatches_alike w w2.
Proof.
  intros Hk Hlow.
  destruct (add_rx_filter_lowest cb arg flt w k Hk Hlow)
    as (w1 & Hadd & Hhost1 & Hdata1).
  destruct Hk as (ctx & Hl & Hnone).
  pose proof (lookup_lt_Some _ _ _ Hl) as Hlt.
  destruct (remove_rx_filter_in_range w1 k
              {| rx_cb := cb; cb_arg := arg; filter := flt |})
    as (w2 & Hrm & Hhost2 & Hdata2).
  { rewrite Hdata1. cbn. apply list_lookup_insert_eq, Hlt. }
  exists w1, w2. split; [exact Hadd|]. split; [exact Hrm|].
  apply dispatches_alike_hits; [congruence|]. intros frame.
  rewrite Hdata2, Hdata1. cbn [filters set_filters].
  rewrite list_insert_insert_eq.
  apply (hits_from_insert_empty frame _ O k _ ctx Hl Hnone). reflexivity.
Qed.

(** X4. A registration with a [NULL] callback does not hold its slot.
    [can_npl_add_rx_filter] with a [NULL] callback returns the lowest empty
    slot as a handle, but the slot stays empty: no frame is dispatched to it,
    and the next registration gets the same handle and takes the slot. *)
Theorem add_null_callback_slot_reused (arg arg2 : ptr) (flt flt2 : can_filter)
    (cb2 : can_rx_callback_t) (w : world) (k : nat) :
  empty (filters (w_data w)) k →
  (∀ j, (j < k)%nat → occupied (filters (w_data w)) j) →
  ∃ w1 w2,
    can_npl_add_rx_filter None arg flt w = Done (Z.of_nat k) w1
    ∧ empty (filters (w_data w1)) k
    ∧ dispatches_alike w w1
    ∧ can_npl_add_rx_filter cb2 arg2 flt2 w1 = Done (Z.of_nat k) w2
    ∧ filters (w_data w2) !! k
      = Some {| rx_cb := cb2; cb_arg := arg2; filter := flt2 |}.
Proof.
  intros Hk Hlow.
  destruct (add_rx_filter_lowest None arg flt w k Hk Hlow)
    as (w1 & Hadd & Hhost1 & Hdata1).
  destruct Hk as (ctx & Hl & Hnone).
  pose proof (lookup_lt_Some _ _ _ Hl) as Hlt.
  assert (empty (filters (w_data w1)) k) as Hk1.
  { rewrite Hdata1. cbn. eexists. split; [apply list_lookup_insert_eq, Hlt|].
    reflexivity. }
  destruct (add_rx_filter_lowest cb2 arg2 flt2 w1 k Hk1)
    as (w2 & Hadd2 & _ & Hdata2).
  { intros j Hj. destruct (Hlow j Hj) as (cj & cbj & Hlj & Hcj).
    exists cj, cbj. rewrite Hdata1. cbn.
    rewrite list_lookup_insert_ne by lia. auto. }
  exists w1, w2. split; [exact Hadd|]. split; [exact Hk1|]. split.
  - apply dispatches_alike_hits; [exact Hhost1|]. intros frame.
    rewrite Hdata1. cbn [filters set_filters].
    apply (hits_from_insert_empty frame _ O k _ ctx Hl Hnone). reflexivity.
  - split; [exact Hadd2|]. rewrite Hdata2. cbn.
    apply list_lookup_insert_eq. rewrite Hdata1. cbn.
    rewrite length_insert. exact Hlt.
Qed.

(** ** Capacity of the filter table *)

Lemma add_all_cons (e : registration) (es : list registration) (w w1 : world)
    (h : Z) :
  can_npl_add_rx_filter (Some e.1.1) e.1.2 e.2 w = Done h w1 →
  add_all (e :: es) w
  = bind_result (add_all es w1) (fun hs w' => Done (h :: hs) w').
Proof.
  intros Hadd. cbn [add_all]. autounfold with drv. rewrite Hadd. reflexivity.
Qed.

(** Registering into a table made of occupied slots followed by empty ones
    fills the empty ones from the left. *)
Lemma add_all_fills (es : list registration) :
  ∀ (w : world) (pre rest : list can_filter_context),
    filters (w_data w) = pre ++ rest →
    (∀ j, (j < length pre)%nat → occupied pre j) →
    (∀ j, (j < length rest)%nat → empty rest j) →
    (length es ≤ length rest)%nat →
    ∃ w', add_all es w
          = Done (map (fun j => Z.of_nat (length pre + j)) (seq 0 (length es))) w'
          ∧ w_host w' = w_host w
          ∧ w_data w'
            = set_filters
                (pre ++ map registration_slot es ++ drop (length es) rest)
                (w_data w).
Proof.
  induction es as [|e es IH]; intros w pre rest Hfs Hpre Hrest Hlen.
  - exists w. cbn. rewrite drop_0, <- Hfs, set_filters_same. auto.
  - destruct rest as [|r0 rest]; [cbn in Hlen; lia|].
    destruct (Hrest O) as (c0 & Hc0 & Hnone); [cbn; lia|].
    cbn in Hc0. injection Hc0 as <-.
    destruct (add_rx_filter_lowest (Some e.1.1) e.1.2 e.2 w (length pre))
      as (w1 & Hadd & Hhost1 & Hdata1).
    { exists r0. split; [|exact Hnone].
      rewrite Hfs, lookup_app_r, Nat.sub_diag by lia. reflexivity. }
    { intros j Hj. destruct (Hpre j Hj) as (cj & cbj & Hlj & Hcj).
      exists cj, cbj. split; [|exact Hcj].
      rewrite Hfs, lookup_app_l by exact Hj. exact Hlj. }
    assert (filters (w_data w1) = (pre ++ [registration_slot e]) ++ rest) as Hfs1.
    { rewrite Hdata1, Hfs. cbn [filters set_filters].
      replace (length pre) with (length pre + 0)%nat at 1 by lia.
      rewrite insert_app_r, <- app_assoc. reflexivity. }
    destruct (IH w1 (pre ++ [registration_slot e]) rest Hfs1)
      as (w' & Hrun & Hhost & Hdata).
    { intros j Hj. rewrite length_app in Hj. cbn in Hj.
      destruct (decide (j < length pre)%nat) as [Hlt|Hge].
      - destruct (Hpre j Hlt) as (cj & cbj & Hlj & Hcj). exists cj, cbj.
        rewrite lookup_app_l by exact Hlt. auto.
      - assert (j = length pre) as -> by lia.
        exists (registration_slot e), e.1.1.
        rewrite lookup_app_r, Nat.sub_diag by lia. auto. }
    { intros j Hj. destruct (Hrest (S j)) as (cj & Hlj & Hcj); [cbn; lia|].
      exists cj. auto. }
    { cbn in Hlen. lia. }
    exists w'. rewrite (add_all_cons e es w w1 _ Hadd), Hrun.
    cbn [bind_result length seq map]. split; [|split].
    + f_equal. f_equal; [f_equal; lia|].
      rewrite <- seq_shift, map_map. apply map_ext. intros j.
      rewrite length_app. cbn. f_equal. lia.
    + congruence.
    + rewrite Hdata, Hdata1. cbn [drop]. unfold set_filters. cbn.
      rewrite <- !app_assoc. reflexivity.
Qed.

(** What [can_npl_init] does, given what opening the interface returns. *)
Lemma can_npl_init_run (if_name : string) (w : world) (fd : Z) (h : host) :
  linux_socketcan_iface_open if_name (w_host w) = (fd, h) →
  can_npl_init if_name w
  = Done (if fd <? 0 then - ENODEV else 0)
      {| w_data := set_dev_fd fd
                     (set_sem TX_DONE sem_done_clear
                        (set_sem TX_IDLE sem_idle_free (w_data w)));
         w_host := h;
         w_trace := w_trace w
                    ++ (if fd <? 0 then [EvLog LOG_LEVEL_ERR "Cannot open %s (%d)"]
                        else [EvThreadCreate;
                              EvLog LOG_LEVEL_DBG "Init of %s done"]) |}.
Proof.
  intros Hopen. unfold can_npl_init, k_sem_init. autounfold with drv.
  cbn [bind_result w_data w_host w_trace]. rewrite Hopen.
  cbn [bind_result w_data w_host w_trace].
  destruct (fd <? 0); cbn; rewrite <- ?app_assoc; reflexivity.
Qed.

(** X5. The table holds exactly [CONFIG_CAN_MAX_FILTER] filters.  On a
    device fresh from [can_npl_init], as many registrations as
    [can_npl_get_max_filters] reports succeed, with the handles 0, 1, ... in
    order; the table then holds them in that order, and one more registration
    fails with [-ENOSPC] and changes nothing. *)
Theorem filter_capacity (if_name : string) (es : list registration)
    (cb : can_rx_callback_t) (arg : ptr) (flt : can_filter) (ide : can_ide)
    (w : world) :
  w_data w = can_npl_data_0 →
  length es = CONFIG_CAN_MAX_FILTER →
  ∃ r w0 w1 w2,
    can_npl_init if_name w = Done r w0
    ∧ can_npl_get_max_filters ide w0 = Done (Z.of_nat (length es)) w0
    ∧ add_all es w0 = Done (map Z.of_nat (seq 0 (length es))) w1
    ∧ filters (w_data w1) = map registration_slot es
    ∧ can_npl_add_rx_filter cb arg flt w1 = Done (- ENOSPC) w2
    ∧ w_data w2 = w_data w1.
Proof.
  intros Hzero Hlen.
  destruct (linux_socketcan_iface_open if_name (w_host w)) as [fd h] eqn:Hopen.
  rewrite (can_npl_init_run if_name w fd h Hopen).
  set (w0 := {| w_data := set_dev_fd fd
                             (set_sem TX_DONE sem_done_clear
                                (set_sem TX_IDLE sem_idle_free (w_data w)));
                w_host := h;
                w_trace := w_trace w
                           ++ (if fd <? 0
                               then [EvLog LOG_LEVEL_ERR "Cannot open %s (%d)"]
                               else [EvThreadCreate;
                                     EvLog LOG_LEVEL_DBG "Init of %s done"]) |}).
  exists (if fd <? 0 then - ENODEV else 0), w0.
  assert (filters (w_data w0)
          = [] ++ replicate CONFIG_CAN_MAX_FILTER
                    {| rx_cb := None; cb_arg := 0;
                       filter := {| flt_id := 0;
                                    flt_id_type := CAN_STANDARD_IDENTIFIER;
                                    flt_id_mask := 0 |} |}) as Hfs.
  { subst w0. cbn. rewrite Hzero. reflexivity. }
  destruct (add_all_fills es w0 [] _ Hfs) as (w1 & Hrun & Hhost1 & Hdata1).
  { intros j Hj. cbn in Hj. lia. }
  { intros j Hj. rewrite length_replicate in Hj. eexists.
    split; [apply lookup_replicate_2; exact Hj | reflexivity]. }
  { rewrite length_replicate. lia. }
  assert (filters (w_data w1) = map registration_slot es) as Hfs1.
  { rewrite Hdata1. cbn. rewrite drop_ge, app_nil_r; [reflexivity|].
    rewrite length_replicate. lia. }
  destruct (add_rx_filter_full cb arg flt w1) as (w2 & Hfull & _ & Hdata2).
  { intros j Hj. rewrite Hfs1 in Hj |- *. rewrite length_map in Hj.
    destruct (lookup_lt_is_Some_2 es j Hj) as [e He].
    exists (registration_slot e), e.1.1. rewrite list_lookup_fmap, He. auto. }
  exists w1, w2. split; [reflexivity|]. split.
  { unfold can_npl_get_max_filters. run. rewrite Hlen. reflexivity. }
  split; [exact Hrun|]. split; [exact Hfs1|]. split; [exact Hfull | exact Hdata2].
Qed.

(** X6. [can_npl_init] reports failure exactly on a negative descriptor.  It
    returns [-ENODEV] and starts no receive thread when opening the interface
    returns a negative value, and returns 0 and starts the receive thread
    otherwise; either way it leaves the idle permit available, no completion
    signalled, the descriptor stored, and the filter table and the flags as
    they were. *)
Theorem init_outcome (if_name : string) (w : world) (fd : Z) (h : host) :
  linux_socketcan_iface_open if_name (w_host w) = (fd, h) →
  ∃ w' evs,
    can_npl_init if_name w = Done (if fd <? 0 then - ENODEV else 0) w'
    ∧ w_host w' = h
    ∧ w_trace w' = w_trace w ++ evs
    ∧ (EvThreadCreate ∈ evs ↔ 0 ≤ fd)
    ∧ tx_idle (w_data w') = sem_idle_free
    ∧ tx_done (w_data w') = sem_done_clear
    ∧ dev_fd (w_data w') = fd
    ∧ filters (w_data w') = filters (w_data w)
    ∧ started (w_data w') = started (w_data w)
    ∧ loopback (w_data w') = loopback (w_data w)
    ∧ mode_fd (w_data w') = mode_fd (w_data w).
Proof.
  intros Hopen. rewrite (can_npl_init_run if_name w fd h Hopen).
  eexists _, _. split; [reflexivity|]. split; [reflexivity|].
  split; [reflexivity|]. split; [|repeat split].
  destruct (Z.ltb_spec fd 0) as [Hneg|Hnn].
  - rewrite elem_of_cons, elem_of_nil. split; [intros [H|[]]; discriminate H | lia].
  - rewrite elem_of_cons. split; [lia | auto].
Qed.

(** X7. Descriptor 0 passes [can_npl_init] and fails [can_npl_send].  When
    opening the interface returns 0, [can_npl_init] succeeds, and from then
    on every send of a frame with an acceptable data length code fails with
    [-EIO], started or not, leaving the device data as it was. *)
Theorem init_descriptor_zero_send_fails (if_name : string) (w : world) (h : host)
    (frame : can_frame) (timeout : k_timeout_t) (callback : can_tx_callback_t)
    (user_data : ptr) :
  linux_socketcan_iface_open if_name (w_host w) = (0, h) →
  ∃ w0,
    can_npl_init if_name w = Done 0 w0
    ∧ (dlc frame ≤ send_max_dlc (w_data w0) frame →
         (∃ w', can_npl_send frame timeout callback user_data w0 = Done (- EIO) w'
                ∧ w_data w' = w_data w0)
         ∧ ∀ w1, can_npl_start w0 = Done 0 w1 →
             ∃ w', can_npl_send frame timeout callback user_data w1
                   = Done (- EIO) w'
                   ∧ w_data w' = w_data w1).
Proof.
  intros Hopen. rewrite (can_npl_init_run if_name w 0 h Hopen).
  cbn [Z.ltb Z.compare]. eexists. split; [reflexivity|].
  unfold send_max_dlc, send_as_fd. cbn [w_data mode_fd set_dev_fd set_sem].
  intros Hdlc.
  assert (∀ w0 : world,
            dev_fd (w_data w0) = 0 →
            dlc frame ≤ (if CONFIG_CAN_FD_MODE && (mode_fd (w_data w0) && (fd frame =? 1))
                         then CANFD_MAX_DLC else CAN_MAX_DLC) →
            ∃ w', can_npl_send frame timeout callback user_data w0 = Done (- EIO) w'
                  ∧ w_data w' = w_data w0) as Hsend.
  { intros w0 Hfd Hd. unfold can_npl_send, send_as_fd. autounfold with drv.
    cbn [bind_result w_data w_host w_trace].
    destruct (Z.ltb_spec (if CONFIG_CAN_FD_MODE
                               && (mode_fd (w_data w0) && (fd frame =? 1))
                          then CANFD_MAX_DLC else CAN_MAX_DLC) (dlc frame))
      as [Hbad|_]; [lia|].
    rewrite Hfd. cbn. eexists; split; reflexivity. }
  split.
  - apply Hsend; [reflexivity | exact Hdlc].
  - intros w1 Hstart. unfold can_npl_start in Hstart. revert Hstart. run.
    destruct (started (w_data w)); intros Hstart; [discriminate Hstart|].
    injection Hstart as <-. apply Hsend; [reflexivity | exact Hdlc].
Qed.

(** ** The controller state machine as a whole *)

Lemma with_data_same (w : world) : with_data (w_data w) w = w.
Proof. destruct w; reflexivity. Qed.

(** X8. Start and stop undo each other.  From a stopped controller,
    [can_npl_start] succeeds, a second [can_npl_start] fails with
    [-EALREADY], and [can_npl_stop] then brings back the very world the
    sequence began in, in which a second [can_npl_stop] fails with
    [-EALREADY]. *)
Theorem start_stop_round_trip (w : world) :
  started (w_data w) = false →
  ∃ w1,
    can_npl_start w = Done 0 w1
    ∧ can_npl_start w1 = Done (- EALREADY) w1
    ∧ can_npl_stop w1 = Done 0 w
    ∧ can_npl_stop w = Done (- EALREADY) w.
Proof.
  intros Hs. exists (with_data (set_started true (w_data w)) w).
  unfold can_npl_start, can_npl_stop. run. rewrite Hs. cbn.
  repeat split. f_equal. destruct w as [d h t]. cbn in Hs |- *.
  destruct d; cbn in Hs |- *. rewrite Hs. reflexivity.
Qed.

(** X9. What a started and a stopped controller accept.  Once
    [can_npl_start] has succeeded, [can_npl_set_timing],
    [can_npl_set_timing_data] and [can_npl_set_mode] (on a supported mode)
    fail with [-EBUSY] and [can_npl_recover] succeeds; once [can_npl_stop]
    has succeeded, the timing calls succeed and [can_npl_recover] fails with
    [-ENETDOWN]. None of these calls changes the world when it fails, and
    the timing calls and [can_npl_recover] never change it. *)
Theorem started_gates_configuration (w w1 : world) (timing : can_timing)
    (timeout : k_timeout_t) (mode : Z) :
  (can_npl_start w = Done 0 w1 →
     can_npl_set_timing timing w1 = Done (- EBUSY) w1
     ∧ can_npl_set_timing_data timing w1 = Done (- EBUSY) w1
     ∧ can_npl_recover timeout w1 = Done 0 w1
     ∧ (Z.land mode (Z.lnot set_mode_mask) = 0 →
          can_npl_set_mode mode w1 = Done (- EBUSY) w1))
  ∧ (can_npl_stop w = Done 0 w1 →
       can_npl_set_timing timing w1 = Done 0 w1
       ∧ can_npl_set_timing_data timing w1 = Done 0 w1
       ∧ can_npl_recover timeout w1 = Done (- ENETDOWN) w1).
Proof.
  unfold can_npl_start, can_npl_stop, can_npl_set_timing,
    can_npl_set_timing_data, can_npl_recover, can_npl_set_mode.
  split; run; destruct (started (w_data w)); cbn; intros Hrun;
    try discriminate Hrun; injection Hrun as <-; cbn; repeat split.
  intros ->. reflexivity.
Qed.

(** What [can_npl_set_mode] does on a stopped controller and a supported
    mode. *)
Lemma set_mode_stopped_run (mode : Z) (w : world) :
  Z.land mode (Z.lnot set_mode_mask) = 0 →
  started (w_data w) = false →
  can_npl_set_mode mode w
  = Done 0
      {| w_data := set_mode_fd (Z.testbit mode 2)
                     (set_loopback (Z.testbit mode 0) (w_data w));
         w_host := (linux_socketcan_set_mode_fd (dev_fd (w_data w))
                      (Z.testbit mode 2) (w_host w)).2;
         w_trace := w_trace w |}.
Proof.
  intros Hsup Hs.
  rewrite <- (land_BIT_testbit mode 0), <- (land_BIT_testbit mode 2) by lia.
  fold CAN_MODE_LOOPBACK CAN_MODE_FD.
  unfold can_npl_set_mode. rewrite Hsup. run. rewrite Hs. cbn.
  destruct (linux_socketcan_set_mode_fd _ _ _); reflexivity.
Qed.

(** X10. Without [CONFIG_CAN_FD_MODE] the controller is a classic one.  In
    such a build no successful [can_npl_set_mode] turns the FD flag on, a
    mode with the FD bit is refused with [-ENOTSUP], and [can_npl_send]
    refuses every frame with a data length code above [CAN_MAX_DLC] with
    [-EINVAL], whatever the FD flag of the device and of the frame. *)
Theorem classic_build_has_no_fd (mode : Z) (frame : can_frame)
    (timeout : k_timeout_t) (callback : can_tx_callback_t) (user_data : ptr)
    (w : world) :
  CONFIG_CAN_FD_MODE = false →
  (∀ w', can_npl_set_mode mode w = Done 0 w' → mode_fd (w_data w') = false)
  ∧ (Z.testbit mode 2 = true →
       ∃ w', can_npl_set_mode mode w = Done (- ENOTSUP) w' ∧ w_data w' = w_data w)
  ∧ (CAN_MAX_DLC < dlc frame →
       ∃ w', can_npl_send frame timeout callback user_data w = Done (- EINVAL) w'
             ∧ w_data w' = w_data w).
Proof.
  intros Hcfg.
  assert (Z.testbit mode 2 = true → Z.land mode (Z.lnot set_mode_mask) ≠ 0) as Hfd.
  { intros Hb H0. pose proof (proj1 (land_lnot_subset _ _) H0 2 ltac:(lia) Hb) as Hc.
    unfold set_mode_mask in Hc. rewrite Hcfg in Hc. discriminate Hc. }
  split; [|split].
  - intros w' Hrun.
    destruct (Z.eq_dec (Z.land mode (Z.lnot set_mode_mask)) 0) as [H0|Hn0].
    + destruct (started (w_data w)) eqn:Hs.
      * revert Hrun. unfold can_npl_set_mode. rewrite H0. run. rewrite Hs.
        intros Hrun. discriminate Hrun.
      * rewrite (set_mode_stopped_run mode w H0 Hs) in Hrun.
        assert (mode_fd (w_data w') = Z.testbit mode 2) as ->
          by (injection Hrun as <-; reflexivity).
        destruct (Z.testbit mode 2) eqn:Hb; [|reflexivity].
        destruct (Hfd eq_refl H0).
    + revert Hrun. unfold can_npl_set_mode.
      destruct (Z.eqb_spec (Z.land mode (Z.lnot set_mode_mask)) 0) as [H0|_];
        [contradiction|]. run. intros Hrun. discriminate Hrun.
  - intros Hb. unfold can_npl_set_mode.
    destruct (Z.eqb_spec (Z.land mode (Z.lnot set_mode_mask)) 0) as [H0|_];
      [destruct (Hfd Hb H0)|]. run. eexists; split; reflexivity.
  - intros Hdlc. unfold can_npl_send, send_as_fd. rewrite Hcfg.
    autounfold with drv. cbn [bind_result w_data w_host w_trace andb].
    destruct (Z.ltb_spec CAN_MAX_DLC (dlc frame)) as [_|Hbad]; [|lia].
    cbn. eexists; split; reflexivity.
Qed.

(** ** Transmit path and receive thread together *)

Lemma dispatch_frame_dispatched (frame : can_frame) (w : world) :
  dispatch_frame frame w = Done tt (dispatched frame w).
Proof. apply dispatch_frame_exact. Qed.

(** One unit of the receive thread on a transmit confirmation. *)
Lemma rx_thread_unit_confirmation (sframe sframe' : socketcan_frame) (count : Z)
    (h1 : host) (w : world) :
  linux_socketcan_read_data (dev_fd (w_data w)) sframe (w_host w)
  = ((count, sframe', true), h1) →
  rx_thread_unit sframe w
  = if loopback (w_data w) && started (w_data w) then
      if 0 <? count then
        Done (LoopContinue, sframe')
          (dispatched (socketcan_to_can_frame sframe')
             (with_event received_logged (confirmed h1 w)))
      else Done (LoopBreak, sframe') (confirmed h1 w)
    else Done (LoopContinue, sframe') (confirmed h1 w).
Proof.
  intros Hread.
  assert (rx_thread_unit sframe w
          = if negb (loopback (w_data w)) || negb (started (w_data w)) then
              Done (LoopContinue, sframe') (confirmed h1 w)
            else bind_result (rx_thread_frame count sframe' (confirmed h1 w))
                   (fun c w' => Done (c, sframe') w')) as ->.
  { unfold rx_thread_unit, confirmed. autounfold with drv.
    cbn [bind_result w_data w_host w_trace]. rewrite Hread.
    cbn [bind_result w_data w_host w_trace].
    destruct (tx_callback (w_data w)) as [cb|] eqn:Hcb;
      cbn [bind_result w_data w_host w_trace get_sem set_sem loopback started
           tx_idle tx_done];
      destruct (negb (loopback (w_data w)) || negb (started (w_data w)));
      try reflexivity.
    all: rewrite ?app_nil_r; destruct w; reflexivity. }
  destruct (loopback (w_data w)), (started (w_data w)); cbn [negb orb andb];
    try reflexivity.
  rewrite rx_thread_frame_run. destruct (0 <? count); [|reflexivity].
  unfold received_logged. rewrite dispatch_frame_dispatched. reflexivity.
Qed.

(** One unit of the receive thread on a unit that is no confirmation. *)
Lemma rx_thread_unit_reception (sframe sframe' : socketcan_frame) (count : Z)
    (h1 : host) (w : world) :
  linux_socketcan_read_data (dev_fd (w_data w)) sframe (w_host w)
  = ((count, sframe', false), h1) →
  rx_thread_unit sframe w
  = if 0 <? count then
      Done (LoopContinue, sframe')
        (dispatched (socketcan_to_can_frame sframe')
           (with_event received_logged (with_host h1 w)))
    else Done (LoopBreak, sframe') (with_host h1 w).
Proof.
  intros Hread. unfold rx_thread_unit. autounfold with drv.
  cbn [bind_result w_data w_host w_trace]. rewrite Hread.
  cbn [bind_result w_data w_host w_trace].
  change {| w_data := w_data w; w_host := h1; w_trace := w_trace w |}
    with (with_host h1 w).
  rewrite rx_thread_frame_run. destruct (0 <? count); [|reflexivity].
  unfold received_logged. rewrite dispatch_frame_dispatched. reflexivity.
Qed.

(** No receive callback is a transmit callback. *)
Lemma hit_calls_no_tx_callback (frame : can_frame) (hits : list hit) :
  forallb (fun e => negb (is_tx_callback e)) (map (hit_call frame) hits) = true.
Proof. induction hits as [|x hits IH]; [reflexivity | exact IH]. Qed.

Lemma dispatch_events_no_tx_callback (frame : can_frame) (hits : list hit) :
  forallb (fun e => negb (is_tx_callback e))
    ([received_logged] ++ [EvMutexLock] ++ map (hit_call frame) hits
     ++ [EvMutexUnlock]) = true.
Proof. rewrite !forallb_app, hit_calls_no_tx_callback. reflexivity. Qed.

(** [can_npl_send] with a callback, on a frame that passes the checks and
    with the permit available. *)
Lemma send_async_run (frame : can_frame) (timeout : k_timeout_t) (cb : fnptr)
    (user_data : ptr) (w : world) :
  dlc frame ≤ send_max_dlc (w_data w) frame →
  0 < dev_fd (w_data w) →
  started (w_data w) = true →
  0 < sem_count (tx_idle (w_data w)) →
  can_npl_send frame timeout (Some cb) user_data w
  = Done 0
      {| w_data := set_tx_pending (Some cb) user_data
                     (set_sem TX_IDLE (sem_taken (tx_idle (w_data w))) (w_data w));
         w_host := (linux_socketcan_write_data (dev_fd (w_data w))
                      (socketcan_from_can_frame frame)
                      (send_mtu (w_data w) frame) (w_host w)).2;
         w_trace := w_trace w ++ sending_logged
                    :: (if (linux_socketcan_write_data (dev_fd (w_data w))
                              (socketcan_from_can_frame frame)
                              (send_mtu (w_data w) frame) (w_host w)).1 <? 0
                        then [write_error_logged] else []) |}.
Proof.
  intros Hdlc Hfd Hst Hcount.
  rewrite (send_checks_pass _ _ _ _ _ Hdlc Hfd Hst).
  rewrite k_sem_take_available by exact Hcount.
  cbn [bind_result Z.eqb negb]. autounfold with drv.
  cbn [bind_result w_data w_host w_trace set_tx_pending set_sem dev_fd get_sem].
  destruct (linux_socketcan_write_data (dev_fd (w_data w))
              (socketcan_from_can_frame frame) (send_mtu (w_data w) frame)
              (w_host w)) as [r h1].
  cbn [bind_result fst snd]. destruct (r <? 0); cbn; rewrite <- ?app_assoc;
    reflexivity.
Qed.

(** One unit of the receive thread on a transmit confirmation, in short:
    the confirmation is handled, and what follows changes no device data and
    calls no transmit callback. *)
Lemma rx_confirmation_summary (sframe sframe' : socketcan_frame) (count : Z)
    (h1 : host) (w : world) :
  linux_socketcan_read_data (dev_fd (w_data w)) sframe (w_host w)
  = ((count, sframe', true), h1) →
  ∃ c w2 evs,
    rx_thread_unit sframe w = Done (c, sframe') w2
    ∧ w_data w2 = w_data (confirmed h1 w)
    ∧ w_trace w2 = w_trace (confirmed h1 w) ++ evs
    ∧ forallb (fun e => negb (is_tx_callback e)) evs = true.
Proof.
  intros Hread. rewrite (rx_thread_unit_confirmation _ _ _ _ _ Hread).
  destruct (loopback (w_data w) && started (w_data w));
    [destruct (0 <? count)|].
  - eexists _, _, _. split; [reflexivity|]. split; [reflexivity|].
    split; [|apply (dispatch_events_no_tx_callback (socketcan_to_can_frame sframe'))].
    unfold dispatched. cbn [w_trace with_event w_data]. rewrite <- !app_assoc.
    reflexivity.
  - exists LoopBreak, (confirmed h1 w), []. rewrite app_nil_r. auto.
  - exists LoopContinue, (confirmed h1 w), []. rewrite app_nil_r. auto.
Qed.

(** C2. On a unit that the read marks as a transmit confirmation, the
    receive loop first handles the confirmation: with a pending transmit
    callback it calls it with status 0 and the pending user data, without one
    it gives [tx_done]; in either case it then gives [tx_idle]. When the
    read brought the confirmed frame (a positive count), the loop goes on,
    and the frame is dispatched through the filter table if and only if
    loopback is on and the controller is started: then the rest of the round
    is the debug line and [dispatch_frame] on the decoded frame, and
    otherwise the round ends with the confirmation handled and the filter
    mutex not taken. When the read brought no data, nothing is dispatched,
    and the inner loop is left if loopback is on and the controller started,
    and goes on otherwise. *)
Theorem rx_thread_confirmation (sframe sframe' : socketcan_frame) (count : Z)
    (h1 : host) (w : world) :
  linux_socketcan_read_data (dev_fd (w_data w)) sframe (w_host w)
  = ((count, sframe', true), h1) →
  ∃ w1 : world,
    (∀ cb, tx_callback (w_data w) = Some cb →
       w_trace w1 = w_trace w ++ [EvTxCallback cb 0 (tx_user_data (w_data w))]
       ∧ w_host w1 = tx_callback_run cb 0 (tx_user_data (w_data w)) h1
       ∧ w_data w1
         = set_sem TX_IDLE (sem_given (tx_idle (w_data w))) (w_data w))
    ∧ (tx_callback (w_data w) = None →
         w_trace w1 = w_trace w
         ∧ w_host w1 = h1
         ∧ w_data w1
           = set_sem TX_IDLE (sem_given (tx_idle (w_data w)))
               (set_sem TX_DONE (sem_given (tx_done (w_data w))) (w_data w)))
    ∧ (0 < count →
         (loopback (w_data w) && started (w_data w) = true →
            ∃ w2,
              rx_thread_unit sframe w = Done (LoopContinue, sframe') w2
              ∧ dispatch_frame (socketcan_to_can_frame sframe')
                  (with_event received_logged w1)
                = Done tt w2
              ∧ EvMutexLock ∈ drop (length (w_trace w1)) (w_trace w2))
         ∧ (loopback (w_data w) && started (w_data w) = false →
              rx_thread_unit sframe w = Done (LoopContinue, sframe') w1))
    ∧ (count ≤ 0 →
         rx_thread_unit sframe w
         = Done (if loopback (w_data w) && started (w_data w)
                 then LoopBreak else LoopContinue, sframe') w1).
Proof.
  intros Hread. exists (confirmed h1 w).
  rewrite (rx_thread_unit_confirmation _ _ _ _ _ Hread).
  split; [|split; [|split]].
  - intros cb Hcb. unfold confirmed. rewrite Hcb. cbn. auto.
  - intros Hcb. unfold confirmed. rewrite Hcb. cbn. rewrite app_nil_r. auto.
  - intros Hpos. destruct (Z.ltb_spec 0 count) as [_|Hbad]; [|lia]. split.
    + intros ->. eexists. split; [reflexivity|].
      split; [apply dispatch_frame_dispatched|].
      unfold dispatched. cbn [w_trace with_event w_data].
      rewrite <- app_assoc, drop_app_length. cbn. rewrite !elem_of_cons. auto.
    + intros ->. reflexivity.
  - intros Hnone. destruct (Z.ltb_spec 0 count) as [Hbad|_]; [lia|].
    destruct (loopback (w_data w) && started (w_data w)); reflexivity.
Qed.

(** [can_npl_send] without callback, on a frame that passes the checks, with
    the permit available and no completion signalled yet. *)
Lemma send_sync_run (frame : can_frame) (timeout : k_timeout_t)
    (user_data : ptr) (w : world) :
  dlc frame ≤ send_max_dlc (w_data w) frame →
  0 < dev_fd (w_data w) →
  started (w_data w) = true →
  0 < sem_count (tx_idle (w_data w)) →
  sem_count (tx_done (w_data w)) ≤ 0 →
  can_npl_send frame timeout None user_data w
  = Pend TX_DONE K_FOREVER
      {| w_data := set_sem TX_DONE (sem_pended (tx_done (w_data w)))
                     (set_tx_pending None user_data
                        (set_sem TX_IDLE (sem_taken (tx_idle (w_data w)))
                           (w_data w)));
         w_host := (linux_socketcan_write_data (dev_fd (w_data w))
                      (socketcan_from_can_frame frame)
                      (send_mtu (w_data w) frame) (w_host w)).2;
         w_trace := w_trace w ++ sending_logged
                    :: (if (linux_socketcan_write_data (dev_fd (w_data w))
                              (socketcan_from_can_frame frame)
                              (send_mtu (w_data w) frame) (w_host w)).1 <? 0
                        then [write_error_logged] else []) |}
      (fun _ w' => Done 0 w').
Proof.
  intros Hdlc Hfd Hst Hcount Hdone.
  rewrite (send_checks_pass _ _ _ _ _ Hdlc Hfd Hst).
  rewrite k_sem_take_available by exact Hcount.
  cbn [bind_result Z.eqb negb]. autounfold with drv.
  cbn [bind_result w_data w_host w_trace set_tx_pending set_sem dev_fd get_sem].
  destruct (linux_socketcan_write_data (dev_fd (w_data w))
              (socketcan_from_can_frame frame) (send_mtu (w_data w) frame)
              (w_host w)) as [r h0].
  cbn [bind_result fst snd].
  destruct (r <? 0); cbn [bind_result w_data w_host w_trace];
    (rewrite k_sem_take_pends by (cbn; first [exact Hdone | discriminate]));
    cbn; rewrite <- ?app_assoc; reflexivity.
Qed.

(** X11. What a successful asynchronous send leaves behind.  On a frame that
    passes the checks, with the permit available, [can_npl_send] with a
    callback returns 0 whatever the transport write returns: it has taken the
    permit, recorded the callback and its user data as pending, written the
    frame once with the frame size of its kind, and changed nothing else in
    the device data. *)
Theorem async_send_outcome (frame : can_frame) (timeout : k_timeout_t)
    (cb : fnptr) (user_data : ptr) (w : world) :
  dlc frame ≤ send_max_dlc (w_data w) frame →
  0 < dev_fd (w_data w) →
  started (w_data w) = true →
  0 < sem_count (tx_idle (w_data w)) →
  ∃ w',
    can_npl_send frame timeout (Some cb) user_data w = Done 0 w'
    ∧ w_host w'
      = (linux_socketcan_write_data (dev_fd (w_data w))
           (socketcan_from_can_frame frame)
           (if CONFIG_CAN_FD_MODE && (mode_fd (w_data w) && (fd frame =? 1))
            then CANFD_MTU else CAN_MTU) (w_host w)).2
    ∧ tx_callback (w_data w') = Some cb
    ∧ tx_user_data (w_data w') = user_data
    ∧ sem_count (tx_idle (w_data w')) = sem_count (tx_idle (w_data w)) - 1
    ∧ w_data w'
      = set_tx_pending (Some cb) user_data
          (set_sem TX_IDLE (tx_idle (w_data w')) (w_data w)).
Proof.
  intros Hdlc Hfd Hst Hcount.
  rewrite (send_async_run _ _ _ _ _ Hdlc Hfd Hst Hcount).
  eexists. split; [reflexivity|]. repeat split.
Qed.

(** X12. One transmission at a time.  With a single idle permit, after a
    send that went through, a further send with [K_NO_WAIT] fails with
    [-EAGAIN] without writing anything and without touching the pending
    callback, and a further send with a timeout pends on [tx_idle] without
    writing anything. *)
Theorem send_holds_the_permit (frame frame2 : can_frame)
    (timeout timeout2 : k_timeout_t) (cb : fnptr) (user_data : ptr)
    (callback2 : can_tx_callback_t) (user_data2 : ptr) (w : world) :
  dlc frame ≤ send_max_dlc (w_data w) frame →
  dlc frame2 ≤ send_max_dlc (w_data w) frame2 →
  0 < dev_fd (w_data w) →
  started (w_data w) = true →
  sem_count (tx_idle (w_data w)) = 1 →
  ∃ w1,
    can_npl_send frame timeout (Some cb) user_data w = Done 0 w1
    ∧ (∃ w2,
         can_npl_send frame2 K_NO_WAIT callback2 user_data2 w1 = Done (- EAGAIN) w2
         ∧ w_host w2 = w_host w1 ∧ w_data w2 = w_data w1
         ∧ tx_callback (w_data w2) = Some cb
         ∧ tx_user_data (w_data w2) = user_data)
    ∧ (timeout2 ≠ K_NO_WAIT →
         ∃ w2 k,
           can_npl_send frame2 timeout2 callback2 user_data2 w1
           = Pend TX_IDLE timeout2 w2 k
           ∧ w_host w2 = w_host w1
           ∧ tx_callback (w_data w2) = Some cb
           ∧ tx_user_data (w_data w2) = user_data).
Proof.
  intros Hdlc Hdlc2 Hfd Hst Hcount.
  rewrite (send_async_run frame timeout cb user_data w Hdlc Hfd Hst) by lia.
  eexists. split; [reflexivity|].
  match goal with |- context [can_npl_send _ _ _ _ ?x] => set (w1 := x) end.
  assert (dlc frame2 ≤ send_max_dlc (w_data w1) frame2) as Hdlc1 by exact Hdlc2.
  assert (0 < dev_fd (w_data w1)) as Hfd1 by exact Hfd.
  assert (started (w_data w1) = true) as Hst1 by exact Hst.
  assert (sem_count (get_sem TX_IDLE
                       (w_data (with_event sending_logged w1))) ≤ 0) as Hc1.
  { subst w1. cbn. lia. }
  split.
  - rewrite (send_checks_pass _ _ _ _ _ Hdlc1 Hfd1 Hst1).
    fold sending_logged. rewrite k_sem_take_no_wait by exact Hc1.
    cbn [bind_result]. eexists. split; [reflexivity|]. repeat split.
  - intros Hwait. rewrite (send_checks_pass _ _ _ _ _ Hdlc1 Hfd1 Hst1).
    fold sending_logged. rewrite k_sem_take_pends by assumption.
    cbn [bind_result]. eexists _, _. split; [reflexivity|]. repeat split.
Qed.

(** X13. A confirmation completes an asynchronous send.  After a send with a
    callback from the state [can_npl_init] leaves the semaphores in, the
    permit is held. When the receive thread then reads a confirmation, it
    first runs that callback, once, with status 0 and the user data of the
    send, on the host the read left, and makes the permit available again,
    changing nothing else in the device data; only then, from that world, it
    dispatches the frame (loopback on, data read), leaves the loop (loopback
    on, no data) or goes on (loopback off). *)
Theorem send_confirmation_round_trip (frame : can_frame) (timeout : k_timeout_t)
    (cb : fnptr) (user_data : ptr) (w : world) :
  dlc frame ≤ send_max_dlc (w_data w) frame →
  0 < dev_fd (w_data w) →
  started (w_data w) = true →
  tx_idle (w_data w) = sem_idle_free →
  ∃ w1,
    can_npl_send frame timeout (Some cb) user_data w = Done 0 w1
    ∧ tx_idle (w_data w1) = sem_idle_held
    ∧ ∀ (sframe sframe' : socketcan_frame) (count : Z) (h1 : host),
        linux_socketcan_read_data (dev_fd (w_data w1)) sframe (w_host w1)
        = ((count, sframe', true), h1) →
        ∃ w2,
          w_trace w2 = w_trace w1 ++ [EvTxCallback cb 0 user_data]
          ∧ w_host w2 = tx_callback_run cb 0 user_data h1
          ∧ w_data w2 = set_sem TX_IDLE sem_idle_free (w_data w1)
          ∧ rx_thread_unit sframe w1
            = if loopback (w_data w) then
                if 0 <? count then
                  Done (LoopContinue, sframe')
                    (dispatched (socketcan_to_can_frame sframe')
                       (with_event received_logged w2))
                else Done (LoopBreak, sframe') w2
              else Done (LoopContinue, sframe') w2.
Proof.
  intros Hdlc Hfd Hst Hidle.
  rewrite (send_async_run frame timeout cb user_data w Hdlc Hfd Hst)
    by (rewrite Hidle; reflexivity).
  eexists. split; [reflexivity|]. rewrite Hidle.
  split; [reflexivity|].
  intros sframe sframe' count h1 Hread.
  rewrite (rx_thread_unit_confirmation _ _ _ _ _ Hread).
  cbn [w_data loopback started set_tx_pending set_sem]. rewrite Hst, andb_true_r.
  eexists. split; [|split; [|split]]; [| | |reflexivity]; reflexivity.
Qed.

(** X14. The handshake of a synchronous send.  From the state [can_npl_init]
    leaves the semaphores in, a send without callback writes the frame and
    pends on [tx_done] with no pending callback recorded; when the receive
    thread then reads a confirmation it calls no transmit callback, wakes the
    sender and makes the permit available again; the sender, resumed,
    returns 0 without touching anything. *)
Theorem sync_send_handshake (frame : can_frame) (timeout : k_timeout_t)
    (user_data : ptr) (w : world) :
  dlc frame ≤ send_max_dlc (w_data w) frame →
  0 < dev_fd (w_data w) →
  started (w_data w) = true →
  tx_idle (w_data w) = sem_idle_free →
  tx_done (w_data w) = sem_done_clear →
  ∃ w1 k,
    can_npl_send frame timeout None user_data w = Pend TX_DONE K_FOREVER w1 k
    ∧ tx_callback (w_data w1) = None
    ∧ w_host w1
      = (linux_socketcan_write_data (dev_fd (w_data w))
           (socketcan_from_can_frame frame) (send_mtu (w_data w) frame)
           (w_host w)).2
    ∧ ∀ (sframe sframe' : socketcan_frame) (count : Z) (h1 : host),
        linux_socketcan_read_data (dev_fd (w_data w1)) sframe (w_host w1)
        = ((count, sframe', true), h1) →
        ∃ c w2 evs,
          rx_thread_unit sframe w1 = Done (c, sframe') w2
          ∧ w_trace w2 = w_trace w1 ++ evs
          ∧ forallb (fun e => negb (is_tx_callback e)) evs = true
          ∧ tx_idle (w_data w2) = sem_idle_free
          ∧ tx_done (w_data w2) = sem_done_clear
          ∧ k 0 w2 = Done 0 w2.
Proof.
  intros Hdlc Hfd Hst Hidle Hdone.
  rewrite (send_sync_run frame timeout user_data w Hdlc Hfd Hst)
    by (rewrite ?Hidle, ?Hdone; cbn; lia).
  eexists _, _. split; [reflexivity|]. split; [reflexivity|].
  split; [reflexivity|].
  intros sframe sframe' count h1 Hread.
  destruct (rx_confirmation_summary _ _ _ _ _ Hread)
    as (c & w2 & evs & Hrun & Hdata & Htrace & Hevs).
  exists c, w2, evs. split; [exact Hrun|].
  rewrite Htrace, Hdata. unfold confirmed.
  cbn [w_data w_trace tx_callback tx_user_data tx_idle tx_done set_tx_pending
       set_sem].
  rewrite Hidle, Hdone, app_nil_r. repeat split. exact Hevs.
Qed.

(** X15. Stopping does not cancel a transmission in flight.  After a send
    with a callback, [can_npl_stop] succeeds and leaves the permit held and
    the callback pending; a confirmation read after that still calls the
    callback with status 0 and frees the permit, and it is not dispatched to
    the filters, loopback or not. *)
Theorem stop_keeps_send_in_flight (frame : can_frame) (timeout : k_timeout_t)
    (cb : fnptr) (user_data : ptr) (w : world) :
  dlc frame ≤ send_max_dlc (w_data w) frame →
  0 < dev_fd (w_data w) →
  started (w_data w) = true →
  tx_idle (w_data w) = sem_idle_free →
  ∃ w1 w2,
    can_npl_send frame timeout (Some cb) user_data w = Done 0 w1
    ∧ can_npl_stop w1 = Done 0 w2
    ∧ tx_idle (w_data w2) = sem_idle_held
    ∧ tx_callback (w_data w2) = Some cb
    ∧ ∀ (sframe sframe' : socketcan_frame) (count : Z) (h1 : host),
        linux_socketcan_read_data (dev_fd (w_data w2)) sframe (w_host w2)
        = ((count, sframe', true), h1) →
        ∃ w3,
          rx_thread_unit sframe w2 = Done (LoopContinue, sframe') w3
          ∧ w_trace w3 = w_trace w2 ++ [EvTxCallback cb 0 user_data]
          ∧ w_host w3 = tx_callback_run cb 0 user_data h1
          ∧ tx_idle (w_data w3) = sem_idle_free.
Proof.
  intros Hdlc Hfd Hst Hidle.
  rewrite (send_async_run frame timeout cb user_data w Hdlc Hfd Hst)
    by (rewrite Hidle; reflexivity).
  eexists _, _. split; [reflexivity|].
  unfold can_npl_stop. autounfold with drv.
  cbn [bind_result w_data w_host w_trace started set_tx_pending set_sem].
  rewrite Hst, Hidle. cbn [bind_result negb].
  split; [reflexivity|]. split; [reflexivity|]. split; [reflexivity|].
  intros sframe sframe' count h1 Hread.
  rewrite (rx_thread_unit_confirmation _ _ _ _ _ Hread).
  cbn [w_data started set_started]. rewrite andb_false_r.
  eexists. split; [reflexivity|]. repeat split.
Qed.

(** ** What the receive thread touches *)

Lemma confirmed_same_but_semaphores (h1 : host) (w : world) :
  same_but_semaphores (w_data w) (w_data (confirmed h1 w)).
Proof.
  unfold confirmed, same_but_semaphores. cbn [w_data].
  destruct (tx_callback (w_data w)) eqn:Hcb; cbn; rewrite ?Hcb; repeat split.
Qed.

(** One unit of the receive thread always runs to its end. *)
Lemma rx_thread_unit_done (sframe : socketcan_frame) (w : world) :
  ∃ c s w', rx_thread_unit sframe w = Done (c, s) w'
            ∧ same_but_semaphores (w_data w) (w_data w').
Proof.
  destruct (linux_socketcan_read_data (dev_fd (w_data w)) sframe (w_host w))
    as [[[count sframe'] [|]] h1] eqn:Hread.
  - destruct (rx_confirmation_summary _ _ _ _ _ Hread)
      as (c & w2 & evs & Hrun & Hdata & _).
    exists c, sframe', w2. split; [exact Hrun|]. rewrite Hdata.
    apply confirmed_same_but_semaphores.
  - rewrite (rx_thread_unit_reception _ _ _ _ _ Hread).
    destruct (0 <? count); eexists _, _, _; (split; [reflexivity|]);
      cbn; repeat split.
Qed.

Lemma same_but_semaphores_trans (d1 d2 d3 : can_npl_data) :
  same_but_semaphores d1 d2 → same_but_semaphores d2 d3 →
  same_but_semaphores d1 d3.
Proof.
  unfold same_but_semaphores. intros (?&?&?&?&?&?&?) (?&?&?&?&?&?&?).
  repeat split; congruence.
Qed.

Lemma rx_thread_inner_S (fuel : nat) (sframe : socketcan_frame) (w : world) :
  rx_thread_inner (S fuel) sframe w
  = let ph := linux_socketcan_poll_data (dev_fd (w_data w)) (w_host w) in
    if negb (ph.1 =? 0) then Done (Some sframe) (with_host ph.2 w)
    else
      bind_result (rx_thread_unit sframe (with_host ph.2 w))
        (fun cs =>
           match cs.1 with
           | LoopBreak => mret (Some cs.2)
           | LoopContinue => rx_thread_inner fuel cs.2
           end).
Proof.
  cbn [rx_thread_inner]. autounfold with drv.
  cbn [bind_result w_data w_host w_trace].
  destruct (linux_socketcan_poll_data (dev_fd (w_data w)) (w_host w)) as [p h].
  cbn [bind_result fst snd]. destruct (negb (p =? 0)); [reflexivity|].
  change {| w_data := w_data w; w_host := h; w_trace := w_trace w |}
    with (with_host h w).
  destruct (rx_thread_unit_done sframe (with_host h w))
    as (c & s & w' & Hrun & _).
  rewrite Hrun. cbn [bind_result fst snd]. destruct c; reflexivity.
Qed.

(** X16. A unit of the receive thread never waits and never reconfigures.
    Whatever the read returns, one unit of the receive thread runs to its end
    without pending on a semaphore, hands on the wire frame the read left,
    and leaves the filter table, the pending callback and its user data, the
    flags and the descriptor as they were; the semaphores change on a
    confirmation only, by the give of [tx_idle] and, without a pending
    callback, the give of [tx_done]. *)
Theorem receive_thread_footprint (sframe sframe' : socketcan_frame) (count : Z)
    (msg_confirm : bool) (h1 : host) (w : world) :
  linux_socketcan_read_data (dev_fd (w_data w)) sframe (w_host w)
  = ((count, sframe', msg_confirm), h1) →
  ∃ c w',
    rx_thread_unit sframe w = Done (c, sframe') w'
    ∧ same_but_semaphores (w_data w) (w_data w')
    ∧ tx_idle (w_data w')
      = (if msg_confirm then sem_given (tx_idle (w_data w)) else tx_idle (w_data w))
    ∧ tx_done (w_data w')
      = (if msg_confirm then
           match tx_callback (w_data w) with
           | Some _ => tx_done (w_data w)
           | None => sem_given (tx_done (w_data w))
           end
         else tx_done (w_data w)).
Proof.
  intros Hread. destruct msg_confirm.
  - destruct (rx_confirmation_summary _ _ _ _ _ Hread)
      as (c & w2 & evs & Hrun & Hdata & _).
    exists c, w2. split; [exact Hrun|]. rewrite Hdata.
    split; [apply confirmed_same_but_semaphores|].
    unfold confirmed. cbn [w_data].
    destruct (tx_callback (w_data w)); split; reflexivity.
  - rewrite (rx_thread_unit_reception _ _ _ _ _ Hread).
    destruct (0 <? count); eexists _, _; (split; [reflexivity|]);
      cbn; repeat split.
Qed.

(** X17. When the inner loop of the receive thread ends.  With a round
    still to run, the loop ends without reading when the poll reports no
    data. When the poll reports data, it ends after a read that brought
    neither data nor a confirmation, having called nothing; after a
    confirmation without data it ends only if loopback is on and the
    controller started; and it polls again after a confirmation that is not
    to be dispatched, with or without data, and after a received frame, which
    it has dispatched. *)
Theorem receive_loop_exits (fuel : nat) (sframe : socketcan_frame) (p : Z)
    (h : host) (w : world) :
  linux_socketcan_poll_data (dev_fd (w_data w)) (w_host w) = (p, h) →
  (p ≠ 0 →
     rx_thread_inner (S fuel) sframe w = Done (Some sframe) (with_host h w))
  ∧ (p = 0 →
       ∀ (count : Z) (sframe' : socketcan_frame) (msg_confirm : bool) (h1 : host),
         linux_socketcan_read_data (dev_fd (w_data w)) sframe h
         = ((count, sframe', msg_confirm), h1) →
         rx_thread_inner (S fuel) sframe w
         = if msg_confirm then
             if loopback (w_data w) && started (w_data w) then
               if 0 <? count then
                 rx_thread_inner fuel sframe'
                   (dispatched (socketcan_to_can_frame sframe')
                      (with_event received_logged (confirmed h1 (with_host h w))))
               else Done (Some sframe') (confirmed h1 (with_host h w))
             else rx_thread_inner fuel sframe' (confirmed h1 (with_host h w))
           else
             if 0 <? count then
               rx_thread_inner fuel sframe'
                 (dispatched (socketcan_to_can_frame sframe')
                    (with_event received_logged (with_host h1 w)))
             else Done (Some sframe') (with_host h1 w)).
Proof.
  intros Hpoll. rewrite rx_thread_inner_S, Hpoll. cbn [fst snd]. cbn zeta. split.
  - intros Hp. destruct (Z.eqb_spec p 0); [contradiction | reflexivity].
  - intros -> count sframe' msg_confirm h1 Hread. cbn [Z.eqb negb].
    destruct msg_confirm.
    + rewrite (rx_thread_unit_confirmation sframe sframe' count h1 (with_host h w))
        by exact Hread.
      cbn [w_data with_host].
      destruct (loopback (w_data w) && started (w_data w));
        [destruct (0 <? count)|]; reflexivity.
    + rewrite (rx_thread_unit_reception sframe sframe' count h1 (with_host h w))
        by exact Hread.
      destruct (0 <? count); reflexivity.
Qed.

(** X18. A received frame completes no transmission.  On a unit that is no
    confirmation the receive thread changes no device data, semaphores
    included, and calls no transmit callback; it ends the inner loop exactly
    when the read returned no data, and then it has called nothing at all. *)
Theorem reception_leaves_transmit_state (sframe sframe' : socketcan_frame)
    (count : Z) (h1 : host) (w : world) :
  linux_socketcan_read_data (dev_fd (w_data w)) sframe (w_host w)
  = ((count, sframe', false), h1) →
  ∃ c w' evs,
    rx_thread_unit sframe w = Done (c, sframe') w'
    ∧ w_data w' = w_data w
    ∧ w_trace w' = w_trace w ++ evs
    ∧ forallb (fun e => negb (is_tx_callback e)) evs = true
    ∧ (c = LoopBreak ↔ count ≤ 0)
    ∧ (count ≤ 0 → evs = [] ∧ w_host w' = h1).
Proof.
  intros Hread. rewrite (rx_thread_unit_reception _ _ _ _ _ Hread).
  destruct (Z.ltb_spec 0 count) as [Hpos|Hnone].
  - eexists _, _, _. split; [reflexivity|]. split; [reflexivity|].
    split; [unfold dispatched; cbn [w_trace with_event with_host w_data];
            rewrite <- !app_assoc; reflexivity|].
    split; [apply (dispatch_events_no_tx_callback (socketcan_to_can_frame sframe'))|].
    split; [split; [discriminate | lia] | lia].
  - exists LoopBreak, (with_host h1 w), []. cbn. rewrite app_nil_r.
    repeat split; auto.
Qed.

(** X19. The side effects of dispatch, and dispatch without a hit.  The
    host after [dispatch_frame] is the host after the callbacks of the hits
    ran one after the other on the received frame, where the hits are the
    occupied slots whose filter matches, in strictly ascending slot order;
    when no occupied slot matches the frame, [dispatch_frame] takes and gives
    the mutex and does nothing else. *)
Theorem dispatch_host_effect (frame : can_frame) (w : world) :
  (∃ hits : list hit,
     dispatch_frame frame w
     = Done tt
         {| w_data := w_data w;
            w_host :=
              foldl (λ h x, (rx_callback_run (hit_cb x) frame (hit_arg x) h).2)
                (w_host w) hits;
            w_trace :=
              w_trace w ++ [EvMutexLock]
              ++ map (λ x, EvRxCallback (hit_cb x) frame (hit_arg x)) hits
              ++ [EvMutexUnlock] |}
     ∧ (∀ (i : nat) (cb : fnptr) (arg : ptr),
          (i, cb, arg) ∈ hits
          ↔ ∃ ctx, filters (w_data w) !! i = Some ctx ∧ rx_cb ctx = Some cb
                   ∧ cb_arg ctx = arg
                   ∧ can_utils_filter_match frame (filter ctx) = true)
     ∧ ∀ (a b : nat) (x y : hit),
         hits !! a = Some x → hits !! b = Some y → (a < b)%nat →
         (hit_slot x < hit_slot y)%nat)
  ∧ ((∀ i ctx cb, filters (w_data w) !! i = Some ctx → rx_cb ctx = Some cb →
        can_utils_filter_match frame (filter ctx) = false) →
       dispatch_frame frame w
       = Done tt
           {| w_data := w_data w; w_host := w_host w;
              w_trace := w_trace w ++ [EvMutexLock; EvMutexUnlock] |}).
Proof.
  split.
  - exists (hits_from frame 0 (filters (w_data w))).
    split; [rewrite dispatch_frame_exact, callbacks_host_foldl; reflexivity|].
    split; [|apply hits_from_ascending].
    intros i cb arg. rewrite hits_from_elem, Nat.sub_0_r. split.
    + intros [_ H]. exact H.
    + intros H. split; [lia | exact H].
  - intros Hnone. rewrite dispatch_frame_exact.
    assert (hits_from frame 0 (filters (w_data w)) = []) as ->; [|reflexivity].
    destruct (hits_from frame 0 (filters (w_data w))) as [|[[i cb] arg] l] eqn:Hh;
      [reflexivity|].
    assert ((i, cb, arg) ∈ hits_from frame 0 (filters (w_data w))) as Hin
      by (rewrite Hh; apply elem_of_cons; auto).
    apply hits_from_elem in Hin as (_ & ctx & Hl & Hcb & _ & Hm).
    rewrite Nat.sub_0_r in Hl. rewrite (Hnone i ctx cb Hl Hcb) in Hm.
    discriminate Hm.
Qed.

(** ** The transmit path, case by case *)

Lemma send_checks_pass_permit (frame : can_frame) (timeout : k_timeout_t)
    (callback : can_tx_callback_t) (user_data : ptr) (w : world) :
  dlc frame ≤ send_max_dlc (w_data w) frame →
  0 < dev_fd (w_data w) →
  started (w_data w) = true →
  can_npl_send frame timeout callback user_data w
  = bind_result (k_sem_take TX_IDLE timeout (with_event sending_logged w))
      (fun r =>
         if negb (r =? 0) then mret (- EAGAIN)
         else send_with_permit frame (send_mtu (w_data w) frame) callback user_data).
Proof. intros Hdlc Hfd Hst. rewrite send_checks_pass by assumption. reflexivity. Qed.

Lemma send_rejected_dlc (frame : can_frame) (timeout : k_timeout_t)
    (callback : can_tx_callback_t) (user_data : ptr) (w : world) :
  send_max_dlc (w_data w) frame < dlc frame →
  can_npl_send frame timeout callback user_data w
  = Done (- EINVAL)
      {| w_data := w_data w; w_host := w_host w;
         w_trace := w_trace w
                    ++ [sending_logged;
                        EvLog LOG_LEVEL_ERR "DLC of %d exceeds maximum (%d)"] |}.
Proof.
  unfold send_max_dlc. intros Hbad. unfold can_npl_send. autounfold with drv.
  cbn [bind_result w_data w_host w_trace].
  destruct (Z.ltb_spec (if send_as_fd (w_data w) frame then CANFD_MAX_DLC
                        else CAN_MAX_DLC) (dlc frame)) as [_|Hge]; [|lia].
  cbn. rewrite <- app_assoc. reflexivity.
Qed.

Lemma send_rejected_fd (frame : can_frame) (timeout : k_timeout_t)
    (callback : can_tx_callback_t) (user_data : ptr) (w : world) :
  dlc frame ≤ send_max_dlc (w_data w) frame →
  dev_fd (w_data w) ≤ 0 →
  can_npl_send frame timeout callback user_data w
  = Done (- EIO)
      {| w_data := w_data w; w_host := w_host w;
         w_trace := w_trace w
                    ++ [sending_logged;
                        EvLog LOG_LEVEL_ERR "No file descriptor: %d"] |}.
Proof.
  unfold send_max_dlc. intros Hdlc Hfd. unfold can_npl_send. autounfold with drv.
  cbn [bind_result w_data w_host w_trace].
  destruct (Z.ltb_spec (if send_as_fd (w_data w) frame then CANFD_MAX_DLC
                        else CAN_MAX_DLC) (dlc frame)) as [Hbad|_]; [lia|].
  destruct (Z.leb_spec (dev_fd (w_data w)) 0) as [_|Hbad]; [|lia].
  cbn. rewrite <- app_assoc. reflexivity.
Qed.

Lemma send_rejected_stopped (frame : can_frame) (timeout : k_timeout_t)
    (callback : can_tx_callback_t) (user_data : ptr) (w : world) :
  dlc frame ≤ send_max_dlc (w_data w) frame →
  0 < dev_fd (w_data w) →
  started (w_data w) = false →
  can_npl_send frame timeout callback user_data w
  = Done (- ENETDOWN) (with_event sending_logged w).
Proof.
  unfold send_max_dlc. intros Hdlc Hfd Hst. unfold can_npl_send.
  autounfold with drv. cbn [bind_result w_data w_host w_trace].
  destruct (Z.ltb_spec (if send_as_fd (w_data w) frame then CANFD_MAX_DLC
                        else CAN_MAX_DLC) (dlc frame)) as [Hbad|_]; [lia|].
  destruct (Z.leb_spec (dev_fd (w_data w)) 0) as [Hbad|_]; [lia|].
  rewrite Hst. reflexivity.
Qed.

(** [can_npl_send] from the moment it holds the permit: the write, the log,
    and the wait for the completion of a send without callback. *)
Lemma send_with_permit_run (frame : can_frame) (mtu : Z)
    (callback : can_tx_callback_t) (user_data : ptr) (w : world) :
  send_with_permit frame mtu callback user_data w
  = let wr := linux_socketcan_write_data (dev_fd (w_data w))
                (socketcan_from_can_frame frame) mtu (w_host w) in
    let w1 := {| w_data := set_tx_pending callback user_data (w_data w);
                 w_host := wr.2;
                 w_trace := w_trace w
                            ++ (if wr.1 <? 0 then [write_error_logged] else []) |} in
    match callback with
    | Some _ => Done 0 w1
    | None =>
        if 0 <? sem_count (tx_done (w_data w)) then
          Done 0 (with_data (set_sem TX_DONE (sem_taken (tx_done (w_data w)))
                               (w_data w1)) w1)
        else
          Pend TX_DONE K_FOREVER
            (with_data (set_sem TX_DONE (sem_pended (tx_done (w_data w)))
                          (w_data w1)) w1)
            (fun _ w' => Done 0 w')
    end.
Proof.
  unfold send_with_permit. autounfold with drv.
  cbn [bind_result w_data w_host w_trace set_tx_pending dev_fd].
  destruct (linux_socketcan_write_data (dev_fd (w_data w))
              (socketcan_from_can_frame frame) mtu (w_host w)) as [r h1].
  cbn [bind_result fst snd].
  destruct callback as [cb|].
  - destruct (r <? 0); cbn; rewrite ?app_nil_r; reflexivity.
  - unfold k_sem_take.
    destruct (r <? 0); cbn;
      destruct (0 <? sem_count (tx_done (w_data w)));
      cbn; rewrite ?app_nil_r; reflexivity.
Qed.

Lemma send_with_permit_returns (frame : can_frame) (mtu : Z)
    (callback : can_tx_callback_t) (user_data : ptr) (w : world) (v : Z) :
  can_return v (send_with_permit frame mtu callback user_data w) ↔ v = 0.
Proof.
  rewrite send_with_permit_run. cbn zeta.
  destruct callback as [cb|]; [cbn; split; congruence|].
  destruct (0 <? sem_count (tx_done (w_data w))); cbn; [split; congruence|].
  split.
  - intros (rv & w' & _ & Hv). congruence.
  - intros ->. exists 0, w. split; [left; reflexivity | reflexivity].
Qed.

(** X20. The complete list of what [can_npl_send] returns, and when.  It
    returns [-EINVAL] exactly on a data length code above the maximum for the
    frame; otherwise [-EIO] exactly on a descriptor that is not positive;
    otherwise [-ENETDOWN] exactly on a stopped controller; otherwise it can
    return [-EAGAIN] exactly when the idle permit is taken and the timeout is
    not [K_FOREVER], and 0 exactly when the permit is free or the timeout is
    not [K_NO_WAIT]. It returns nothing else: neither the [-EBUSY] of the
    semaphore nor the result of the transport write reaches the caller. *)
Theorem send_return_values (frame : can_frame) (timeout : k_timeout_t)
    (callback : can_tx_callback_t) (user_data : ptr) (w : world) (v : Z) :
  can_return v (can_npl_send frame timeout callback user_data w)
  ↔ (send_max_dlc (w_data w) frame < dlc frame ∧ v = - EINVAL)
    ∨ (dlc frame ≤ send_max_dlc (w_data w) frame ∧ dev_fd (w_data w) ≤ 0
       ∧ v = - EIO)
    ∨ (dlc frame ≤ send_max_dlc (w_data w) frame ∧ 0 < dev_fd (w_data w)
       ∧ started (w_data w) = false ∧ v = - ENETDOWN)
    ∨ (dlc frame ≤ send_max_dlc (w_data w) frame ∧ 0 < dev_fd (w_data w)
       ∧ started (w_data w) = true ∧ sem_count (tx_idle (w_data w)) ≤ 0
       ∧ timeout ≠ K_FOREVER ∧ v = - EAGAIN)
    ∨ (dlc frame ≤ send_max_dlc (w_data w) frame ∧ 0 < dev_fd (w_data w)
       ∧ started (w_data w) = true
       ∧ (0 < sem_count (tx_idle (w_data w)) ∨ timeout ≠ K_NO_WAIT)
       ∧ v = 0).
Proof.
  assert (- EINVAL ≠ 0 ∧ - EIO ≠ 0 ∧ - ENETDOWN ≠ 0 ∧ - EAGAIN ≠ 0
          ∧ K_NO_WAIT ≠ K_FOREVER) as (? & ? & ? & ? & ?)
    by (unfold EINVAL, EIO, ENETDOWN, EAGAIN, K_NO_WAIT, K_FOREVER; lia).
  destruct (Z.lt_ge_cases (send_max_dlc (w_data w) frame) (dlc frame))
    as [Hbad|Hdlc].
  { rewrite send_rejected_dlc by exact Hbad. cbn. split.
    - intros <-. auto.
    - intros [[_ ->]|[(?&_)|[(?&_)|[(?&_)|(?&_)]]]]; [reflexivity|lia..]. }
  destruct (Z.le_gt_cases (dev_fd (w_data w)) 0) as [Hnofd|Hfd].
  { rewrite send_rejected_fd by assumption. cbn. split.
    - intros <-. auto.
    - intros [[? _]|[(_&_&->)|[(_&?&_)|[(_&?&_)|(_&?&_)]]]];
        [lia|reflexivity|lia..]. }
  destruct (started (w_data w)) eqn:Hst.
  2:{ rewrite send_rejected_stopped by assumption. cbn. split.
      - intros <-. auto 10.
      - intros [[? _]|[(_&?&_)|[(_&_&_&->)|[(_&_&?&_)|(_&_&?&_)]]]];
          [lia|lia|reflexivity|discriminate..]. }
  rewrite send_checks_pass_permit by assumption.
  destruct (Z.lt_ge_cases 0 (sem_count (tx_idle (w_data w)))) as [Hfree|Htaken].
  { rewrite k_sem_take_available by exact Hfree. cbn [bind_result Z.eqb negb].
    rewrite send_with_permit_returns. split.
    - intros ->. auto 10.
    - intros [[? _]|[(_&?&_)|[(_&_&?&_)|[(_&_&_&?&_)|(_&_&_&_&->)]]]];
        [lia|lia|discriminate|lia|reflexivity]. }
  destruct (Z.eq_dec timeout K_NO_WAIT) as [->|Hwait].
  { rewrite k_sem_take_no_wait by exact Htaken. cbn. split.
    - intros <-. auto 10.
    - intros [[? _]|[(_&?&_)|[(_&_&?&_)|[(_&_&_&_&_&->)|(_&_&_&[?|?]&_)]]]];
        [lia|lia|discriminate|reflexivity|lia|contradiction]. }
  rewrite k_sem_take_pends by assumption. cbn [bind_result can_return]. split.
  - intros (rv & w' & Hres & Hv).
    destruct Hres as [->|[-> Hnf]].
    + cbn [bind_result Z.eqb negb] in Hv.
      apply send_with_permit_returns in Hv. subst v. auto 10.
    + assert (v = - EAGAIN) as ->
        by (revert Hv; unfold EAGAIN; cbn; congruence).
      auto 10.
  - intros [[? _]|[(_&?&_)|[(_&_&?&_)|[(_&_&_&_&Hnf&->)|(_&_&_&_&->)]]]];
      [lia|lia|discriminate| |].
    + exists (- EAGAIN), w. split; [right; auto | reflexivity].
    + exists 0, w. split; [left; reflexivity|].
      cbn [bind_result Z.eqb negb]. apply send_with_permit_returns. reflexivity.
Qed.

(** X21. A send with a callback never waits for its completion.  With a
    callback, [can_npl_send] pends at most once, on the idle permit and with
    the timeout of the caller, and finishes as soon as it is resumed; under
    [K_NO_WAIT] it does not pend at all. *)
Theorem async_send_waits_for_permit_only (frame : can_frame)
    (timeout : k_timeout_t) (cb : fnptr) (user_data : ptr) (w : world) :
  match can_npl_send frame timeout (Some cb) user_data w with
  | Done _ _ => True
  | Pend s t _ k =>
      s = TX_IDLE ∧ t = timeout ∧ timeout ≠ K_NO_WAIT
      ∧ ∀ rv w'', ∃ v w3, k rv w'' = Done v w3
  end.
Proof.
  destruct (Z.lt_ge_cases (send_max_dlc (w_data w) frame) (dlc frame))
    as [Hbad|Hdlc]; [rewrite send_rejected_dlc by exact Hbad; exact I|].
  destruct (Z.le_gt_cases (dev_fd (w_data w)) 0) as [Hnofd|Hfd];
    [rewrite send_rejected_fd by assumption; exact I|].
  destruct (started (w_data w)) eqn:Hst;
    [|rewrite send_rejected_stopped by assumption; exact I].
  rewrite send_checks_pass_permit by assumption.
  destruct (Z.lt_ge_cases 0 (sem_count (tx_idle (w_data w)))) as [Hfree|Htaken].
  { rewrite k_sem_take_available by exact Hfree. cbn [bind_result Z.eqb negb].
    rewrite send_with_permit_run. exact I. }
  destruct (Z.eq_dec timeout K_NO_WAIT) as [->|Hwait];
    [rewrite k_sem_take_no_wait by exact Htaken; exact I|].
  rewrite k_sem_take_pends by assumption. cbn [bind_result].
  repeat split; [exact Hwait|]. intros rv w''.
  destruct (negb (rv =? 0)); [eexists _, _; reflexivity|].
  rewrite send_with_permit_run. eexists _, _; reflexivity.
Qed.

(** ** Invariants across the interface *)






(** X23. Self-reception follows the mode that was set.  On a stopped
    controller, after [can_npl_set_mode] with a supported mode and
    [can_npl_start], a confirmation that comes with data is dispatched to the
    filters when the mode had the loopback bit, and is only confirmed when it
    had not. *)
Theorem loopback_follows_mode (mode : Z) (w : world) :
  Z.land mode (Z.lnot set_mode_mask) = 0 →
  started (w_data w) = false →
  ∃ w1 w2,
    can_npl_set_mode mode w = Done 0 w1
    ∧ can_npl_start w1 = Done 0 w2
    ∧ ∀ (sframe sframe' : socketcan_frame) (count : Z) (h1 : host),
        0 < count →
        linux_socketcan_read_data (dev_fd (w_data w2)) sframe (w_host w2)
        = ((count, sframe', true), h1) →
        rx_thread_unit sframe w2
        = Done (LoopContinue, sframe')
            (if Z.testbit mode 0 then
               dispatched (socketcan_to_can_frame sframe')
                 (with_event received_logged (confirmed h1 w2))
             else confirmed h1 w2).
Proof.
  intros Hsup Hs. rewrite (set_mode_stopped_run mode w Hsup Hs).
  eexists _, _. split; [reflexivity|].
  unfold can_npl_start. autounfold with drv.
  cbn [bind_result w_data w_host w_trace started set_mode_fd set_loopback].
  rewrite Hs. cbn [bind_result]. split; [reflexivity|].
  intros sframe sframe' count h1 Hcount Hread.
  rewrite (rx_thread_unit_confirmation _ _ _ _ _ Hread).
  cbn [w_data loopback started set_started set_mode_fd set_loopback].
  destruct (Z.ltb_spec 0 count) as [_|Hbad]; [|lia].
  destruct (Z.testbit mode 0); reflexivity.
Qed.

End More.

(** * Further runs on the demo platform *)

(** A host whose interface opens as descriptor 0. *)
Definition script_fd0 : script :=
  {| open_ret := 0; poll_ret := 0; read_ret := (0, frame_123, false); write_ret := 16 |}.

(** A host with nothing to poll. *)
Definition script_no_data : script :=
  {| open_ret := 3; poll_ret := 1; read_ret := (0, frame_123, false); write_ret := 16 |}.

(** A host that hands out a confirmation of 16 bytes. *)
Definition script_confirm : script := demo_script (16, frame_123, true) 16.

(** A host that hands out a received frame of 16 bytes. *)
Definition script_frame : script := demo_script (16, frame_123, false) 16.

(** The demo table has its lowest empty slot at index 1. *)
Lemma demo_table_slot_1 (h : script) :
  empty (filters (w_data (w_two_filters h))) 1
  ∧ ∀ j, (j < 1)%nat → occupied (filters (w_data (w_two_filters h))) j.
Proof.
  split; [exists empty_slot; split; reflexivity|].
  intros j Hj. assert (j = O) as -> by lia.
  exists (slot_123 7 70), 7. split; reflexivity.
Qed.

(** Witness of X2 on the demo platform. *)
Lemma add_then_dispatch_witness :
  empty (filters (w_data (w_two_filters quiet))) 1
  ∧ ∃ w1 hits,
      can_npl_add_rx_filter (Some 5) 50 filter_123 (w_two_filters quiet)
      = Done 1 w1
      ∧ (1%nat, 5, 50) ∈ hits
      ∧ dispatch_frame frame_123 w1
        = Done tt
            (@Build_world (demo_platform false) (w_data w1)
               (@callbacks_host (demo_platform false) frame_123 hits quiet)
               (w_trace w1 ++ [EvMutexLock] ++ map (hit_call frame_123) hits
                ++ [EvMutexUnlock])).
Proof.
  destruct (demo_table_slot_1 quiet) as [Hempty Hlow].
  split; [exact Hempty|].
  destruct (@add_then_dispatch (demo_platform false) 5 50 filter_123 frame_123
              (w_two_filters quiet) 1%nat Hempty Hlow)
    as (w1 & hits & Hadd & Hdisp & Hhits).
  exists w1, hits. split; [exact Hadd|]. split; [|exact Hdisp].
  apply Hhits. left. repeat split.
Defined.

(** Witness of X3 on the demo platform. *)
Lemma add_remove_dispatch_same_witness :
  empty (filters (w_data (w_two_filters quiet))) 1
  ∧ ∃ w1 w2,
      can_npl_add_rx_filter (Some 5) 50 filter_123 (w_two_filters quiet)
      = Done 1 w1
      ∧ can_npl_remove_rx_filter 1 w1 = Done tt w2
      ∧ dispatches_alike (w_two_filters quiet) w2.
Proof.
  destruct (demo_table_slot_1 quiet) as [Hempty Hlow].
  split; [exact Hempty|].
  exact (@add_remove_dispatch_same (demo_platform false) (Some 5) 50 filter_123
           (w_two_filters quiet) 1%nat Hempty Hlow).
Defined.

(** Witness of X4 on the demo platform. *)
Lemma add_null_callback_slot_reused_witness :
  empty (filters (w_data (w_two_filters quiet))) 1
  ∧ ∃ w1 w2,
      can_npl_add_rx_filter None 50 filter_123 (w_two_filters quiet) = Done 1 w1
      ∧ empty (filters (w_data w1)) 1
      ∧ dispatches_alike (w_two_filters quiet) w1
      ∧ can_npl_add_rx_filter (Some 6) 60 filter_123 w1 = Done 1 w2
      ∧ filters (w_data w2) !! 1%nat = Some (slot_123 6 60).
Proof.
  destruct (demo_table_slot_1 quiet) as [Hempty Hlow].
  split; [exact Hempty|].
  exact (@add_null_callback_slot_reused (demo_platform false) 50 60 filter_123
           filter_123 (Some 6) (w_two_filters quiet) 1%nat Hempty Hlow).
Defined.

(** Witness of X5 on the demo platform. *)
Lemma filter_capacity_witness :
  length [(7, 70, filter_123); (8, 80, filter_123); (9, 90, filter_123)]
  = @CONFIG_CAN_MAX_FILTER (demo_platform false)
  ∧ ∃ r w0 w1 w2,
      can_npl_init "vcan0"
        (demo_world false (@can_npl_data_0 (demo_platform false)) quiet)
      = Done r w0
      ∧ can_npl_get_max_filters CAN_STANDARD_IDENTIFIER w0 = Done 3 w0
      ∧ add_all [(7, 70, filter_123); (8, 80, filter_123); (9, 90, filter_123)] w0
        = Done [0; 1; 2] w1
      ∧ filters (w_data w1) = [slot_123 7 70; slot_123 8 80; slot_123 9 90]
      ∧ can_npl_add_rx_filter (Some 5) 50 filter_123 w1 = Done (- ENOSPC) w2
      ∧ w_data w2 = w_data w1.
Proof.
  split; [reflexivity|].
  exact (@filter_capacity (demo_platform false) "vcan0"
           [(7, 70, filter_123); (8, 80, filter_123); (9, 90, filter_123)]
           (Some 5) 50 filter_123 CAN_STANDARD_IDENTIFIER
           (demo_world false (@can_npl_data_0 (demo_platform false)) quiet)
           eq_refl eq_refl).
Defined.

(** Witness of X6 on the demo platform. *)
Lemma init_outcome_witness :
  @linux_socketcan_iface_open (demo_platform false) "vcan0" quiet = (3, quiet)
  ∧ ∃ w' evs,
      can_npl_init "vcan0"
        (demo_world false (@can_npl_data_0 (demo_platform false)) quiet)
      = Done 0 w'
      ∧ w_trace w' = [] ++ evs
      ∧ (EvThreadCreate ∈ evs ↔ 0 ≤ 3)
      ∧ tx_idle (w_data w') = sem_idle_free
      ∧ dev_fd (w_data w') = 3.
Proof.
  split; [reflexivity|].
  destruct (@init_outcome (demo_platform false) "vcan0"
              (demo_world false (@can_npl_data_0 (demo_platform false)) quiet)
              3 quiet eq_refl)
    as (w' & evs & Hrun & _ & Htr & Hth & Hidle & _ & Hfd & _).
  exists w', evs. auto.
Defined.

(** Witness of X7 on the demo platform. *)
Lemma init_descriptor_zero_send_fails_witness :
  @linux_socketcan_iface_open (demo_platform false) "vcan0" script_fd0
  = (0, script_fd0)
  ∧ ∃ w0 w',
      can_npl_init "vcan0"
        (demo_world false (@can_npl_data_0 (demo_platform false)) script_fd0)
      = Done 0 w0
      ∧ can_npl_send frame_123 K_NO_WAIT None 0 w0 = Done (- EIO) w'.
Proof.
  split; [reflexivity|].
  destruct (@init_descriptor_zero_send_fails (demo_platform false) "vcan0"
              (demo_world false (@can_npl_data_0 (demo_platform false)) script_fd0)
              script_fd0 frame_123 K_NO_WAIT None 0 eq_refl)
    as (w0 & Hinit & Hsend).
  assert (w_data w0
          = set_dev_fd 0
              (set_sem TX_DONE sem_done_clear
                 (set_sem TX_IDLE sem_idle_free
                    (@can_npl_data_0 (demo_platform false))))) as Hd
    by (injection Hinit as <-; reflexivity).
  destruct Hsend as [(w' & Hrun & _) _].
  { rewrite Hd. vm_compute. discriminate. }
  exists w0, w'. auto.
Defined.

(** Witness of X8 on the demo platform. *)
Lemma start_stop_round_trip_witness :
  started (w_data w_stopped) = false
  ∧ ∃ w1, can_npl_start w_stopped = Done 0 w1
          ∧ can_npl_stop w1 = Done 0 w_stopped.
Proof.
  split; [reflexivity|].
  destruct (@start_stop_round_trip (demo_platform false) w_stopped eq_refl)
    as (w1 & Hstart & _ & Hstop & _).
  exists w1. auto.
Defined.

(** Witness of X9 on the demo platform. *)
Lemma started_gates_configuration_witness :
  can_npl_start w_stopped = Done 0 w_started
  ∧ can_npl_set_timing timing_min w_started = Done (- EBUSY) w_started
  ∧ can_npl_recover K_FOREVER w_started = Done 0 w_started.
Proof.
  assert (can_npl_start w_stopped = Done 0 w_started) as Hstart by reflexivity.
  split; [exact Hstart|].
  destruct (proj1 (@started_gates_configuration (demo_platform false) w_stopped
                     w_started timing_min K_FOREVER CAN_MODE_LOOPBACK) Hstart)
    as (Ht & _ & Hr & _).
  auto.
Defined.

(** Witness of X10 on the demo platform. *)
Lemma classic_build_has_no_fd_witness :
  @CONFIG_CAN_FD_MODE (demo_platform false) = false
  ∧ CAN_MAX_DLC < dlc frame_long
  ∧ ∃ w', can_npl_send frame_long K_NO_WAIT None 0 w_started = Done (- EINVAL) w'.
Proof.
  split; [reflexivity|]. split; [reflexivity|].
  destruct (@classic_build_has_no_fd (demo_platform false) CAN_MODE_FD frame_long
              K_NO_WAIT None 0 w_started eq_refl) as (_ & _ & Hsend).
  destruct (Hsend eq_refl) as (w' & Hrun & _). exists w'. exact Hrun.
Defined.

(** The demo device passes the checks of [can_npl_send] on [frame_123]. *)
Lemma demo_send_checks (h : script) :
  dlc frame_123 ≤ @send_max_dlc (demo_platform false) (w_data (w_two_filters h)) frame_123
  ∧ 0 < dev_fd (w_data (w_two_filters h))
  ∧ started (w_data (w_two_filters h)) = true.
Proof. repeat split. vm_compute. discriminate. Qed.

(** Witness of X11 on the demo platform. *)
Lemma async_send_outcome_witness :
  0 < sem_count (tx_idle (w_data (w_two_filters quiet)))
  ∧ ∃ w', can_npl_send frame_123 K_NO_WAIT (Some 4) 40 (w_two_filters quiet)
          = Done 0 w'
          ∧ tx_callback (w_data w') = Some 4
          ∧ sem_count (tx_idle (w_data w')) = 0.
Proof.
  split; [reflexivity|].
  destruct (demo_send_checks quiet) as (Hdlc & Hfd & Hst).
  destruct (@async_send_outcome (demo_platform false) frame_123 K_NO_WAIT 4 40
              (w_two_filters quiet) Hdlc Hfd Hst eq_refl)
    as (w' & Hrun & _ & Hcb & _ & Hcount & _).
  exists w'. auto.
Defined.

(** Witness of X12 on the demo platform. *)
Lemma send_holds_the_permit_witness :
  sem_count (tx_idle (w_data (w_two_filters quiet))) = 1
  ∧ ∃ w1 w2,
      can_npl_send frame_123 K_NO_WAIT (Some 4) 40 (w_two_filters quiet)
      = Done 0 w1
      ∧ can_npl_send frame_123 K_NO_WAIT (Some 6) 60 w1 = Done (- EAGAIN) w2
      ∧ tx_callback (w_data w2) = Some 4.
Proof.
  split; [reflexivity|].
  destruct (demo_send_checks quiet) as (Hdlc & Hfd & Hst).
  destruct (@send_holds_the_permit (demo_platform false) frame_123 frame_123
              K_NO_WAIT K_FOREVER 4 40 (Some 6) 60 (w_two_filters quiet)
              Hdlc Hdlc Hfd Hst eq_refl)
    as (w1 & Hrun & (w2 & Hrun2 & _ & _ & Hcb & _) & _).
  exists w1, w2. auto.
Defined.

(** Witness of X13 on the recording platform: the host after the
    confirmation has seen callback 4 with status 0 and user data 40, and the
    frame is dispatched from there. *)
Lemma send_confirmation_round_trip_witness :
  ∃ w1 w2 : @world logging_platform,
    @can_npl_send logging_platform frame_123 K_NO_WAIT (Some 4) 40
      (lw_two_filters script_confirm)
    = Done 0 w1
    ∧ w_trace w2 = w_trace w1 ++ [EvTxCallback 4 0 40]
    ∧ w_host w2 = note_tx 4 0 40 (unseen script_confirm)
    ∧ tx_idle (w_data w2) = sem_idle_free
    ∧ @rx_thread_unit logging_platform frame_123 w1
      = Done (LoopContinue, frame_123)
          (dispatched frame_123 (with_event received_logged w2)).
Proof.
  assert (dlc frame_123
          ≤ @send_max_dlc logging_platform
              (w_data (lw_two_filters script_confirm)) frame_123) as Hdlc
    by (vm_compute; discriminate).
  assert (0 < dev_fd (w_data (lw_two_filters script_confirm))) as Hfd
    by reflexivity.
  destruct (@send_confirmation_round_trip logging_platform frame_123
              K_NO_WAIT 4 40 (lw_two_filters script_confirm) Hdlc Hfd
              eq_refl eq_refl)
    as (w1 & Hrun & _ & Hrx).
  assert (w_host w1 = unseen script_confirm) as Hh
    by (injection Hrun as <-; reflexivity).
  destruct (Hrx frame_123 frame_123 16 (unseen script_confirm))
    as (w2 & Htr & Hhost & Hdata & Hunit).
  { rewrite Hh. reflexivity. }
  exists w1, w2. split; [exact Hrun|]. split; [exact Htr|].
  split; [exact Hhost|]. split; [rewrite Hdata; reflexivity | exact Hunit].
Defined.

(** Witness of X14 on the demo platform. *)
Lemma sync_send_handshake_witness :
  tx_idle (w_data (w_two_filters script_confirm)) = sem_idle_free
  ∧ tx_done (w_data (w_two_filters script_confirm)) = sem_done_clear
  ∧ ∃ w1 k c w2,
      can_npl_send frame_123 K_FOREVER None 0 (w_two_filters script_confirm)
      = Pend TX_DONE K_FOREVER w1 k
      ∧ @rx_thread_unit (demo_platform false) frame_123 w1
        = @Done (demo_platform false) _ (c, frame_123) w2
      ∧ tx_idle (w_data w2) = sem_idle_free
      ∧ k 0 w2 = Done 0 w2.
Proof.
  split; [reflexivity|]. split; [reflexivity|].
  destruct (demo_send_checks script_confirm) as (Hdlc & Hfd & Hst).
  destruct (@sync_send_handshake (demo_platform false) frame_123 K_FOREVER 0
              (w_two_filters script_confirm) Hdlc Hfd Hst eq_refl eq_refl)
    as (w1 & k & Hrun & _ & Hh & Hrx).
  destruct (Hrx frame_123 frame_123 16 script_confirm)
    as (c & w2 & evs & Hunit & _ & _ & Hidle & _ & Hk).
  { rewrite Hh. reflexivity. }
  exists w1, k, c, w2. auto.
Defined.

(** Witness of X16 on the demo platform: a confirmation of 16 bytes without
    a pending callback gives both semaphores and touches nothing else. *)
Lemma receive_thread_footprint_witness :
  ∃ c w',
    @rx_thread_unit (demo_platform false) frame_123 (w_two_filters script_confirm)
    = @Done (demo_platform false) _ (c, frame_123) w'
    ∧ same_but_semaphores (w_data (w_two_filters script_confirm)) (w_data w')
    ∧ tx_idle (w_data w') = sem_idle_free
    ∧ tx_done (w_data w') = {| sem_count := 1; sem_limit := 1; sem_wait_q := O |}.
Proof.
  exact (@receive_thread_footprint (demo_platform false) frame_123 frame_123 16
           true script_confirm (w_two_filters script_confirm) eq_refl).
Defined.

(** Witness of X17 on the demo platform: with nothing to poll the loop ends
    at once, and with a read that brings nothing it ends after that read. *)
Lemma receive_loop_exits_witness :
  @rx_thread_inner (demo_platform false) 6 frame_123 (w_two_filters script_no_data)
  = Done (Some frame_123) (w_two_filters script_no_data)
  ∧ @rx_thread_inner (demo_platform false) 6 frame_123 (w_two_filters quiet)
    = Done (Some frame_123) (w_two_filters quiet).
Proof.
  split.
  - destruct (@receive_loop_exits (demo_platform false) 5 frame_123 1
                script_no_data (w_two_filters script_no_data) eq_refl)
      as [Hends _].
    apply Hends. discriminate.
  - destruct (@receive_loop_exits (demo_platform false) 5 frame_123 0
                quiet (w_two_filters quiet) eq_refl)
      as [_ Hreads].
    exact (Hreads eq_refl 0 frame_123 false quiet eq_refl).
Defined.

(** Witness of X18 on the demo platform. *)
Lemma reception_leaves_transmit_state_witness :
  @linux_socketcan_read_data (demo_platform false)
    (dev_fd (w_data (w_two_filters script_frame))) frame_123
    (w_host (w_two_filters script_frame))
  = ((16, frame_123, false), script_frame)
  ∧ ∃ c w',
      @rx_thread_unit (demo_platform false) frame_123 (w_two_filters script_frame)
      = @Done (demo_platform false) _ (c, frame_123) w'
      ∧ w_data w' = w_data (w_two_filters script_frame).
Proof.
  split; [reflexivity|].
  destruct (@reception_leaves_transmit_state (demo_platform false) frame_123
              frame_123 16 script_frame (w_two_filters script_frame) eq_refl)
    as (c & w' & evs & Hrun & Hd & _).
  exists c, w'. auto.
Defined.

(** Witness of X19 on the recording platform: frame 0x123 hits slots 0 and
    2 and not the empty slot 1; frame 0x456 matches no filter, and the host
    has seen nothing. *)
Lemma dispatch_host_effect_witness :
  (∃ hits,
     @dispatch_frame logging_platform frame_123 (lw_two_filters quiet)
     = Done tt
         (@Build_world logging_platform (w_data (lw_two_filters quiet))
            (foldl (λ h x, note_rx (hit_cb x) frame_123 (hit_arg x) h)
               (unseen quiet) hits)
            ([EvMutexLock]
             ++ map (λ x, EvRxCallback (hit_cb x) frame_123 (hit_arg x)) hits
             ++ [EvMutexUnlock]))
     ∧ (0%nat, 7, 70) ∈ hits ∧ (2%nat, 9, 90) ∈ hits
     ∧ ∀ cb arg, (1%nat, cb, arg) ∉ hits)
  ∧ @dispatch_frame logging_platform frame_456 (lw_two_filters quiet)
    = Done tt
        (@Build_world logging_platform (w_data (lw_two_filters quiet))
           (unseen quiet) [EvMutexLock; EvMutexUnlock]).
Proof.
  split.
  - destruct (@dispatch_host_effect logging_platform frame_123
                (lw_two_filters quiet))
      as [(hits & Hrun & Hmem & _) _].
    exists hits. split; [exact Hrun|]. split; [|split].
    + apply Hmem. exists (slot_123 7 70). repeat split.
    + apply Hmem. exists (slot_123 9 90). repeat split.
    + intros cb arg Hin. apply Hmem in Hin as (ctx & Hl & Hcb & _).
      injection Hl as <-. discriminate Hcb.
  - destruct (@dispatch_host_effect logging_platform frame_456
                (lw_two_filters quiet))
      as [_ Hnone].
    apply Hnone. intros i ctx cb Hl Hcb.
    destruct i as [|[|[|i]]]; cbn in Hl; [| | |discriminate Hl];
      injection Hl as <-; [reflexivity | discriminate Hcb | reflexivity].
Defined.


(** Witness of X23 on the demo platform. *)
Lemma loopback_follows_mode_witness :
  Z.land CAN_MODE_LOOPBACK (Z.lnot (@set_mode_mask (demo_platform false))) = 0
  ∧ started (w_data w_stopped) = false
  ∧ ∃ w1 w2,
      can_npl_set_mode CAN_MODE_LOOPBACK w_stopped = Done 0 w1
      ∧ can_npl_start w1 = Done 0 w2
      ∧ loopback (w_data w2) = true.
Proof.
  split; [reflexivity|]. split; [reflexivity|].
  destruct (@loopback_follows_mode (demo_platform false) CAN_MODE_LOOPBACK
              w_stopped eq_refl eq_refl) as (w1 & w2 & Hmode & Hstart & _).
  exists w1, w2. split; [exact Hmode|]. split; [exact Hstart|].
  revert Hstart. injection Hmode as <-. intros Hstart.
  injection Hstart as <-. reflexivity.
Defined.

(** Witness of X15 on the demo platform. *)
Lemma stop_keeps_send_in_flight_witness :
  tx_idle (w_data (w_two_filters script_confirm)) = sem_idle_free
  ∧ ∃ w1 w2 w3,
      can_npl_send frame_123 K_NO_WAIT (Some 4) 40 (w_two_filters script_confirm)
      = Done 0 w1
      ∧ can_npl_stop w1 = Done 0 w2
      ∧ @rx_thread_unit (demo_platform false) frame_123 w2
        = @Done (demo_platform false) _ (LoopContinue, frame_123) w3
      ∧ w_trace w3 = w_trace w2 ++ [EvTxCallback 4 0 40].
Proof.
  split; [reflexivity|].
  destruct (demo_send_checks script_confirm) as (Hdlc & Hfd & Hst).
  destruct (@stop_keeps_send_in_flight (demo_platform false) frame_123
              K_NO_WAIT 4 40 (w_two_filters script_confirm) Hdlc Hfd Hst eq_refl)
    as (w1 & w2 & Hrun & Hstop & _ & _ & Hrx).
  assert (w_host w2 = script_confirm) as Hh.
  { revert Hstop. injection Hrun as <-. intros Hstop. injection Hstop as <-.
    reflexivity. }
  destruct (Hrx frame_123 frame_123 16 script_confirm)
    as (w3 & Hunit & Htr & _).
  { rewrite Hh. reflexivity. }
  exists w1, w2, w3. auto.
Defined.

(** Witness of C2 on the recording platform: a confirmation of 16 bytes
    while callback 4 is pending, loopback on and the controller started. The
    host has seen the transmit callback once, with status 0 and user data
    40, and then the receive callbacks of slots 0 and 2, each with the
    frame as read. *)
Lemma rx_thread_confirmation_witness :
  ∃ w1 w2 : @world logging_platform,
    w_trace w1 = [EvTxCallback 4 0 40]
    ∧ w_host w1 = note_tx 4 0 40 (unseen script_confirm)
    ∧ w_data w1
      = set_sem TX_IDLE sem_idle_free (w_data (lw_in_flight script_confirm))
    ∧ @rx_thread_unit logging_platform frame_123 (lw_in_flight script_confirm)
      = Done (LoopContinue, frame_123) w2
    ∧ @dispatch_frame logging_platform frame_123 (with_event received_logged w1)
      = Done tt w2
    ∧ EvMutexLock ∈ drop 1 (w_trace w2)
    ∧ w_host w2
      = {| seen_rx := [(7, frame_123, 70); (9, frame_123, 90)];
           seen_tx := [(4, 0, 40)]; answers := script_confirm |}.
Proof.
  destruct (@rx_thread_confirmation logging_platform frame_123 frame_123 16
              (unseen script_confirm) (lw_in_flight script_confirm) eq_refl)
    as (w1 & Hcb & _ & Hpos & _).
  destruct (Hcb 4 eq_refl) as (Htr & Hh & Hd).
  destruct (Hpos eq_refl) as [Hon _].
  destruct (Hon eq_refl) as (w2 & Hunit & Hdisp & Hlock).
  exists w1, w2. rewrite Htr in Hlock.
  split; [exact Htr|]. split; [exact Hh|]. split; [exact Hd|].
  split; [exact Hunit|]. split; [exact Hdisp|]. split; [exact Hlock|].
  assert (@rx_thread_unit logging_platform frame_123 (lw_in_flight script_confirm)
          = Done (LoopContinue, frame_123)
              (@Build_world logging_platform
                 (set_sem TX_IDLE sem_idle_free
                    (w_data (lw_in_flight script_confirm)))
                 {| seen_rx := [(7, frame_123, 70); (9, frame_123, 90)];
                    seen_tx := [(4, 0, 40)]; answers := script_confirm |}
                 [EvTxCallback 4 0 40; received_logged; EvMutexLock;
                  EvRxCallback 7 frame_123 70; EvRxCallback 9 frame_123 90;
                  EvMutexUnlock])) as Hev by reflexivity.
  rewrite Hev in Hunit. injection Hunit as <-. reflexivity.
Defined.

(** A confirmation that comes without data is handled and ends the inner
    loop when loopback is on and the controller started: the transmit
    callback has run, no filter was called. *)
Lemma demo_confirmation_no_data :
  @rx_thread_unit logging_platform frame_123
    (lw_in_flight (demo_script (0, frame_123, true) 16))
  = Done (LoopBreak, frame_123)
      (@Build_world logging_platform
         (set_sem TX_IDLE sem_idle_free
            (w_data (lw_in_flight (demo_script (0, frame_123, true) 16))))
         (note_tx 4 0 40 (unseen (demo_script (0, frame_123, true) 16)))
         [EvTxCallback 4 0 40]).
Proof. reflexivity. Qed.

(** Witness of C3 on the recording platform: frame 0x123 hits slots 0 and 2
    and not the empty slot 1, and the host has seen both callbacks with the
    frame as received, although each overwrites the copy it is given. *)
Lemma dispatch_frame_fan_out_witness :
  ∃ hits,
    @dispatch_frame logging_platform frame_123 (lw_two_filters quiet)
    = Done tt
        (@Build_world logging_platform (w_data (lw_two_filters quiet))
           (foldl (λ h x, note_rx (hit_cb x) frame_123 (hit_arg x) h)
              (unseen quiet) hits)
           ([EvMutexLock]
            ++ map (λ x, EvRxCallback (hit_cb x) frame_123 (hit_arg x)) hits
            ++ [EvMutexUnlock]))
    ∧ foldl (λ h x, note_rx (hit_cb x) frame_123 (hit_arg x) h) (unseen quiet) hits
      = {| seen_rx := [(7, frame_123, 70); (9, frame_123, 90)];
           seen_tx := []; answers := quiet |}
    ∧ (0%nat, 7, 70) ∈ hits ∧ (2%nat, 9, 90) ∈ hits
    ∧ (∀ cb arg, (1%nat, cb, arg) ∉ hits)
    ∧ ∀ a b x y, hits !! a = Some x → hits !! b = Some y → (a < b)%nat →
                 (hit_slot x < hit_slot y)%nat.
Proof.
  destruct (@dispatch_frame_fan_out logging_platform frame_123
              (lw_two_filters quiet))
    as (hits & Hrun & Hmem & Hasc).
  exists hits. split; [exact Hrun|]. split; [|split; [|split; [|split]]].
  - assert (@dispatch_frame logging_platform frame_123 (lw_two_filters quiet)
            = Done tt
                (@Build_world logging_platform (w_data (lw_two_filters quiet))
                   {| seen_rx := [(7, frame_123, 70); (9, frame_123, 90)];
                      seen_tx := []; answers := quiet |}
                   [EvMutexLock; EvRxCallback 7 frame_123 70;
                    EvRxCallback 9 frame_123 90; EvMutexUnlock])) as Hev
      by reflexivity.
    rewrite Hev in Hrun.
    exact (eq_sym (f_equal (λ r, match r with
                                 | Done _ w' => w_host w'
                                 | Pend _ _ w' _ => w_host w'
                                 end) Hrun)).
  - apply Hmem. exists (slot_123 7 70). repeat split.
  - apply Hmem. exists (slot_123 9 90). repeat split.
  - intros cb arg Hin. apply Hmem in Hin as (ctx & Hl & Hcb & _).
    injection Hl as <-. discriminate Hcb.
  - exact Hasc.
Defined.

(** The same dispatch by evaluation: both callbacks were handed the frame as
    received, although each overwrites the copy it is given. *)
Lemma demo_dispatch_seen :
  @dispatch_frame logging_platform frame_123 (lw_two_filters quiet)
  = Done tt
      (@Build_world logging_platform (w_data (lw_two_filters quiet))
         {| seen_rx := [(7, frame_123, 70); (9, frame_123, 90)];
            seen_tx := []; answers := quiet |}
         [EvMutexLock; EvRxCallback 7 frame_123 70; EvRxCallback 9 frame_123 90;
          EvMutexUnlock]).
Proof. reflexivity. Qed.
